(** * The claim verification pipeline of [fact_checker.py]

    A shallow embedding of [FactChecker.verify_claim] and of the three
    adapters it drives ([_search_for_evidence], [_verify_with_llm],
    [get_gpt_score]), followed by the properties of the pipeline.

    Conventions.
    - A Python [str] is a [string]; every [ascii] stands for one code point
      below 256, so [String.length] is Python's [len].
    - A Python [float] is a [pyfloat]: a finite value is the rational it
      stands for, and [float] of a text is the binary64 value nearest to
      the literal, with its underflow and overflow.  The two zeros are one
      value: no comparison tells them apart, and the clamp returns 0.0 for
      both.  The one division of the endpoint is exact.
    - A Python [dict] with free keys is an association list in insertion
      order; the dictionaries the adapters pass to each other, whose keys
      are fixed, are records.
    - An exception is an instance of [Exception], with its class and its
      [str]; message texts are those of CPython 3.11.
    - The asynchronous calls are run in program order.  Each call to a
      collaborator is appended to a transcript; the collaborator's reply is
      a function of the world at the call, so of the clock and of all that
      happened before.  A run takes no time on the clock.
    - [print] calls are dropped. *)

From Stdlib Require Import ZArith QArith Ascii String List Bool Lia.
From Stdlib Require Import DecimalString.
From stdpp Require Import base gmap strings.

Import ListNotations.
Set Warnings "-register-all".
Local Open Scope string_scope.
Local Open Scope Z_scope.

(** ** Python strings *)

Module PyStr.

Definition code (c : ascii) : Z := Z.of_N (N_of_ascii c).

(** [str.isspace] on the code points below 256. *)
Definition is_space (c : ascii) : bool :=
  let n := code c in
  ((9 <=? n) && (n <=? 13)) || ((28 <=? n) && (n <=? 32))
  || (n =? 133) || (n =? 160).

Fixpoint lstrip (s : string) : string :=
  match s with
  | String c r => if is_space c then lstrip r else s
  | EmptyString => EmptyString
  end.

Fixpoint rstrip (s : string) : string :=
  match s with
  | EmptyString => EmptyString
  | String c r =>
      match rstrip r with
      | EmptyString => if is_space c then EmptyString else String c EmptyString
      | r' => String c r'
      end
  end.

(** [s.strip()] *)
Definition strip (s : string) : string := rstrip (lstrip s).

Definition lower_char (c : ascii) : ascii :=
  let n := code c in
  if ((65 <=? n) && (n <=? 90))
     || ((192 <=? n) && (n <=? 222) && negb (n =? 215))
  then ascii_of_N (Z.to_N (n + 32)) else c.

(** [s.lower()] *)
Fixpoint lower (s : string) : string :=
  match s with
  | EmptyString => EmptyString
  | String c r => String (lower_char c) (lower r)
  end.

(** [s.startswith(p)] *)
Definition startswith (p s : string) : bool := String.prefix p s.

(** [s.split(sep)] for a one-character separator: never empty. *)
Fixpoint split (sep : ascii) (s : string) : list string :=
  match s with
  | EmptyString => [EmptyString]
  | String c r =>
      if Ascii.eqb c sep then EmptyString :: split sep r
      else match split sep r with
           | w :: ws => String c w :: ws
           | [] => [String c EmptyString]
           end
  end.

(** [s.split(sep, 1)] *)
Fixpoint split1 (sep : ascii) (s : string) : list string :=
  match s with
  | EmptyString => [EmptyString]
  | String c r =>
      if Ascii.eqb c sep then [EmptyString; r]
      else match split1 sep r with
           | w :: ws => String c w :: ws
           | [] => [String c EmptyString]
           end
  end.

(** [sep.join(l)] *)
Definition join (sep : string) (l : list string) : string :=
  String.concat sep l.

(** [str(n)] for a natural number. *)
Definition of_nat (n : nat) : string :=
  NilZero.string_of_uint (Nat.to_uint n).

Definition is_digit (c : ascii) : bool :=
  let n := code c in (48 <=? n) && (n <=? 57).

Definition digit_val (c : ascii) : Z := code c - 48.

Definition hex_digit (n : Z) : ascii :=
  ascii_of_N (Z.to_N (if n <? 10 then 48 + n else 87 + n)).

(** [str.isprintable] on the code points below 256. *)
Definition is_printable (c : ascii) : bool :=
  let n := code c in
  ((32 <=? n) && (n <=? 126)) || ((161 <=? n) && negb (n =? 173)).

Fixpoint contains (c : ascii) (s : string) : bool :=
  match s with
  | EmptyString => false
  | String d r => Ascii.eqb c d || contains c r
  end.

Definition dquote : ascii := ascii_of_N 34.

Fixpoint repr_body (q : ascii) (s : string) : string :=
  match s with
  | EmptyString => EmptyString
  | String c r =>
      let n := code c in
      (if Ascii.eqb c q || (n =? 92) then String "\" (String c EmptyString)
       else if n =? 10 then "\n"
       else if n =? 13 then "\r"
       else if n =? 9 then "\t"
       else if is_printable c then String c EmptyString
       else String "\" (String "x" (String (hex_digit (n / 16))
              (String (hex_digit (n mod 16)) EmptyString))))
      ++ repr_body q r
  end.

(** [repr(s)]: single quotes unless the text has a single quote and no
    double quote. *)
Definition repr (s : string) : string :=
  let q := if contains "'" s && negb (contains dquote s)
           then dquote else "'"%char in
  String q (repr_body q s ++ String q EmptyString).

(** [s.encode()]: UTF-8. *)
Fixpoint encode (s : string) : list Z :=
  match s with
  | EmptyString => []
  | String c r =>
      let n := code c in
      if n <? 128 then n :: encode r
      else (192 + n / 64) :: (128 + n mod 64) :: encode r
  end.

End PyStr.

(** ** Exceptions and results of fallible steps *)

(** The classes of [Exception] the pipeline tells apart, and [str(e)]. *)
Inductive exn_class :=
| TypeError | ValueError | JSONDecodeError | KeyError | OverflowError
| AttributeError
| OtherError (name : string).

Record exn := Exn { exn_class_of : exn_class; exn_str : string }.

Inductive outcome (A : Type) :=
| Ok (a : A)
| Raise (e : exn).
Arguments Ok {A} a.
Arguments Raise {A} e.

Definition obind {A B} (o : outcome A) (k : A -> outcome B) : outcome B :=
  match o with
  | Ok a => k a
  | Raise e => Raise e
  end.

(** ** Python numbers *)

Inductive pyfloat :=
| Fin (q : Q)
| PInf
| NInf
| NaN.

Module PyNum.

(** [a < b] on floats; every comparison with NaN is false. *)
Definition flt (a b : pyfloat) : bool :=
  match a, b with
  | NaN, _ | _, NaN => false
  | Fin x, Fin y => negb (Qle_bool y x)
  | NInf, NInf => false
  | NInf, _ => true
  | Fin _, PInf => true
  | _, _ => false
  end.

Definition feq (a b : pyfloat) : bool :=
  match a, b with
  | Fin x, Fin y => Qeq_bool x y
  | PInf, PInf | NInf, NInf => true
  | _, _ => false
  end.

(** [min(a, b)] and [max(a, b)]: the first argument wins ties and
    failed comparisons. *)
Definition py_min (a b : pyfloat) : pyfloat := if flt b a then b else a.
Definition py_max (a b : pyfloat) : pyfloat := if flt a b then b else a.

Definition f0 : pyfloat := Fin 0.
Definition f50 : pyfloat := Fin 50.
Definition f100 : pyfloat := Fin 100.

(** [max(0.0, min(100.0, score))] *)
Definition clamp (score : pyfloat) : pyfloat := py_max f0 (py_min f100 score).

(** [min(100, max(0, n))] on integers. *)
Definition clamp_int (n : Z) : Z := Z.min 100 (Z.max 0 n).

(** [m * 10 ** e] as a reduced fraction. *)
Definition decimal (m e : Z) : Q :=
  if 0 <=? e then inject_Z (m * 10 ^ e)
  else Qred (m # Z.to_pos (10 ^ (- e))).

(** [floor(log2(n / d))] for positive [n] and [d]. *)
Definition ilog2 (n d : Z) : Z :=
  let e := Z.log2 n - Z.log2 d in
  if (if 0 <=? e then d * 2 ^ e <=? n else d <=? n * 2 ^ (- e))
  then e else e - 1.

(** [n / d] to the nearest integer, a tie to the even one, for [n] not
    negative and [d] positive. *)
Definition half_even (n d : Z) : Z :=
  let q := n / d in
  match 2 * (n mod d) ?= d with
  | Lt => q
  | Gt => q + 1
  | Eq => if Z.even q then q else q + 1
  end.

(** The binary64 value nearest to [n / d], a tie to the even significand:
    53 bits, the least exponent that of the subnormal numbers, infinity
    from [2 ** 1024 - 2 ** 970] on. *)
Definition binary64 (n : Z) (d : positive) : pyfloat :=
  if n =? 0 then Fin 0
  else
    let a := Z.abs n in
    let p := Z.max (ilog2 a (Zpos d) - 52) (- 1074) in
    let m := if 0 <=? p then half_even a (Zpos d * 2 ^ p)
             else half_even (a * 2 ^ (- p)) (Zpos d) in
    if (0 <=? p) && (2 ^ 1024 <=? m * 2 ^ p)
    then if n <? 0 then NInf else PInf
    else
      let m := if n <? 0 then - m else m in
      Fin (if 0 <=? p then inject_Z (m * 2 ^ p)
           else Qred (m # Z.to_pos (2 ^ (- p)))).

(** The [float] that a decimal literal of value [q] denotes. *)
Definition round (q : Q) : pyfloat := binary64 (Qnum q) (Qden q).

(** The white space that [float] and [int] accept around a literal: of
    the code points below 256 those of [str.isspace] but the four
    separators U+001C to U+001F. *)
Definition is_space (c : ascii) : bool :=
  PyStr.is_space c && negb ((28 <=? PyStr.code c) && (PyStr.code c <=? 31)).

Fixpoint lstrip (s : string) : string :=
  match s with
  | String c r => if is_space c then lstrip r else s
  | EmptyString => EmptyString
  end.

Fixpoint rstrip (s : string) : string :=
  match s with
  | EmptyString => EmptyString
  | String c r =>
      match rstrip r with
      | EmptyString => if is_space c then EmptyString else String c EmptyString
      | r' => String c r'
      end
  end.

Definition strip (s : string) : string := rstrip (lstrip s).

Definition parse_sign (s : string) : bool * string :=
  match s with
  | String "-" r => (true, r)
  | String "+" r => (false, r)
  | _ => (false, s)
  end.

(** The longest prefix of digits, as a number and a digit count. *)
Fixpoint take_digits (acc : Z) (n : Z) (s : string) : Z * Z * string :=
  match s with
  | String c r =>
      if PyStr.is_digit c
      then take_digits (10 * acc + PyStr.digit_val c) (n + 1) r
      else (acc, n, s)
  | EmptyString => (acc, n, s)
  end.

(** Underscores of a numeric literal: allowed between two digits only.
    Returns the text without them. *)
Fixpoint drop_underscores (prev : ascii) (s : string) : option string :=
  match s with
  | EmptyString =>
      if Ascii.eqb prev "_" then None else Some EmptyString
  | String c r =>
      if Ascii.eqb c "_"
      then if PyStr.is_digit prev then drop_underscores c r else None
      else if Ascii.eqb prev "_" && negb (PyStr.is_digit c) then None
      else option_map (String c) (drop_underscores c r)
  end.

Definition parse_float_text (s : string) : option pyfloat :=
  let '(neg, s1) := parse_sign s in
  let l := PyStr.lower s1 in
  if String.eqb l "inf" || String.eqb l "infinity"
  then Some (if neg then NInf else PInf)
  else if String.eqb l "nan" then Some NaN
  else
    let '(ip, ni, s2) := take_digits 0 0 s1 in
    let '(m, nf, s3) :=
      match s2 with
      | String "." r => take_digits ip 0 r
      | _ => (ip, 0, s2)
      end in
    if ni + nf =? 0 then None
    else
      let m := if neg then - m else m in
      match s3 with
      | EmptyString => Some (round (decimal m (- nf)))
      | String c r =>
          if Ascii.eqb c "e" || Ascii.eqb c "E"
          then
            let '(eneg, r1) := parse_sign r in
            let '(ex, ne, r2) := take_digits 0 0 r1 in
            if (ne =? 0) || negb (String.eqb r2 EmptyString) then None
            else Some (round (decimal m ((if eneg then - ex else ex) - nf)))
          else None
      end.

(** [float(s)] for a string: [None] stands for [ValueError]. *)
Definition float_of_string (s : string) : option pyfloat :=
  match drop_underscores zero (strip s) with
  | Some t => parse_float_text t
  | None => None
  end.

(** [sys.get_int_max_str_digits()], at its default. *)
Definition int_max_str_digits : Z := 4300.

Definition take (n : nat) (s : string) : string := String.substring 0 n s.

Definition invalid_literal (s : string) : exn :=
  Exn ValueError
    ("invalid literal for int() with base 10: " ++ take 200 (PyStr.repr s)).

(** The run of digits and single underscores at the head of a literal:
    [None] when an underscore is misplaced. *)
Fixpoint scan_int (prev : ascii) (acc n : Z) (s : string)
  : option (Z * Z * string) :=
  match s with
  | String c r =>
      if PyStr.is_digit c
      then scan_int c (10 * acc + PyStr.digit_val c) (n + 1) r
      else if Ascii.eqb c "_"
      then if PyStr.is_digit prev then scan_int c acc n r else None
      else if Ascii.eqb prev "_" then None else Some (acc, n, s)
  | EmptyString =>
      if Ascii.eqb prev "_" then None else Some (acc, n, s)
  end.

(** [int(s)] for a string. *)
Definition int_of_string (s : string) : outcome Z :=
  let '(neg, s1) := parse_sign (strip s) in
  match scan_int zero 0 0 s1 with
  | None => Raise (invalid_literal s)
  | Some (m, n, rest) =>
      if int_max_str_digits <? n
      then Raise (Exn ValueError
             ("Exceeds the limit (4300 digits) for integer string conversion: value has "
              ++ PyStr.of_nat (Z.to_nat n)
              ++ " digits; use sys.set_int_max_str_digits() to increase the limit"))
      else if (n =? 0) || negb (String.eqb rest EmptyString)
      then Raise (invalid_literal s)
      else Ok (if neg then - m else m)
  end.

(** [int(x)] for a float: truncation towards zero. *)
Definition int_of_float (x : pyfloat) : outcome Z :=
  match x with
  | Fin q => Ok (Z.quot (Qnum q) (Zpos (Qden q)))
  | NaN => Raise (Exn ValueError "cannot convert float NaN to integer")
  | PInf | NInf =>
      Raise (Exn OverflowError "cannot convert float infinity to integer")
  end.

End PyNum.

(** ** JSON values, as [json.loads] builds them *)

Inductive json :=
| JNull
| JBool (b : bool)
| JInt (n : Z)
| JFloat (x : pyfloat)
| JStr (s : string)
| JList (l : list json)
| JDict (d : list (string * json)).

Module Json.

(** [d.get(k)] on an association list. *)
Fixpoint lookup (k : string) (d : list (string * json)) : option json :=
  match d with
  | [] => None
  | (k', v) :: r => if String.eqb k k' then Some v else lookup k r
  end.

Definition keys (v : json) : list string :=
  match v with
  | JDict d => map fst d
  | _ => []
  end.

(** [v.get(k)] when [v] is a [dict]. *)
Definition field (k : string) (v : json) : option json :=
  match v with
  | JDict d => lookup k d
  | _ => None
  end.

(** [bool(v)] *)
Definition truthy (v : json) : bool :=
  match v with
  | JNull => false
  | JBool b => b
  | JInt n => negb (n =? 0)
  | JFloat x => negb (PyNum.feq x PyNum.f0)
  | JStr s => negb (String.eqb s EmptyString)
  | JList l => match l with [] => false | _ => true end
  | JDict d => match d with [] => false | _ => true end
  end.

(** Lists and dicts cannot be members of a [set]. *)
Definition hashable (v : json) : bool :=
  match v with
  | JList _ | JDict _ => false
  | _ => true
  end.

Definition number (v : json) : option pyfloat :=
  match v with
  | JBool b => Some (Fin (if b then 1 else 0))
  | JInt n => Some (Fin (inject_Z n))
  | JFloat x => Some x
  | _ => None
  end.

(** [a == b] on hashable values: numbers compare by value across
    [bool], [int] and [float]. *)
Definition py_eq (a b : json) : bool :=
  match a, b with
  | JNull, JNull => true
  | JStr s, JStr t => String.eqb s t
  | _, _ =>
      match number a, number b with
      | Some x, Some y => PyNum.feq x y
      | _, _ => false
      end
  end.

(** [type(v).__name__] *)
Definition type_name (v : json) : string :=
  match v with
  | JNull => "NoneType"
  | JBool _ => "bool"
  | JInt _ => "int"
  | JFloat _ => "float"
  | JStr _ => "str"
  | JList _ => "list"
  | JDict _ => "dict"
  end.

(** [int(v)] *)
Definition to_int (v : json) : outcome Z :=
  match v with
  | JBool b => Ok (if b then 1 else 0)
  | JInt n => Ok n
  | JFloat x => PyNum.int_of_float x
  | JStr s => PyNum.int_of_string s
  | _ => Raise (Exn TypeError
           ("int() argument must be a string, a bytes-like object or a real number, not '"
            ++ type_name v ++ "'"))
  end.

(** [v[k]] for a string key. *)
Definition subscript (v : json) (k : string) : outcome json :=
  match v with
  | JDict d =>
      match lookup k d with
      | Some x => Ok x
      | None => Raise (Exn KeyError (PyStr.repr k))
      end
  | JList _ =>
      Raise (Exn TypeError "list indices must be integers or slices, not str")
  | JStr _ =>
      Raise (Exn TypeError "string indices must be integers, not 'str'")
  | _ =>
      Raise (Exn TypeError
               ("'" ++ type_name v ++ "' object is not subscriptable"))
  end.

End Json.

(** ** [hashlib.md5] (RFC 1321), on bytes as numbers below 256 *)

Module Md5.

Definition w32 (x : Z) : Z := x mod 2 ^ 32.

Definition rotl (x : Z) (c : Z) : Z :=
  w32 (Z.lor (Z.shiftl x c) (Z.shiftr x (32 - c))).

Definition not32 (x : Z) : Z := Z.lxor x 0xffffffff.

Definition K : list Z :=
  [ 0xd76aa478; 0xe8c7b756; 0x242070db; 0xc1bdceee;
    0xf57c0faf; 0x4787c62a; 0xa8304613; 0xfd469501;
    0x698098d8; 0x8b44f7af; 0xffff5bb1; 0x895cd7be;
    0x6b901122; 0xfd987193; 0xa679438e; 0x49b40821;
    0xf61e2562; 0xc040b340; 0x265e5a51; 0xe9b6c7aa;
    0xd62f105d; 0x02441453; 0xd8a1e681; 0xe7d3fbc8;
    0x21e1cde6; 0xc33707d6; 0xf4d50d87; 0x455a14ed;
    0xa9e3e905; 0xfcefa3f8; 0x676f02d9; 0x8d2a4c8a;
    0xfffa3942; 0x8771f681; 0x6d9d6122; 0xfde5380c;
    0xa4beea44; 0x4bdecfa9; 0xf6bb4b60; 0xbebfbc70;
    0x289b7ec6; 0xeaa127fa; 0xd4ef3085; 0x04881d05;
    0xd9d4d039; 0xe6db99e5; 0x1fa27cf8; 0xc4ac5665;
    0xf4292244; 0x432aff97; 0xab9423a7; 0xfc93a039;
    0x655b59c3; 0x8f0ccc92; 0xffeff47d; 0x85845dd1;
    0x6fa87e4f; 0xfe2ce6e0; 0xa3014314; 0x4e0811a1;
    0xf7537e82; 0xbd3af235; 0x2ad7d2bb; 0xeb86d391 ].

Definition S : list Z :=
  [ 7; 12; 17; 22; 7; 12; 17; 22; 7; 12; 17; 22; 7; 12; 17; 22;
    5; 9; 14; 20; 5; 9; 14; 20; 5; 9; 14; 20; 5; 9; 14; 20;
    4; 11; 16; 23; 4; 11; 16; 23; 4; 11; 16; 23; 4; 11; 16; 23;
    6; 10; 15; 21; 6; 10; 15; 21; 6; 10; 15; 21; 6; 10; 15; 21 ].

Record state := St { sa : Z; sb : Z; sc : Z; sd : Z }.

Definition init : state :=
  St 0x67452301 0xefcdab89 0x98badcfe 0x10325476.

Definition round (M : list Z) (st : state) (i : nat) : state :=
  let '(St a b c d) := st in
  let iz := Z.of_nat i in
  let '(f, g) :=
    if iz <? 16 then (Z.lor (Z.land b c) (Z.land (not32 b) d), iz)
    else if iz <? 32
    then (Z.lor (Z.land d b) (Z.land (not32 d) c), (5 * iz + 1) mod 16)
    else if iz <? 48 then (Z.lxor b (Z.lxor c d), (3 * iz + 5) mod 16)
    else (Z.lxor c (Z.lor b (not32 d)), (7 * iz) mod 16) in
  let f' := w32 (f + a + nth i K 0 + nth (Z.to_nat g) M 0) in
  St d (w32 (b + rotl f' (nth i S 0))) b c.

Definition block (st : state) (M : list Z) : state :=
  let '(St a b c d) := fold_left (round M) (seq 0 64) st in
  St (w32 (sa st + a)) (w32 (sb st + b)) (w32 (sc st + c)) (w32 (sd st + d)).

(** Little-endian 32-bit words of a byte sequence. *)
Fixpoint words (l : list Z) : list Z :=
  match l with
  | a :: b :: c :: d :: r =>
      (a + 2 ^ 8 * b + 2 ^ 16 * c + 2 ^ 24 * d) :: words r
  | _ => []
  end.

Fixpoint blocks (fuel : nat) (ws : list Z) (st : state) : state :=
  match fuel, ws with
  | Datatypes.S n, _ :: _ => blocks n (skipn 16 ws) (block st (firstn 16 ws))
  | _, _ => st
  end.

Definition le_bytes (n : nat) (x : Z) : list Z :=
  map (fun i => (x / 2 ^ (8 * Z.of_nat i)) mod 256) (seq 0 n).

Definition pad (msg : list Z) : list Z :=
  let len := Z.of_nat (length msg) in
  let zeros := Z.to_nat ((55 - len) mod 64) in
  msg ++ [128] ++ repeat 0 zeros ++ le_bytes 8 ((8 * len) mod 2 ^ 64).

Definition digest (msg : list Z) : list Z :=
  let ws := words (pad msg) in
  let '(St a b c d) := blocks (length ws) ws init in
  le_bytes 4 a ++ le_bytes 4 b ++ le_bytes 4 c ++ le_bytes 4 d.

Fixpoint hex (l : list Z) : string :=
  match l with
  | [] => EmptyString
  | x :: r =>
      String (PyStr.hex_digit (x / 16))
        (String (PyStr.hex_digit (x mod 16)) (hex r))
  end.

(** [hashlib.md5(msg).hexdigest()] *)
Definition hexdigest (msg : list Z) : string := hex (digest msg).

End Md5.


(** ** The collaborators: cache store, search provider, the two judges *)

(** One entry of the transcript per call that leaves the process. *)
Inductive call :=
| RedisGet (key : string)
| RedisSetex (key : string) (ttl : Z) (value : string)
| SearchPost (q : string)
| GenerateContent (prompt : string)
| ChatCompletion (system user : string).

(** The clock (in seconds), the cache store (value and instant of expiry
    per key) and the transcript so far.  The store changes through
    [redis_setex] only. *)
Record world := World {
  now : Z;
  redis : gmap string (string * Z);
  log : list call }.

Record http_response := Response {
  status_code : Z;
  json_body : outcome json }.

(** The module-level configuration and the behaviour of everything the
    pipeline calls: each reply may depend on the whole world, so also on
    the clock and on every earlier call.  [gemini_model] says whether
    [self.model] is set; [redis_fault] says when the cache store raises
    instead of answering; [json_dumps] and [json_loads] are the codec of
    the [json] module. *)
Record env := Env {
  REDIS_AVAILABLE : bool;
  SERPER_API_KEY : option string;
  OPENAI_API_KEY : option string;
  gemini_model : bool;
  redis_fault : world -> call -> option exn;
  search_post : world -> string -> outcome http_response;
  generate_content : world -> string -> outcome string;
  chat_completion : world -> string -> string -> outcome string;
  json_dumps : json -> string;
  json_loads : string -> outcome json }.

(** [bool(key)] for a key read with [os.getenv]. *)
Definition key_set (k : option string) : bool :=
  match k with
  | Some s => negb (String.eqb s EmptyString)
  | None => false
  end.

(** ** The monad of the pipeline: world passing with exceptions *)

Definition M (A : Type) : Type := world -> outcome A * world.

Definition ret {A} (a : A) : M A := fun w => (Ok a, w).

Definition bind {A B} (m : M A) (k : A -> M B) : M B :=
  fun w =>
    match m w with
    | (Ok a, w') => k a w'
    | (Raise e, w') => (Raise e, w')
    end.

Definition raise {A} (e : exn) : M A := fun w => (Raise e, w).

Definition lift {A} (o : outcome A) : M A := fun w => (o, w).

(** [try: m  except Exception as e: h e] *)
Definition try_except {A} (m : M A) (h : exn -> M A) : M A :=
  fun w =>
    match m w with
    | (Ok a, w') => (Ok a, w')
    | (Raise e, w') => h e w'
    end.

(** [try: m  except (classes) as e: h e] *)
Definition try_except_in {A} (guard : exn_class -> bool) (m : M A)
  (h : exn -> M A) : M A :=
  fun w =>
    match m w with
    | (Ok a, w') => (Ok a, w')
    | (Raise e, w') =>
        if guard (exn_class_of e) then h e w' else (Raise e, w')
    end.

Declare Scope pipeline_scope.
Delimit Scope pipeline_scope with pipeline.
Notation "'let*' x ':=' m 'in' k" := (bind m (fun x => k))
  (at level 10, x name, m at level 100, k at level 200) : pipeline_scope.
Local Open Scope pipeline_scope.

Definition logged (c : call) (w : world) : world :=
  World (now w) (redis w) (log w ++ [c]).

(** A call to a collaborator: the reply is the one the collaborator gives
    in the world of the call. *)
Definition external {A} (c : call) (reply : world -> outcome A) : M A :=
  fun w => (reply w, logged c w).

(** [redis_client.get(key)]: the value, unless it has expired. *)
Definition redis_get (E : env) (key : string) : M (option string) :=
  fun w =>
    match redis_fault E w (RedisGet key) with
    | Some e => (Raise e, logged (RedisGet key) w)
    | None =>
        (Ok match redis w !! key with
            | Some (v, expiry) => if now w <? expiry then Some v else None
            | None => None
            end,
         logged (RedisGet key) w)
    end.

(** [redis_client.setex(key, ttl, value)] *)
Definition redis_setex (E : env) (key : string) (ttl : Z) (value : string)
  : M unit :=
  fun w =>
    let c := RedisSetex key ttl value in
    match redis_fault E w c with
    | Some e => (Raise e, logged c w)
    | None =>
        (Ok tt, World (now w) (<[key := (value, now w + ttl)]> (redis w))
                  (log w ++ [c]))
    end.

Definition nl : string := String (ascii_of_N 10) EmptyString.

Definition quoted (s : string) : string :=
  String PyStr.dquote (s ++ String PyStr.dquote EmptyString).

(** ** [FactChecker._search_for_evidence] *)

Record evidence_item := Evidence {
  title : string;
  link : json;
  snippet : string;
  source : string }.

Definition no_attribute (v : json) (attr : string) : exn :=
  Exn AttributeError
    ("'" ++ Json.type_name v ++ "' object has no attribute '" ++ attr ++ "'").

(** [result.get(k, '').strip()] *)
Definition get_stripped (k : string) (d : list (string * json))
  : outcome string :=
  match Json.lookup k d with
  | None => Ok (PyStr.strip EmptyString)
  | Some (JStr s) => Ok (PyStr.strip s)
  | Some v => Raise (no_attribute v "strip")
  end.

(** [a is b or a == b], the test by which a [set] finds a member.  Of the
    values that can be members, the NaN is the one that differs from
    itself, and [json.loads] builds every NaN of a document as one and the
    same object. *)
Definition same (a b : json) : bool :=
  match a, b with
  | JFloat NaN, JFloat NaN => true
  | _, _ => Json.py_eq a b
  end.

(** [url in seen_urls] *)
Definition seen (url : json) (seen_urls : list json) : bool :=
  existsb (same url) seen_urls.

(** The loop over the organic results, with its two accumulators. *)
Fixpoint organic_loop (results : list json) (seen_urls : list json)
  (evidence : list evidence_item) : outcome (list evidence_item) :=
  match results with
  | [] => Ok evidence
  | JDict d :: rest =>
      let url := match Json.lookup "link" d with
                 | Some v => v
                 | None => JStr EmptyString
                 end in
      if Json.truthy url then
        if Json.hashable url then
          if seen url seen_urls then organic_loop rest seen_urls evidence
          else
            obind (get_stripped "title" d) (fun t =>
            obind (get_stripped "snippet" d) (fun s =>
            organic_loop rest (seen_urls ++ [url])
              (evidence ++ [Evidence t url s "web_search"])))
        else Raise (Exn TypeError
                      ("unhashable type: '" ++ Json.type_name url ++ "'"))
      else organic_loop rest seen_urls evidence
  | result :: _ => Raise (no_attribute result "get")
  end.

(** What [for result in v] walks through. *)
Definition iterate (v : json) : outcome (list json) :=
  match v with
  | JList l => Ok l
  | JStr s => Ok (map (fun c => JStr (String c EmptyString)) (list_ascii_of_string s))
  | JDict d => Ok (map (fun kv => JStr (fst kv)) d)
  | _ => Raise (Exn TypeError
                 ("'" ++ Json.type_name v ++ "' object is not iterable"))
  end.

(** The body of [if response.status_code == 200], from [results]. *)
Definition extract_evidence (results : json) : outcome (list evidence_item) :=
  match results with
  | JDict d =>
      obind (iterate match Json.lookup "organic" d with
                     | Some v => v
                     | None => JList []
                     end)
        (fun items => organic_loop items [] [])
  | _ => Raise (no_attribute results "get")
  end.

Definition _search_for_evidence (E : env) (claim : string)
  : M (list evidence_item) :=
  if negb (key_set (SERPER_API_KEY E)) then ret []
  else
    try_except
      (let search_query := "fact check " ++ claim in
       let* response :=
         external (SearchPost search_query)
           (fun w => search_post E w search_query) in
       if status_code response =? 200
       then let* results := lift (json_body response) in
            lift (extract_evidence results)
       else ret [])
      (fun _ => ret []).

(** ** [FactChecker._verify_with_llm] *)

Record judge_outcome := Judged {
  score : pyfloat;
  verdict : string;
  explanation : string }.

(** [enumerate(l)], counting from [i]. *)
Fixpoint enumerate {A} (i : nat) (l : list A) : list (nat * A) :=
  match l with
  | [] => []
  | x :: r => (i, x) :: enumerate (Datatypes.S i) r
  end.

Definition evidence_text (evidence : list evidence_item) : string :=
  PyStr.join nl
    (map (fun ie => "Source " ++ PyStr.of_nat (fst ie + 1) ++ ": "
                    ++ title (snd ie) ++ nl ++ snippet (snd ie))
       (enumerate 0 (firstn 5 evidence))).

Definition llm_prompt (claim : string) (evidence : list evidence_item)
  : string :=
  PyStr.join nl
    [ "Analyze this claim and determine if it is true or false based on the evidence provided.";
      EmptyString;
      "Claim: " ++ quoted claim;
      EmptyString;
      "Evidence:";
      evidence_text evidence;
      EmptyString;
      "Please analyze the claim carefully and provide:";
      "1. A score from 0-100 (where 0 is completely false and 100 is completely true)";
      "2. A detailed explanation of your reasoning";
      "3. A clear verdict (true/false/partial)";
      EmptyString;
      "Format your response exactly like this:";
      "SCORE: [number 0-100]";
      "VERDICT: [true/false/partial]";
      "EXPLANATION: [your detailed analysis]" ].

(** [line.split(sep)[1]]; with the label in front there is always one. *)
Definition second (parts : list string) : string := nth 1 parts EmptyString.

Definition verdicts : list string := ["true"; "false"; "partial"].

(** One turn of [for line in lines]. *)
Definition parse_line (st : judge_outcome) (line : string) : judge_outcome :=
  if PyStr.startswith "SCORE:" line then
    let score_str := PyStr.strip (second (PyStr.split ":" line)) in
    match PyNum.float_of_string score_str with
    | Some x => Judged (PyNum.clamp x) (verdict st) (explanation st)
    | None => Judged PyNum.f50 (verdict st) (explanation st)
    end
  else if PyStr.startswith "VERDICT:" line then
    let v := PyStr.lower (PyStr.strip (second (PyStr.split ":" line))) in
    if existsb (String.eqb v) verdicts
    then Judged (score st) v (explanation st)
    else st
  else if PyStr.startswith "EXPLANATION:" line then
    Judged (score st) (verdict st)
      (PyStr.strip (second (PyStr.split1 ":" line)))
  else st.

(** From [response.text] to the returned dictionary. *)
Definition parse_response (response_text : string) : judge_outcome :=
  let lines := PyStr.split (ascii_of_N 10) response_text in
  let st := fold_left parse_line lines (Judged PyNum.f50 "neutral" EmptyString) in
  let explanation :=
    if String.eqb (explanation st) EmptyString && (2 <? length lines)%nat
    then PyStr.strip (PyStr.join nl (skipn 2 lines))
    else explanation st in
  Judged (score st) (verdict st)
    (if String.eqb explanation EmptyString then "No explanation provided"
     else explanation).

Definition _verify_with_llm (E : env) (claim : string)
  (evidence : list evidence_item) : M judge_outcome :=
  if negb (gemini_model E)
  then raise (Exn (OtherError "Exception") "Gemini model not available")
  else
    let prompt := llm_prompt claim evidence in
    let* response_text :=
      external (GenerateContent prompt) (fun w => generate_content E w prompt) in
    ret (parse_response response_text).

(** ** [get_gpt_score] *)

Definition gpt_system : string :=
  "You are a fact-checking scoring system. Score claims based on their explanations.".

Definition gpt_prompt (claim explanation : string) : string :=
  PyStr.join nl
    [ "Analyze this claim and explanation to determine if the claim is true or false.";
      EmptyString;
      "Claim: " ++ quoted claim;
      EmptyString;
      "Explanation from analysis: " ++ quoted explanation;
      EmptyString;
      "Based on how well the explanation proves or disproves the claim, give a score:";
      "0 = Completely false";
      "100 = Completely true";
      EmptyString;
      "Respond in this exact JSON format:";
      "{";
      "    " ++ quoted "score" ++ ": [number 0-100],";
      "    " ++ quoted "explanation"
        ++ ": [brief explanation of why you gave this score]";
      "}" ].

(** The dictionary [get_gpt_score] returns: [gpt_score] is an [int] or
    [None]. *)
Record gpt_outcome := Gpt {
  gpt_score : option Z;
  gpt_explanation : json }.

(** [except (json.JSONDecodeError, KeyError, ValueError)] *)
Definition parse_guard (c : exn_class) : bool :=
  match c with
  | JSONDecodeError | KeyError | ValueError => true
  | _ => false
  end.

Definition get_gpt_score (E : env) (claim explanation : string)
  : M gpt_outcome :=
  if negb (key_set (OPENAI_API_KEY E))
  then ret (Gpt None (JStr "OpenAI API key not set"))
  else
    try_except
      (let prompt := gpt_prompt claim explanation in
       let* content :=
         external (ChatCompletion gpt_system prompt)
           (fun w => chat_completion E w gpt_system prompt) in
       try_except_in parse_guard
         (let* result := lift (json_loads E content) in
          let* s := lift (Json.subscript result "score") in
          let* n := lift (Json.to_int s) in
          let* x := lift (Json.subscript result "explanation") in
          ret (Gpt (Some (PyNum.clamp_int n)) x))
         (fun e =>
            ret (Gpt None (JStr ("Error parsing GPT response: " ++ exn_str e)))))
      (fun e => ret (Gpt None (JStr ("Error calling GPT API: " ++ exn_str e)))).

(** ** [FactChecker.verify_claim] *)

(** Line 109: [not claim or len(claim.strip()) < 3] *)
Definition too_short (claim : string) : bool :=
  String.eqb claim EmptyString
  || (String.length (PyStr.strip claim) <? 3)%nat.

(** The seven-field dictionary of the two early exits (lines 110-118 and
    175-183). *)
Definition placeholder (claim verdict explanation : string) : json :=
  JDict [ ("text", JStr claim);
          ("score", JFloat PyNum.f50);
          ("verdict", JStr verdict);
          ("explanation", JStr explanation);
          ("sources", JList []);
          ("evidence", JList []);
          ("reviews", JList []) ].

Definition rejected (claim : string) : json :=
  placeholder claim "neutral" "Claim too short or empty".

Definition error_result (claim : string) (e : exn) : json :=
  placeholder claim "error" ("Error verifying claim: " ++ exn_str e).

(** [context or ''] *)
Definition or_empty (context : option string) : string :=
  match context with
  | Some c => c
  | None => EmptyString
  end.

(** Line 121. *)
Definition cache_key (claim : string) (context : option string) : string :=
  "factcheck:" ++ Md5.hexdigest (PyStr.encode (claim ++ or_empty context)).

(** [3600 * 24] *)
Definition ttl : Z := 3600 * 24.

(** Lines 124-127, the cache lookup: [Some] is a hit, already decoded. *)
Definition cache_lookup (E : env) (key : string) : M (option json) :=
  if REDIS_AVAILABLE E then
    let* cached_result := redis_get E key in
    match cached_result with
    | Some bytes =>
        if negb (String.eqb bytes EmptyString)
        then let* v := lift (json_loads E bytes) in ret (Some v)
        else ret None
    | None => ret None
    end
  else ret None.

(** Lines 133-142, the primary judge with its guard. *)
Definition primary_step (E : env) (claim : string)
  (evidence : list evidence_item) : M judge_outcome :=
  try_except
    (let* ai_result := _verify_with_llm E claim evidence in
     ret (Judged (score ai_result) (verdict ai_result) (explanation ai_result)))
    (fun e =>
       ret (Judged PyNum.f50 "neutral" ("Error in AI analysis: " ++ exn_str e))).

(** What [float(None)] raises. *)
Definition float_of_None : exn :=
  Exn TypeError
    "float() argument must be a string or a real number, not 'NoneType'".

(** [float(gpt_res.get("gpt_score", 50))]: the key is always there. *)
Definition float_of_gpt_score (s : option Z) : outcome pyfloat :=
  match s with
  | Some n => Ok (Fin (inject_Z n))
  | None => Raise float_of_None
  end.

(** Lines 145-152, the secondary judge with its guard. *)
Definition secondary_step (E : env) (claim explanation : string)
  : M (option pyfloat * json) :=
  try_except
    (let* gpt_res := get_gpt_score E claim explanation in
     let* gpt_score := lift (float_of_gpt_score (gpt_score gpt_res)) in
     ret (Some gpt_score, gpt_explanation gpt_res))
    (fun e =>
       ret (None, JStr ("Error in GPT secondary check: " ++ exn_str e))).

Definition evidence_json (e : evidence_item) : json :=
  JDict [ ("title", JStr (title e));
          ("link", link e);
          ("snippet", JStr (snippet e));
          ("source", JStr (source e)) ].

(** [[e.get("link") for e in evidence if e.get("link")]] *)
Definition sources_of (evidence : list evidence_item) : list json :=
  map link (List.filter (fun e => Json.truthy (link e)) evidence).

(** Lines 155-165. *)
Definition final_result (claim : string) (primary : judge_outcome)
  (evidence : list evidence_item) (secondary : option pyfloat * json) : json :=
  JDict [ ("text", JStr claim);
          ("score", JFloat (score primary));
          ("verdict", JStr (verdict primary));
          ("explanation", JStr (explanation primary));
          ("evidence", JList (map evidence_json evidence));
          ("sources", JList (sources_of evidence));
          ("reviews", JList []);
          ("gpt_score", match fst secondary with
                        | Some x => JFloat x
                        | None => JNull
                        end);
          ("gpt_explanation", snd secondary) ].

(** Lines 168-171: [if REDIS_AVAILABLE: redis_client.setex(...)], then
    [return final_result]. *)
Definition write_through (E : env) (key : string) (result : json) : M json :=
  let* _ := (if REDIS_AVAILABLE E
             then redis_setex E key ttl (json_dumps E result)
             else ret tt) in
  ret result.

(** The body of the outer [try]. *)
Definition verify_claim_body (E : env) (claim : string)
  (context : option string) : M json :=
  if too_short claim then ret (rejected claim)
  else
    let key := cache_key claim context in
    let* cached := cache_lookup E key in
    match cached with
    | Some v => ret v
    | None =>
        let* evidence := _search_for_evidence E claim in
        let* primary := primary_step E claim evidence in
        let* secondary := secondary_step E claim (explanation primary) in
        write_through E key (final_result claim primary evidence secondary)
    end.

Definition verify_claim (E : env) (claim : string) (context : option string)
  : M json :=
  try_except (verify_claim_body E claim context)
    (fun e => ret (error_result claim e)).


(** ** A JSON writer and reader for the sample environments

    [json.dumps] and [json.loads] belong to the environment: the theorems
    hold for every pair.  The sample environments below use this pair, a
    stand-in for the two.  The writer follows [json.dumps] with its default
    separators and ASCII escapes, but writes a float with all its decimal
    places where Python writes the shortest text that reads back.  The
    reader reads that output back, and more of JSON; like [json.loads] it
    keeps the last value of a repeated key, at the place of the first;
    where [json.loads] raises it raises too, with a message that names no
    position. *)

Module SampleJson.

Definition show_Z (z : Z) : string := NilZero.string_of_int (Z.to_int z).

(** The digits of [v], at least [k] of them. *)
Fixpoint digits (k : nat) (v : Z) : string :=
  match k with
  | O => if v =? 0 then EmptyString else show_Z v
  | Datatypes.S k' =>
      digits k' (v / 10) ++ String (PyStr.hex_digit (v mod 10)) EmptyString
  end.

(** The least [k >= 1] with [den] dividing [10 ^ k], up to [fuel]. *)
Fixpoint places (fuel : nat) (k : nat) (den : Z) : nat :=
  match fuel with
  | O => k
  | Datatypes.S f =>
      if (10 ^ Z.of_nat k) mod den =? 0 then k else places f (Datatypes.S k) den
  end.

Definition show_float (x : pyfloat) : string :=
  match x with
  | NaN => "NaN"
  | PInf => "Infinity"
  | NInf => "-Infinity"
  | Fin q =>
      let den := Zpos (Qden q) in
      let k := places 400 1 den in
      let v := Z.abs (Qnum q) * 10 ^ Z.of_nat k / den in
      let whole := v / 10 ^ Z.of_nat k in
      (if Qnum q <? 0 then "-" else EmptyString)
      ++ show_Z whole ++ "." ++ digits k (v mod 10 ^ Z.of_nat k)
  end.

Definition escape_char (c : ascii) : string :=
  let n := PyStr.code c in
  if n =? 34 then String "\" (String c EmptyString)
  else if n =? 92 then "\\"
  else if n =? 10 then "\n"
  else if n =? 13 then "\r"
  else if n =? 9 then "\t"
  else if (n <? 32) || (127 <? n)
  then "\u00" ++ String (PyStr.hex_digit (n / 16))
                   (String (PyStr.hex_digit (n mod 16)) EmptyString)
  else String c EmptyString.

Fixpoint escape (s : string) : string :=
  match s with
  | EmptyString => EmptyString
  | String c r => escape_char c ++ escape r
  end.

Definition show_string (s : string) : string := quoted (escape s).

Fixpoint dumps (v : json) : string :=
  match v with
  | JNull => "null"
  | JBool b => if b then "true" else "false"
  | JInt n => show_Z n
  | JFloat x => show_float x
  | JStr s => show_string s
  | JList l => "[" ++ PyStr.join ", " (map dumps l) ++ "]"
  | JDict d =>
      "{" ++ PyStr.join ", "
               (map (fun kv => show_string (fst kv) ++ ": " ++ dumps (snd kv)) d)
      ++ "}"
  end.

(** [d[k] = v] while a dictionary is read. *)
Fixpoint put (k : string) (v : json) (d : list (string * json))
  : list (string * json) :=
  match d with
  | [] => [(k, v)]
  | (k', v') :: r =>
      if String.eqb k k' then (k, v) :: r else (k', v') :: put k v r
  end.

Definition is_ws (c : ascii) : bool :=
  let n := PyStr.code c in (n =? 32) || (n =? 9) || (n =? 10) || (n =? 13).

Fixpoint skip_ws (s : string) : string :=
  match s with
  | String c r => if is_ws c then skip_ws r else s
  | EmptyString => s
  end.

Definition hex_val (c : ascii) : option Z :=
  let n := PyStr.code c in
  if PyStr.is_digit c then Some (n - 48)
  else if (97 <=? n) && (n <=? 102) then Some (n - 87)
  else if (65 <=? n) && (n <=? 70) then Some (n - 55)
  else None.

(** The text of a string literal after its opening quote. *)
Fixpoint read_string (s : string) : option (string * string) :=
  match s with
  | EmptyString => None
  | String c r =>
      if Ascii.eqb c PyStr.dquote then Some (EmptyString, r)
      else if Ascii.eqb c "\" then
        match r with
        | String "u" (String "0" (String "0" (String h (String l r')))) =>
            match hex_val h, hex_val l, read_string r' with
            | Some a, Some b, Some (t, rest) =>
                Some (String (ascii_of_N (Z.to_N (16 * a + b))) t, rest)
            | _, _, _ => None
            end
        | String e r' =>
            let plain (x : ascii) :=
              match read_string r' with
              | Some (t, rest) => Some (String x t, rest)
              | None => None
              end in
            if Ascii.eqb e "n" then plain (ascii_of_N 10)
            else if Ascii.eqb e "r" then plain (ascii_of_N 13)
            else if Ascii.eqb e "t" then plain (ascii_of_N 9)
            else if Ascii.eqb e "\" || Ascii.eqb e PyStr.dquote || Ascii.eqb e "/"
            then plain e
            else None
        | EmptyString => None
        end
      else match read_string r with
           | Some (t, rest) => Some (String c t, rest)
           | None => None
           end
  end.

Definition number_char (c : ascii) : bool :=
  PyStr.is_digit c || Ascii.eqb c "-" || Ascii.eqb c "+" || Ascii.eqb c "."
  || Ascii.eqb c "e" || Ascii.eqb c "E".

Fixpoint span (p : ascii -> bool) (s : string) : string * string :=
  match s with
  | String c r =>
      if p c then let '(a, b) := span p r in (String c a, b)
      else (EmptyString, s)
  | EmptyString => (EmptyString, s)
  end.

Definition read_number (s : string) : option (json * string) :=
  let '(text, rest) := span number_char s in
  if PyStr.contains "." text || PyStr.contains "e" text
     || PyStr.contains "E" text
  then match PyNum.float_of_string text with
       | Some x => Some (JFloat x, rest)
       | None => None
       end
  else match PyNum.int_of_string text with
       | Ok n => Some (JInt n, rest)
       | Raise _ => None
       end.

Definition after (word : string) (v : json) (s : string)
  : option (json * string) :=
  if String.prefix word s
  then Some (v, String.substring (String.length word)
                  (String.length s - String.length word) s)
  else None.

Fixpoint read_value (fuel : nat) (s : string) : option (json * string) :=
  match fuel with
  | O => None
  | Datatypes.S f =>
      match skip_ws s with
      | EmptyString => None
      | String c r as s' =>
          if Ascii.eqb c PyStr.dquote then
            match read_string r with
            | Some (t, rest) => Some (JStr t, rest)
            | None => None
            end
          else if Ascii.eqb c "[" then
            match skip_ws r with
            | String "]" rest => Some (JList [], rest)
            | r' => read_items f r' []
            end
          else if Ascii.eqb c "{" then
            match skip_ws r with
            | String "}" rest => Some (JDict [], rest)
            | r' => read_members f r' []
            end
          else if Ascii.eqb c "n" then after "null" JNull s'
          else if Ascii.eqb c "t" then after "true" (JBool true) s'
          else if Ascii.eqb c "f" then after "false" (JBool false) s'
          else if Ascii.eqb c "N" then after "NaN" (JFloat NaN) s'
          else if Ascii.eqb c "I" then after "Infinity" (JFloat PInf) s'
          else if String.prefix "-I" s' then after "-Infinity" (JFloat NInf) s'
          else read_number s'
      end
  end
with read_items (fuel : nat) (s : string) (acc : list json)
  : option (json * string) :=
  match fuel with
  | O => None
  | Datatypes.S f =>
      match read_value f s with
      | Some (v, rest) =>
          match skip_ws rest with
          | String "," rest' => read_items f rest' (acc ++ [v])
          | String "]" rest' => Some (JList (acc ++ [v]), rest')
          | _ => None
          end
      | None => None
      end
  end
with read_members (fuel : nat) (s : string) (acc : list (string * json))
  : option (json * string) :=
  match fuel with
  | O => None
  | Datatypes.S f =>
      match skip_ws s with
      | String c r =>
          if Ascii.eqb c PyStr.dquote then
            match read_string r with
            | Some (k, rest) =>
                match skip_ws rest with
                | String ":" rest1 =>
                    match read_value f rest1 with
                    | Some (v, rest2) =>
                        match skip_ws rest2 with
                        | String "," rest3 => read_members f rest3 (put k v acc)
                        | String "}" rest3 => Some (JDict (put k v acc), rest3)
                        | _ => None
                        end
                    | None => None
                    end
                | _ => None
                end
            | None => None
            end
          else None
      | EmptyString => None
      end
  end.

Definition loads (s : string) : outcome json :=
  match read_value (2 * String.length s + 2) s with
  | Some (v, rest) =>
      match skip_ws rest with
      | EmptyString => Ok v
      | _ => Raise (Exn JSONDecodeError "Extra data")
      end
  | None => Raise (Exn JSONDecodeError "Expecting value")
  end.

End SampleJson.

(** ** Sample environments

    Concrete collaborators on which the pipeline can be run. *)

Module Sample.

Definition claim : string :=
  "The Great Wall of China is visible from space with the naked eye.".

(** A provider response: the third result repeats the link of the first,
    the fourth has no link. *)
Definition search_results : json :=
  JDict [ ("organic", JList [
    JDict [ ("title", JStr " Great Wall - NASA ");
            ("link", JStr "https://www.nasa.gov/great-wall");
            ("snippet", JStr "The wall is not visible to the naked eye from orbit.") ];
    JDict [ ("title", JStr "The Great Wall myth");
            ("link", JStr "https://example.org/myth");
            ("snippet", JStr " A persistent myth. ") ];
    JDict [ ("title", JStr "NASA, again");
            ("link", JStr "https://www.nasa.gov/great-wall");
            ("snippet", JStr "Same page, listed twice.") ];
    JDict [ ("title", JStr "No link");
            ("snippet", JStr "A result without a link.") ] ]) ].

Definition judge_reply : string :=
  "SCORE: 5" ++ nl ++ "VERDICT: false" ++ nl
  ++ "EXPLANATION: NASA states that the wall is not visible.".

Definition other_reply : string :=
  "SCORE: 90" ++ nl ++ "VERDICT: true" ++ nl
  ++ "EXPLANATION: Some astronauts report seeing it.".

Definition gpt_reply : string :=
  "{" ++ quoted "score" ++ ": 7, " ++ quoted "explanation" ++ ": "
  ++ quoted "The analysis refutes the claim." ++ "}".

Definition never_faults (w : world) (c : call) : option exn := None.

Definition refused : exn :=
  Exn (OtherError "ConnectionError")
    "Error 111 connecting to localhost:6379. Connection refused.".

Definition always_faults (w : world) (c : call) : option exn := Some refused.

(** Only writes fail. *)
Definition write_faults (w : world) (c : call) : option exn :=
  match c with
  | RedisSetex _ _ _ => Some refused
  | _ => None
  end.

Definition make (redis_on : bool) (openai : option string)
  (fault : world -> call -> option exn)
  (judge : world -> string -> outcome string) : env :=
  Env redis_on (Some "serper-key") openai true fault
    (fun _ _ => Ok (Response 200 (Ok search_results)))
    judge
    (fun _ _ _ => Ok gpt_reply)
    SampleJson.dumps SampleJson.loads.

Definition judge_says (w : world) (prompt : string) : outcome string :=
  Ok judge_reply.

Definition quota : exn :=
  Exn (OtherError "ResourceExhausted") "429 Quota exceeded".

Definition judge_fails (w : world) (prompt : string) : outcome string :=
  Raise quota.

Definition is_generate (c : call) : bool :=
  match c with
  | GenerateContent _ => true
  | _ => false
  end.

(** A judge that changes its mind after its first answer. *)
Definition judge_wavers (w : world) (prompt : string) : outcome string :=
  if existsb is_generate (log w) then Ok other_reply else Ok judge_reply.

Definition steady : env := make true (Some "sk-test") never_faults judge_says.
Definition no_secondary : env := make true None never_faults judge_says.
Definition judge_down : env := make true (Some "sk-test") never_faults judge_fails.
Definition redis_down : env := make true (Some "sk-test") always_faults judge_says.
Definition redis_read_only : env := make true (Some "sk-test") write_faults judge_says.
Definition no_cache : env := make false (Some "sk-test") never_faults judge_wavers.

Definition start : world := World 1000 ∅ [].

(** The same world, [d] seconds later. *)
Definition later (d : Z) (w : world) : world :=
  World (now w + d) (redis w) (log w).

(** What the gatherer makes of [search_results]. *)
Definition evidence : list evidence_item :=
  [ Evidence "Great Wall - NASA" (JStr "https://www.nasa.gov/great-wall")
      "The wall is not visible to the naked eye from orbit." "web_search";
    Evidence "The Great Wall myth" (JStr "https://example.org/myth")
      "A persistent myth." "web_search" ].

(** The world after the cache lookup of the first call. *)
Definition looked : world := logged (RedisGet (cache_key claim None)) start.

(** The result of the first call in [steady]. *)
Definition result : json :=
  final_result claim
    (Judged (Fin 5) "false" "NASA states that the wall is not visible.")
    evidence (Some (Fin 7), JStr "The analysis refutes the claim.").

(** The world the first call in [steady] leaves behind. *)
Definition after_first : world :=
  snd (verify_claim_body steady claim None start).

(** The result in [no_secondary] and in [judge_down]. *)
Definition result_no_secondary : json :=
  final_result claim
    (Judged (Fin 5) "false" "NASA states that the wall is not visible.")
    evidence
    (None, JStr "Error in GPT secondary check: float() argument must be a string or a real number, not 'NoneType'").

Definition result_judge_down : json :=
  final_result claim
    (Judged (Fin 50) "neutral" "Error in AI analysis: 429 Quota exceeded")
    evidence
    (Some (Fin 7), JStr "The analysis refutes the claim.").

Definition after_no_secondary : world :=
  snd (verify_claim_body no_secondary claim None start).

Definition after_judge_down : world :=
  snd (verify_claim_body judge_down claim None start).

Definition searched : world :=
  snd (_search_for_evidence judge_down claim looked).

Definition judged : world :=
  snd (_verify_with_llm judge_down claim evidence searched).

End Sample.

(** ** Vocabulary of the properties *)

Definition seven_fields : list string :=
  ["text"; "score"; "verdict"; "explanation"; "sources"; "evidence"; "reviews"].

(** The calls that reach the search provider or a judge. *)
Definition is_network_call (c : call) : bool :=
  match c with
  | SearchPost _ | GenerateContent _ | ChatCompletion _ _ => true
  | RedisGet _ | RedisSetex _ _ _ => false
  end.

Definition network_calls (w : world) : list call :=
  List.filter is_network_call (log w).

(** A score inside the closed range from 0 to 100. *)
Definition in_range (x : pyfloat) : Prop :=
  exists q, x = Fin q /\ (0 <= q)%Q /\ (q <= 100)%Q.



(** No two items of the sequence have the same link: every item differs,
    by Python's [==], from every later one. *)
Definition distinct_links (ev : list evidence_item) : Prop :=
  ForallOrdPairs (fun a b => Json.py_eq (link a) (link b) = false) ev.

(** A link that made it into the evidence: not empty, and hashable. *)
Definition sound_link (e : evidence_item) : Prop :=
  Json.truthy (link e) = true /\ Json.hashable (link e) = true.

(** The clock and the cache store are the same in both worlds. *)
Definition frame (w w' : world) : Prop :=
  now w' = now w /\ redis w' = redis w.

(** The keys looked up in the cache store, in order. *)
Definition looked_up (w : world) : list string :=
  omap (fun c => match c with RedisGet k => Some k | _ => None end) (log w).

(** The value a [SCORE:] or [VERDICT:] line carries: the text between the
    first and the second colon, trimmed. *)
Definition line_value (line : string) : string :=
  PyStr.strip (second (PyStr.split ":" line)).

(** The verdicts an adapter outcome may carry. *)
Definition outcome_verdicts : list string :=
  ["true"; "false"; "partial"; "neutral"].

(** A [VERDICT:] line whose value is one of true, false, partial. *)
Definition sets_verdict (line : string) : bool :=
  PyStr.startswith "VERDICT:" line
  && existsb (String.eqb (PyStr.lower (line_value line))) verdicts.



Ltac run_in H :=
  unfold _search_for_evidence, primary_step, _verify_with_llm,
    secondary_step, get_gpt_score, cache_lookup, redis_get, redis_setex,
    write_through, try_except, try_except_in, bind, external, lift, ret,
    raise, logged in H;
  repeat case_match; simplify_eq.

(** * The rest of [fact_checker.py] *)

(** ** [fact_checker], the synchronous wrapper (lines 46-89)

    Nothing in the body of its [try] can raise on a string, so the handler
    of line 80 is left out. *)
Definition fact_checker (claim : string) : json :=
  if String.eqb claim EmptyString
     || (String.length (PyStr.strip claim) <? 10)%nat
  then placeholder claim "neutral" "Claim too short or empty"
  else placeholder claim "neutral" "Claim requires manual verification".

(** ** [compare_with_chatgpt] (lines 333-388) *)

Definition chatgpt_system : string :=
  "You are a fact-checking scoring system. Your job is to compare claims with explanations and provide numerical scores.".

Definition chatgpt_prompt (claim gemini_explanation : string) : string :=
  PyStr.join nl
    [ "Compare this claim with Gemini's explanation and determine a truthfulness score.";
      EmptyString;
      "Claim: " ++ quoted claim;
      EmptyString;
      "Gemini's Analysis: " ++ gemini_explanation;
      EmptyString;
      "Based on how well Gemini's explanation supports or refutes the claim, provide a score from 0 to 100:";
      "- 0: Completely false";
      "- 100: Completely true";
      EmptyString;
      "Respond in this exact JSON format:";
      "{";
      "    " ++ quoted "score" ++ ": [number between 0-100],";
      "    " ++ quoted "explanation" ++ ": [brief explanation of your scoring]";
      "}" ].

(** The dictionary [compare_with_chatgpt] returns: the score is always an
    [int]. *)
Record chatgpt_outcome := Chatgpt {
  chatgpt_score : Z;
  chatgpt_explanation : json }.

Definition compare_with_chatgpt (E : env) (claim gemini_explanation : string)
  : M chatgpt_outcome :=
  if negb (key_set (OPENAI_API_KEY E))
  then ret (Chatgpt 50 (JStr "OpenAI API key not available for scoring"))
  else
    try_except
      (let prompt := chatgpt_prompt claim gemini_explanation in
       let* content :=
         external (ChatCompletion chatgpt_system prompt)
           (fun w => chat_completion E w chatgpt_system prompt) in
       let* result := lift (json_loads E content) in
       let* s := lift (Json.subscript result "score") in
       let* n := lift (Json.to_int s) in
       let* x := lift (Json.subscript result "explanation") in
       ret (Chatgpt (PyNum.clamp_int n) x))
      (fun e =>
         ret (Chatgpt 50 (JStr ("Error comparing with ChatGPT: " ++ exn_str e)))).

(** ** More vocabulary *)

(** The transcript of the second world continues that of the first with
    the calls [l]. *)
Definition continues (w w' : world) (l : list call) : Prop :=
  log w' = (log w ++ l)%list.

(** Zero or one call. *)
Definition at_most (c : call) (l : list call) : Prop := l = [] \/ l = [c].

(** What the secondary step reports whenever it has no score. *)
Definition secondary_lost : json :=
  JStr ("Error in GPT secondary check: " ++ exn_str float_of_None).

(** A result that a caller can take apart: a dictionary whose text is the
    claim, with a score between 0 and 100, one of the five verdicts, an
    explanation that is not empty, and lists of sources and evidence. *)
Definition all_verdicts : list string :=
  ["true"; "false"; "partial"; "neutral"; "error"].

Definition well_formed (claim : string) (r : json) : Prop :=
  Json.field "text" r = Some (JStr claim)
  /\ (exists x, Json.field "score" r = Some (JFloat x) /\ in_range x)
  /\ (exists v, Json.field "verdict" r = Some (JStr v) /\ In v all_verdicts)
  /\ (exists t, Json.field "explanation" r = Some (JStr t) /\ t <> EmptyString)
  /\ (exists l, Json.field "sources" r = Some (JList l))
  /\ (exists l, Json.field "evidence" r = Some (JList l))
  /\ Json.field "reviews" r = Some (JList []).

(** The lookup in the cache store found an entry and decoded it. *)
Definition hit (o : outcome (option json)) : bool :=
  match o with
  | Ok (Some _) => true
  | _ => false
  end.

Definition nine_fields : list string :=
  ["text"; "score"; "verdict"; "explanation"; "evidence"; "sources";
   "reviews"; "gpt_score"; "gpt_explanation"].

(** ** More sample worlds *)

Module Sample2.

(** A store whose entry for the sample claim is not a result at all. *)
Definition foreign : world :=
  World 1000 (<[cache_key Sample.claim None := ("[1, 2]", 5000)]> ∅) [].

(** A store whose entry for the sample claim is not JSON. *)
Definition garbled : world :=
  World 1000 (<[cache_key Sample.claim None := ("{oops", 5000)]> ∅) [].

Definition not_json : exn := Exn JSONDecodeError "Expecting value".

(** A judge that is out of quota on its first call and answers after. *)
Definition judge_recovers (w : world) (prompt : string) : outcome string :=
  if existsb Sample.is_generate (log w) then Ok Sample.judge_reply
  else Raise Sample.quota.

Definition outage : env :=
  Sample.make true (Some "sk-test") Sample.never_faults judge_recovers.

Definition after_outage : world :=
  snd (verify_claim_body outage Sample.claim None Sample.start).

Definition outage_searched : world :=
  snd (_search_for_evidence outage Sample.claim Sample.looked).

Definition outage_judged : world :=
  snd (_verify_with_llm outage Sample.claim Sample.evidence outage_searched).

End Sample2.

(** ** More sample replies *)

Module Sample3.

(** A reply of the search provider whose second result is not an object. *)
Definition broken_results : list json :=
  [ JDict [ ("title", JStr "Great Wall - NASA");
            ("link", JStr "https://www.nasa.gov/great-wall");
            ("snippet", JStr "Not visible.") ];
    JStr "advertisement" ].

Definition broken_response : http_response :=
  Response 200 (Ok (JDict [("organic", JList broken_results)])).

Definition broken : env :=
  Env true (Some "serper-key") (Some "sk-test") true Sample.never_faults
    (fun _ _ => Ok broken_response)
    Sample.judge_says
    (fun _ _ _ => Ok Sample.gpt_reply)
    SampleJson.dumps SampleJson.loads.

(** Seven evidence items, and the same with other links and a different
    tail after the fifth. *)
Definition item (n : nat) (url : string) : evidence_item :=
  Evidence ("Title " ++ PyStr.of_nat n) (JStr url)
    ("Snippet " ++ PyStr.of_nat n) "web_search".

Definition seven : list evidence_item :=
  map (fun n => item n "https://a.example") (seq 1 7).

Definition five_and_one : list evidence_item :=
  (map (fun n => item n "https://b.example") (seq 1 5) ++ [item 9 "https://c.example"])%list.

Definition reply_with_colons : string :=
  "SCORE: 85:00" ++ nl ++ "VERDICT: true: mostly" ++ nl
  ++ "EXPLANATION:  Note: the wall is long: 21,196 km. ".

End Sample3.

(** What the judge is shown of an evidence item. *)
Definition shown (e : evidence_item) : string * string := (title e, snippet e).

(** An item whose title and snippet are trimmed and whose source tag is
    the gatherer's. *)
Definition tidy (e : evidence_item) : Prop :=
  PyStr.strip (title e) = title e
  /\ PyStr.strip (snippet e) = snippet e
  /\ source e = "web_search".

Definition is_dict (v : json) : bool :=
  match v with
  | JDict _ => true
  | _ => false
  end.

(** * [app.py]: the endpoint [/api/verify_claim] (lines 383-508)

    The caller of [verify_claim] that fills the gaps of its result, stores
    it and answers the client.  [JSONResponse] and the database session
    belong to the environment: a response is its status and its content,
    and building one fails on a float that JSON cannot carry, as Starlette
    renders the content at construction with [allow_nan=False]; the
    session is given by what its three operations raise. *)

Module App.

Record json_response := JSONResponse {
  response_status : Z;
  content : json }.

(** No NaN and no infinity anywhere in the value. *)
Fixpoint compliant (v : json) : bool :=
  match v with
  | JFloat (Fin _) => true
  | JFloat _ => false
  | JList l => forallb compliant l
  | JDict d =>
      (fix members (d : list (string * json)) : bool :=
         match d with
         | [] => true
         | (_, x) :: r => compliant x && members r
         end) d
  | _ => true
  end.

(** [JSONResponse(status_code=status, content=content)] *)
Definition respond (status : Z) (content : json) : outcome json_response :=
  if compliant content then Ok (JSONResponse status content)
  else Raise (Exn ValueError "Out of range float values are not JSON compliant").

(** One row of the table [fact_checks], as line 472 fills it. *)
Record fact_check_row := FactCheck {
  row_claim : string;
  row_verdict : json;
  row_explanation : json;
  row_score : json;
  row_sources : string;
  row_created_at : Z }.

(** The database: what [db.SessionLocal()], [session.add] with
    [session.commit], and [session.close()] raise, if anything. *)
Record database := Database {
  session_local : world -> option exn;
  add_commit : world -> fact_check_row -> option exn;
  session_close : world -> option exn }.

(** [d.get(k)] *)
Definition get (k : string) (d : list (string * json)) : json :=
  match Json.lookup k d with
  | Some v => v
  | None => JNull
  end.

(** [d.get(k, default)] *)
Definition get_or (k : string) (default : json) (d : list (string * json))
  : json :=
  match Json.lookup k d with
  | Some v => v
  | None => default
  end.

(** [d[k] = v]: in place when the key is there, at the end otherwise. *)
Fixpoint set (k : string) (v : json) (d : list (string * json))
  : list (string * json) :=
  match d with
  | [] => [(k, v)]
  | (k', v') :: r =>
      if String.eqb k k' then (k, v) :: r else (k', v') :: set k v r
  end.

(** [claim.replace(" ", "+")] *)
Fixpoint plus_for_space (s : string) : string :=
  match s with
  | EmptyString => EmptyString
  | String c r =>
      String (if Ascii.eqb c " " then "+"%char else c) (plus_for_space r)
  end.

Definition named (name url : string) : json :=
  JDict [("name", JStr name); ("url", JStr url)].

(** Lines 425-438. *)
Definition default_sources (claim : string) (verdict : json) : list json :=
  if Json.py_eq verdict (JStr "true") then
    [ named "Verified Source" "https://www.factcheck.org";
      named "Research Database" "https://www.science.org" ]
  else if Json.py_eq verdict (JStr "false") then
    [ named "Fact Checking Organization" "https://www.politifact.com";
      named "Misinformation Research" "https://www.snopes.com" ]
  else
    [ named "Research Article"
        ("https://www.google.com/search?q=" ++ plus_for_space claim) ].

(** Line 422: [not s or not isinstance(s, list) or len(s) == 0] *)
Definition lacks_sources (s : json) : bool :=
  negb (Json.truthy s)
  || match s with
     | JList l => (length l =? 0)%nat
     | _ => true
     end.

(** Lines 408-438: the defaults, the text and the sources. *)
Definition normalise (claim : string) (result : list (string * json))
  : list (string * json) :=
  let result :=
    if Json.truthy (get "explanation" result) then result
    else set "explanation" (JStr "Analysis not available") result in
  let result :=
    if Json.truthy (get "score" result) then result
    else set "score" (JInt 50) result in
  let result :=
    if Json.truthy (get "verdict" result) then result
    else set "verdict" (JStr "neutral") result in
  let result := set "text" (JStr claim) result in
  if lacks_sources (get "sources" result)
  then set "sources" (JList (default_sources claim (get "verdict" result))) result
  else result.

(** [x / 100], not rounded. *)
Definition per_cent (x : pyfloat) : pyfloat :=
  match x with
  | Fin q => Fin (Qred (q / 100))
  | _ => x
  end.

(** Lines 445-447: the score as a fraction. *)
Definition score_value (result : list (string * json)) : outcome json :=
  let v := get_or "score" (JInt 50) result in
  match Json.number v with
  | Some x => Ok (if PyNum.flt (Fin 1) x then JFloat (per_cent x) else v)
  | None =>
      Raise (Exn TypeError
               ("'>' not supported between instances of '"
                ++ Json.type_name v ++ "' and 'int'"))
  end.

Definition fallback_source : json :=
  named "FactCheck Database" "https://factcheck.org".

(** Lines 455-460, for one source. *)
Definition format_source (source : json) : option json :=
  match source with
  | JDict s =>
      Some (JDict [ ("name", get_or "name" (JStr "Source") s);
                    ("url", get_or "url" (JStr "https://factcheck.org") s) ])
  | _ => None
  end.

(** Lines 450-469: the sources as JSON text. *)
Definition sources_str (E : env) (result : list (string * json))
  : outcome string :=
  if Json.truthy (get "sources" result) then
    obind (iterate (get "sources" result)) (fun sources =>
      let formatted_sources := omap format_source sources in
      Ok (json_dumps E
            (JList match formatted_sources with
                   | [] => [fallback_source]
                   | _ => formatted_sources
                   end)))
  else Ok (json_dumps E (JList [fallback_source])).

(** What [finally: session.close()] raises when line 442 raised. *)
Definition unbound_session : exn :=
  Exn (OtherError "UnboundLocalError")
    "cannot access local variable 'session' where it is not associated with a value".

(** Lines 441-489: the row that was committed, if any, and the exception
    that leaves the block, if any. *)
Definition save (D : database) (E : env) (claim : string)
  (result : list (string * json)) (w : world)
  : option fact_check_row * option exn :=
  match session_local D w with
  | Some _ => (None, Some unbound_session)
  | None =>
      let saved :=
        match score_value result with
        | Ok score =>
            match sources_str E result with
            | Ok sources =>
                let new_fact_check :=
                  FactCheck claim
                    (get_or "verdict" (JStr "neutral") result)
                    (get_or "explanation" (JStr "Analysis not available") result)
                    score sources (now w) in
                match add_commit D w new_fact_check with
                | None => Some new_fact_check
                | Some _ => None
                end
            | Raise _ => None
            end
        | Raise _ => None
        end in
      (saved, session_close D w)
  end.

(** [claim_data.get("claim", "").strip()] *)
Definition claim_of (claim_data : list (string * json)) : outcome string :=
  match Json.lookup "claim" claim_data with
  | None => Ok (PyStr.strip EmptyString)
  | Some (JStr s) => Ok (PyStr.strip s)
  | Some v => Raise (no_attribute v "strip")
  end.

Definition no_claim : json :=
  JDict [("success", JBool false); ("message", JStr "No claim provided")].

Definition success (result : list (string * json)) : json :=
  JDict [("success", JBool true); ("result", JDict result)].

(** Lines 500-508. *)
Definition failure (e : exn) : json_response :=
  JSONResponse 500
    (JDict [ ("success", JBool false);
             ("message", JStr ("Error verifying claim: " ++ exn_str e)) ]).

(** The body of the outer [try]: the response or the exception that
    leaves it, the row committed on the way, and the world. *)
Definition verify_claim_stub_body (D : database) (E : env)
  (claim_data : list (string * json)) (w : world)
  : outcome json_response * option fact_check_row * world :=
  match claim_of claim_data with
  | Raise e => (Raise e, None, w)
  | Ok claim =>
      if String.eqb claim EmptyString then (respond 400 no_claim, None, w)
      else
        match verify_claim E claim None w with
        | (Raise e, w') => (Raise e, None, w')
        | (Ok (JDict result), w') =>
            let result := normalise claim result in
            match save D E claim result w' with
            | (saved, Some e) => (Raise e, saved, w')
            | (saved, None) => (respond 200 (success result), saved, w')
            end
        | (Ok result, w') => (Raise (no_attribute result "get"), None, w')
        end
  end.

Definition verify_claim_stub (D : database) (E : env)
  (claim_data : list (string * json)) (w : world)
  : json_response * option fact_check_row * world :=
  match verify_claim_stub_body D E claim_data w with
  | (Ok response, saved, w') => (response, saved, w')
  | (Raise e, saved, w') => (failure e, saved, w')
  end.

(** The three parts of what the endpoint leaves behind. *)
Definition reply (x : json_response * option fact_check_row * world)
  : json_response := fst (fst x).

Definition stored (x : json_response * option fact_check_row * world)
  : option fact_check_row := snd (fst x).

Definition world_after (x : json_response * option fact_check_row * world)
  : world := snd x.

(** A result as the client gets it: the request's claim as text, an
    explanation, a score and a verdict that are not empty, and a list of
    sources with at least one entry. *)
Definition presentable (claim : string) (result : list (string * json))
  : Prop :=
  get "text" result = JStr claim
  /\ Json.truthy (get "explanation" result) = true
  /\ Json.truthy (get "score" result) = true
  /\ Json.truthy (get "verdict" result) = true
  /\ exists source sources, get "sources" result = JList (source :: sources).

End App.

(** ** Sample databases and requests *)

Module Sample4.

Definition db_up : App.database :=
  App.Database (fun _ => None) (fun _ _ => None) (fun _ => None).

Definition db_error : exn :=
  Exn (OtherError "OperationalError") "connection to server failed".

(** No session can be opened. *)
Definition db_down : App.database :=
  App.Database (fun _ => Some db_error) (fun _ _ => None) (fun _ => None).

(** Sessions open, commits fail. *)
Definition db_read_only : App.database :=
  App.Database (fun _ => None) (fun _ _ => Some db_error) (fun _ => None).

Definition request : list (string * json) :=
  [("claim", JStr ("  " ++ Sample.claim ++ " "))].

Definition blank_request : list (string * json) := [("claim", JStr "   ")].

(** A judge that answers with a score below the range. *)
Definition judge_says_never (w : world) (prompt : string) : outcome string :=
  Ok ("SCORE: -10" ++ nl ++ "VERDICT: false" ++ nl
      ++ "EXPLANATION: Impossible.").

Definition never : env :=
  Sample.make false (Some "sk-test") Sample.never_faults judge_says_never.

(** A judge that answers with a score above the range. *)
Definition judge_says_certain (w : world) (prompt : string) : outcome string :=
  Ok ("SCORE: 150" ++ nl ++ "VERDICT: true" ++ nl
      ++ "EXPLANATION: Certain.").

Definition certain : env :=
  Sample.make false (Some "sk-test") Sample.never_faults judge_says_certain.

Definition uncached : env :=
  Sample.make false (Some "sk-test") Sample.never_faults Sample.judge_says.

End Sample4.
(** * Properties *)

(** ** The guarded steps never raise *)

Lemma search_total (E : env) (claim : string) (w : world) :
  exists ev w', _search_for_evidence E claim w = (Ok ev, w').
Proof.
  unfold _search_for_evidence.
  destruct (negb (key_set (SERPER_API_KEY E))); [by eexists _, _|].
  unfold try_except, bind, external, lift, ret.
  destruct (search_post E w _) as [resp|e]; [|by eexists _, _].
  destruct (status_code resp =? 200); [|by eexists _, _].
  destruct (json_body resp) as [results|e]; [|by eexists _, _].
  destruct (extract_evidence results); by eexists _, _.
Qed.

Lemma primary_total (E : env) (claim : string) (ev : list evidence_item)
  (w : world) :
  exists p w', primary_step E claim ev w = (Ok p, w').
Proof.
  unfold primary_step, try_except, bind, ret.
  destruct (_verify_with_llm E claim ev w) as [[p|e] w']; by eexists _, _.
Qed.

Lemma secondary_total (E : env) (claim expl : string) (w : world) :
  exists s w', secondary_step E claim expl w = (Ok s, w').
Proof.
  unfold secondary_step, try_except, bind, ret, lift.
  destruct (get_gpt_score E claim expl w) as [[g|e] w']; [|by eexists _, _].
  destruct (float_of_gpt_score (gpt_score g)); by eexists _, _.
Qed.

(** The run of the pipeline on a cache miss, step by step. *)
Lemma body_miss (E : env) (claim : string) (context : option string)
  (w w1 : world) :
  too_short claim = false ->
  cache_lookup E (cache_key claim context) w = (Ok None, w1) ->
  exists ev w2 p w3 s w4,
    _search_for_evidence E claim w1 = (Ok ev, w2)
    /\ primary_step E claim ev w2 = (Ok p, w3)
    /\ secondary_step E claim (explanation p) w3 = (Ok s, w4)
    /\ verify_claim_body E claim context w
       = write_through E (cache_key claim context)
           (final_result claim p ev s) w4.
Proof.
  intros Hlen Hmiss.
  destruct (search_total E claim w1) as (ev & w2 & Hev).
  destruct (primary_total E claim ev w2) as (p & w3 & Hp).
  destruct (secondary_total E claim (explanation p) w3) as (s & w4 & Hs).
  exists ev, w2, p, w3, s, w4. repeat split; try assumption.
  unfold verify_claim_body. rewrite Hlen.
  unfold bind at 1. rewrite Hmiss.
  unfold bind at 1. rewrite Hev.
  unfold bind at 1. rewrite Hp.
  unfold bind at 1. rewrite Hs.
  reflexivity.
Qed.

(** The result of a miss that reached the caller is the assembled one. *)
Lemma miss_result (E : env) (claim : string) (context : option string)
  (w w1 w' : world) (r : json) :
  too_short claim = false ->
  cache_lookup E (cache_key claim context) w = (Ok None, w1) ->
  verify_claim_body E claim context w = (Ok r, w') ->
  exists ev w2 p w3 s w4,
    _search_for_evidence E claim w1 = (Ok ev, w2)
    /\ primary_step E claim ev w2 = (Ok p, w3)
    /\ secondary_step E claim (explanation p) w3 = (Ok s, w4)
    /\ r = final_result claim p ev s.
Proof.
  intros Hlen Hmiss Hbody.
  destruct (body_miss E claim context w w1 Hlen Hmiss)
    as (ev & w2 & p & w3 & s & w4 & Hev & Hp & Hs & Hrun).
  exists ev, w2, p, w3, s, w4. repeat split; try assumption.
  rewrite Hrun in Hbody. unfold write_through, bind, ret in Hbody.
  destruct (REDIS_AVAILABLE E).
  - destruct (redis_setex E _ _ _ w4) as [[[]|e] w5]; simpl in Hbody;
      [injection Hbody as <- _; reflexivity | discriminate].
  - simpl in Hbody. injection Hbody as <- _. reflexivity.
Qed.

(** ** Validation *)

Lemma too_short_of_length (claim : string) :
  (String.length (PyStr.strip claim) < 3)%nat -> too_short claim = true.
Proof.
  intros H. unfold too_short. apply orb_true_iff. right.
  apply Nat.ltb_lt. exact H.
Qed.

Lemma verify_claim_too_short (E : env) (claim : string)
  (context : option string) (w : world) :
  too_short claim = true ->
  verify_claim E claim context w = (Ok (rejected claim), w).
Proof.
  intros H. unfold verify_claim, try_except, verify_claim_body.
  rewrite H. reflexivity.
Qed.

(** C2: a claim whose trimmed text has fewer than three characters (so
    also an empty one) gets the placeholder with score 50.0, verdict
    neutral, no evidence and no sources; the world comes back as it was, so
    the transcript has no call to the search provider, to a judge or to the
    cache, and the cache store is untouched. *)
Theorem short_claim_rejected (E : env) (claim : string)
  (context : option string) (w : world) :
  (String.length (PyStr.strip claim) < 3)%nat ->
  verify_claim E claim context w = (Ok (rejected claim), w)
  /\ Json.field "score" (rejected claim) = Some (JFloat (Fin 50))
  /\ Json.field "verdict" (rejected claim) = Some (JStr "neutral")
  /\ Json.field "evidence" (rejected claim) = Some (JList [])
  /\ Json.field "sources" (rejected claim) = Some (JList []).
Proof.
  intros H. split.
  - apply verify_claim_too_short, too_short_of_length, H.
  - repeat split.
Qed.

Lemma short_claim_rejected_witness :
  (String.length (PyStr.strip "  ok  ") < 3)%nat
  /\ verify_claim Sample.steady "  ok  " None Sample.start
     = (Ok (rejected "  ok  "), Sample.start).
Proof.
  assert (H : (String.length (PyStr.strip "  ok  ") < 3)%nat)
    by (vm_compute; lia).
  split; [exact H|].
  apply (short_claim_rejected Sample.steady "  ok  " None Sample.start H).
Defined.

(** ** The orchestrator boundary *)

(** The outer [try] and its handler. *)
Lemma boundary (E : env) (claim : string) (context : option string)
  (w : world) :
  verify_claim E claim context w
  = match verify_claim_body E claim context w with
    | (Ok r, w') => (Ok r, w')
    | (Raise e, w') => (Ok (error_result claim e), w')
    end.
Proof. reflexivity. Qed.

(** C5: whatever the collaborators do, [verify_claim] returns a result and
    raises nothing; when an exception leaves the body of the outer [try],
    the result is the seven-field dictionary with verdict error, score 50.0
    and an explanation that carries the text of the exception. *)
Theorem verify_claim_never_raises (E : env) (claim : string)
  (context : option string) (w : world) :
  exists r,
    fst (verify_claim E claim context w) = Ok r
    /\ forall e,
         fst (verify_claim_body E claim context w) = Raise e ->
         r = error_result claim e
         /\ Json.field "verdict" r = Some (JStr "error")
         /\ Json.field "score" r = Some (JFloat (Fin 50))
         /\ Json.field "explanation" r
            = Some (JStr ("Error verifying claim: " ++ exn_str e))
         /\ Json.keys r = seven_fields.
Proof.
  rewrite boundary.
  destruct (verify_claim_body E claim context w) as [[r|e] w'] eqn:Hb.
  - exists r. split; [reflexivity|]. intros e He. discriminate He.
  - exists (error_result claim e). split; [reflexivity|].
    intros e' He. simpl in He. injection He as <-. repeat split.
Qed.

(** The boundary at work: a cache store that refuses connections. *)
Example verify_claim_redis_down :
  fst (verify_claim_body Sample.redis_down Sample.claim None Sample.start)
  = Raise Sample.refused
  /\ fst (verify_claim Sample.redis_down Sample.claim None Sample.start)
     = Ok (error_result Sample.claim Sample.refused).
Proof. split; vm_compute; reflexivity. Qed.

(** A cache store that takes no writes: the result is computed, and the
    failed write at the end turns it into the error result. *)
Example verify_claim_write_fault :
  fst (verify_claim_body Sample.redis_read_only Sample.claim None Sample.start)
  = Raise Sample.refused
  /\ fst (verify_claim Sample.redis_read_only Sample.claim None Sample.start)
     = Ok (error_result Sample.claim Sample.refused)
  /\ length (network_calls
               (snd (verify_claim Sample.redis_read_only Sample.claim None
                       Sample.start))) = 3%nat.
Proof. repeat split; vm_compute; reflexivity. Qed.

(** ** The shape of the result *)

(** C10: the result of the validation exit and of the boundary handler has
    exactly the seven fields text, score, verdict, explanation, sources,
    evidence and reviews, so neither [gpt_score] nor [gpt_explanation];
    the result assembled after a cache miss has both. *)
Theorem result_shapes (E : env) (claim : string) (context : option string)
  (w : world) :
  exists r w',
    verify_claim E claim context w = (Ok r, w')
    /\ (too_short claim = true ->
        Json.keys r = seven_fields
        /\ Json.field "gpt_score" r = None
        /\ Json.field "gpt_explanation" r = None)
    /\ (forall e,
          fst (verify_claim_body E claim context w) = Raise e ->
          Json.keys r = seven_fields
          /\ Json.field "gpt_score" r = None
          /\ Json.field "gpt_explanation" r = None)
    /\ (too_short claim = false ->
        fst (cache_lookup E (cache_key claim context) w) = Ok None ->
        fst (verify_claim_body E claim context w) = Ok r ->
        Json.keys r
        = ["text"; "score"; "verdict"; "explanation"; "evidence";
           "sources"; "reviews"; "gpt_score"; "gpt_explanation"]
        /\ Json.field "gpt_score" r <> None
        /\ Json.field "gpt_explanation" r <> None).
Proof.
  rewrite boundary.
  destruct (verify_claim_body E claim context w) as [[r|e] w'] eqn:Hbody.
  2:{ exists (error_result claim e), w'. split; [reflexivity|].
      split; [intros _; repeat split|].
      split; [intros _ _; repeat split | intros _ _ H; discriminate H]. }
  exists r, w'. split; [reflexivity|]. split; [|split].
  - intros Hs. unfold verify_claim_body in Hbody. rewrite Hs in Hbody.
    injection Hbody as <- _. repeat split.
  - intros e He. discriminate He.
  - intros Hl Hmiss _.
    destruct (cache_lookup E (cache_key claim context) w) as [o w1] eqn:Hc.
    simpl in Hmiss. subst o.
    destruct (miss_result E claim context w w1 w' r Hl Hc Hbody)
      as (ev & w2 & p & w3 & s & w4 & _ & _ & _ & ->).
    repeat split; discriminate.
Qed.

(** ** What the steps leave alone *)

Lemma search_frame (E : env) (claim : string) (w w' : world)
  (o : outcome (list evidence_item)) :
  _search_for_evidence E claim w = (o, w') -> frame w w'.
Proof. intros H. run_in H; split; reflexivity. Qed.

Lemma primary_frame (E : env) (claim : string) (ev : list evidence_item)
  (w w' : world) (o : outcome judge_outcome) :
  primary_step E claim ev w = (o, w') -> frame w w'.
Proof. intros H. run_in H; split; reflexivity. Qed.

Lemma secondary_frame (E : env) (claim expl : string) (w w' : world)
  (o : outcome (option pyfloat * json)) :
  secondary_step E claim expl w = (o, w') -> frame w w'.
Proof. intros H. run_in H; split; reflexivity. Qed.

Lemma lookup_frame (E : env) (key : string) (w w' : world)
  (o : outcome (option json)) :
  cache_lookup E key w = (o, w') -> frame w w'.
Proof. intros H. run_in H; split; reflexivity. Qed.

Lemma frame_trans (w1 w2 w3 : world) :
  frame w1 w2 -> frame w2 w3 -> frame w1 w3.
Proof. intros [? ?] [? ?]. split; congruence. Qed.

(** ** The cache *)

Lemma lookup_hit (E : env) (key bytes : string) (expiry : Z) (v : json)
  (w : world) :
  REDIS_AVAILABLE E = true ->
  redis_fault E w (RedisGet key) = None ->
  redis w !! key = Some (bytes, expiry) ->
  now w < expiry ->
  bytes <> EmptyString ->
  json_loads E bytes = Ok v ->
  cache_lookup E key w = (Ok (Some v), logged (RedisGet key) w).
Proof.
  intros Hon Hok Hget Hlive Hne Hv.
  unfold cache_lookup, redis_get, bind, lift, ret.
  rewrite Hon, Hok, Hget.
  apply Z.ltb_lt in Hlive. rewrite Hlive.
  apply String.eqb_neq in Hne. rewrite Hne. simpl. rewrite Hv. reflexivity.
Qed.

(** C1, amended: with the cache store enabled, a claim that passes
    validation and misses the cache is computed once and, when no exception
    reaches the boundary, written under its fingerprint with an expiry of
    24 hours; a second identical call before that instant gets the decoded
    entry back, the same result field for field, and its only call is the
    cache lookup: the search provider and the judges are not called again. *)
Theorem second_call_served_from_cache (E : env) (claim : string)
  (context : option string) (w0 w1 w2 : world) (r1 : json) :
  REDIS_AVAILABLE E = true ->
  too_short claim = false ->
  fst (cache_lookup E (cache_key claim context) w0) = Ok None ->
  verify_claim_body E claim context w0 = (Ok r1, w1) ->
  json_loads E (json_dumps E r1) = Ok r1 ->
  json_dumps E r1 <> EmptyString ->
  redis w2 = redis w1 ->
  now w2 < now w0 + 3600 * 24 ->
  redis_fault E w2 (RedisGet (cache_key claim context)) = None ->
  verify_claim E claim context w0 = (Ok r1, w1)
  /\ redis w1 !! cache_key claim context
     = Some (json_dumps E r1, now w0 + 3600 * 24)
  /\ verify_claim E claim context w2
     = (Ok r1, logged (RedisGet (cache_key claim context)) w2)
  /\ network_calls (snd (verify_claim E claim context w2)) = network_calls w2.
Proof.
  intros Hon Hlen Hmiss Hbody Hcodec Hne Hstore Hlive Hok.
  set (key := cache_key claim context) in *.
  assert (Hentry : redis w1 !! key = Some (json_dumps E r1, now w0 + 3600 * 24)).
  { destruct (cache_lookup E key w0) as [o wa] eqn:Hc. simpl in Hmiss. subst o.
    destruct (body_miss E claim context w0 wa Hlen Hc)
      as (ev & wb & p & wc & s & wd & Hev & Hp & Hs & Hrun).
    assert (Hfr : frame w0 wd).
    { eapply frame_trans; [eapply lookup_frame, Hc|].
      eapply frame_trans; [eapply search_frame, Hev|].
      eapply frame_trans; [eapply primary_frame, Hp|].
      eapply secondary_frame, Hs. }
    destruct Hfr as [Hnow _].
    rewrite Hrun in Hbody. fold key in Hbody.
    unfold write_through, redis_setex, bind, ret in Hbody.
    rewrite Hon in Hbody.
    destruct (redis_fault E wd _); [discriminate|].
    injection Hbody as <- <-. simpl. rewrite Hnow. apply lookup_insert_eq. }
  split; [|split; [exact Hentry|]].
  - unfold verify_claim, try_except. rewrite Hbody. reflexivity.
  - assert (Hsecond : verify_claim E claim context w2
                      = (Ok r1, logged (RedisGet key) w2)).
    { unfold verify_claim, try_except, verify_claim_body.
      rewrite Hlen. fold key. unfold bind at 1.
      rewrite (lookup_hit E key (json_dumps E r1) (now w0 + 3600 * 24) r1 w2);
        try assumption; [reflexivity|].
      rewrite Hstore. exact Hentry. }
    split; [exact Hsecond|].
    rewrite Hsecond. unfold network_calls, logged. simpl.
    rewrite List.filter_app. simpl. apply app_nil_r.
Qed.

Lemma second_call_served_from_cache_witness :
  REDIS_AVAILABLE Sample.steady = true
  /\ too_short Sample.claim = false
  /\ fst (cache_lookup Sample.steady (cache_key Sample.claim None) Sample.start)
     = Ok None
  /\ verify_claim_body Sample.steady Sample.claim None Sample.start
     = (Ok Sample.result, Sample.after_first)
  /\ json_loads Sample.steady (json_dumps Sample.steady Sample.result)
     = Ok Sample.result
  /\ json_dumps Sample.steady Sample.result <> EmptyString
  /\ redis (Sample.later 86399 Sample.after_first) = redis Sample.after_first
  /\ now (Sample.later 86399 Sample.after_first) < now Sample.start + 3600 * 24
  /\ redis_fault Sample.steady (Sample.later 86399 Sample.after_first)
       (RedisGet (cache_key Sample.claim None)) = None
  /\ verify_claim Sample.steady Sample.claim None
       (Sample.later 86399 Sample.after_first)
     = (Ok Sample.result,
        logged (RedisGet (cache_key Sample.claim None))
          (Sample.later 86399 Sample.after_first)).
Proof.
  assert (H1 : REDIS_AVAILABLE Sample.steady = true) by reflexivity.
  assert (H2 : too_short Sample.claim = false) by (vm_compute; reflexivity).
  assert (H3 : fst (cache_lookup Sample.steady (cache_key Sample.claim None)
                      Sample.start) = Ok None) by (vm_compute; reflexivity).
  assert (H4 : verify_claim_body Sample.steady Sample.claim None Sample.start
               = (Ok Sample.result, Sample.after_first))
    by (vm_compute; reflexivity).
  assert (H5 : json_loads Sample.steady (json_dumps Sample.steady Sample.result)
               = Ok Sample.result) by (vm_compute; reflexivity).
  assert (H6 : json_dumps Sample.steady Sample.result <> EmptyString)
    by (vm_compute; discriminate).
  assert (H7 : redis (Sample.later 86399 Sample.after_first)
               = redis Sample.after_first) by reflexivity.
  assert (H8 : now (Sample.later 86399 Sample.after_first)
               < now Sample.start + 3600 * 24) by (vm_compute; reflexivity).
  assert (H9 : redis_fault Sample.steady (Sample.later 86399 Sample.after_first)
                 (RedisGet (cache_key Sample.claim None)) = None)
    by reflexivity.
  repeat (split; [assumption|]).
  apply (second_call_served_from_cache Sample.steady Sample.claim None
           Sample.start Sample.after_first
           (Sample.later 86399 Sample.after_first) Sample.result
           H1 H2 H3 H4 H5 H6 H7 H8 H9).
Defined.

(** C1 as stated fails when the cache store is disabled
    ([REDIS_AVAILABLE] false): one minute after the first call the second
    call runs the whole pipeline again, calls the search provider and both
    judges a second time, and returns what the judge says then. *)
Lemma uncached_second_call_recomputes :
  let first := verify_claim Sample.no_cache Sample.claim None Sample.start in
  let again :=
    verify_claim Sample.no_cache Sample.claim None (Sample.later 60 (snd first)) in
  fst again <> fst first
  /\ length (network_calls (snd first)) = 3%nat
  /\ length (network_calls (snd again)) = 6%nat
  /\ redis (snd again) = ∅.
Proof.
  cbv zeta. split; [|split; [|split]].
  - vm_compute. discriminate.
  - vm_compute. reflexivity.
  - vm_compute. reflexivity.
  - vm_compute. reflexivity.
Qed.

(** ** Equality of links *)

Lemma feq_sym (x y : pyfloat) : PyNum.feq x y = PyNum.feq y x.
Proof.
  destruct x, y; simpl; try reflexivity.
  destruct (Qeq_bool q q0) eqn:H1, (Qeq_bool q0 q) eqn:H2; try reflexivity.
  - apply Qeq_bool_iff in H1. symmetry in H1. apply Qeq_bool_iff in H1. congruence.
  - apply Qeq_bool_iff in H2. symmetry in H2. apply Qeq_bool_iff in H2. congruence.
Qed.




Lemma py_eq_sym (a b : json) : Json.py_eq a b = Json.py_eq b a.
Proof.
  destruct a, b; unfold Json.py_eq, Json.number;
    try reflexivity; try apply feq_sym.
  apply String.eqb_sym.
Qed.




(** ** The evidence gatherer *)

Lemma ordered_pairs_snoc {A} (R : A -> A -> Prop) (l : list A) (x : A) :
  ForallOrdPairs R l -> Forall (fun a => R a x) l ->
  ForallOrdPairs R (l ++ [x])%list.
Proof.
  induction 1 as [|a l Ha Hl IH]; intros Hx; simpl.
  - constructor; constructor.
  - inversion Hx; subst. constructor.
    + apply Forall_app. split; [exact Ha|]. constructor; [assumption|constructor].
    + apply IH. assumption.
Qed.


Lemma same_false (a b : json) : same a b = false -> Json.py_eq a b = false.
Proof.
  destruct a as [| | |[]| | |]; try (intros H; exact H).
  destruct b as [| | |[]| | |]; intros H; try exact H; reflexivity.
Qed.


Lemma not_seen_all (url : json) (acc : list evidence_item) :
  seen url (map link acc) = false ->
  Forall (fun a => Json.py_eq (link a) url = false) acc.
Proof.
  unfold seen. induction acc as [|a acc IH]; simpl; intros H; constructor.
  - rewrite py_eq_sym. apply orb_false_iff in H. apply same_false, H.
  - apply IH. apply orb_false_iff in H. apply H.
Qed.



(** Whatever the results, the items the loop returns have links that
    differ from each other and are neither empty nor unhashable. *)
Lemma organic_loop_sound (results : list json) :
  forall (seen_urls : list json) (acc ev : list evidence_item),
    seen_urls = map link acc ->
    distinct_links acc ->
    Forall sound_link acc ->
    organic_loop results seen_urls acc = Ok ev ->
    distinct_links ev /\ Forall sound_link ev.
Proof.
  induction results as [|result rest IH];
    intros seen_urls acc ev Hseen Hd Hs Hrun.
  - simpl in Hrun. injection Hrun as <-. auto.
  - destruct result as [| | | | |l|d]; try discriminate Hrun.
    simpl in Hrun.
    set (url := match Json.lookup "link" d with
                | Some v => v
                | None => JStr EmptyString
                end) in *.
    destruct (Json.truthy url) eqn:Ht; [|apply (IH _ _ _ Hseen Hd Hs Hrun)].
    destruct (Json.hashable url) eqn:Hh; [|discriminate].
    destruct (seen url seen_urls) eqn:Hin; [apply (IH _ _ _ Hseen Hd Hs Hrun)|].
    destruct (get_stripped "title" d) as [t|]; [|discriminate].
    destruct (get_stripped "snippet" d) as [s|]; [|discriminate].
    simpl in Hrun.
    apply (IH (seen_urls ++ [url])%list
             (acc ++ [Evidence t url s "web_search"])%list ev);
      try assumption.
    + rewrite map_app, Hseen. reflexivity.
    + apply ordered_pairs_snoc; [assumption|].
      subst seen_urls. apply not_seen_all. exact Hin.
    + apply Forall_app. split; [assumption|].
      constructor; [split; assumption|constructor].
Qed.




(** What the gatherer returns is sound whichever branch it took. *)
Lemma search_sound (E : env) (claim : string) (w w' : world)
  (ev : list evidence_item) :
  _search_for_evidence E claim w = (Ok ev, w') ->
  distinct_links ev /\ Forall sound_link ev.
Proof.
  assert (Hnil : distinct_links [] /\ Forall sound_link [])
    by (split; constructor).
  unfold _search_for_evidence, try_except, bind, external, lift, ret.
  destruct (negb _); [intros H; injection H as <- _; exact Hnil|].
  destruct (search_post E w _) as [resp|]; [|intros H; injection H as <- _; exact Hnil].
  destruct (status_code resp =? 200); [|intros H; injection H as <- _; exact Hnil].
  destruct (json_body resp) as [results|]; [|intros H; injection H as <- _; exact Hnil].
  destruct (extract_evidence results) as [ev'|] eqn:Hx;
    [|intros H; injection H as <- _; exact Hnil].
  intros H. injection H as <- _.
  unfold extract_evidence in Hx. destruct results; try discriminate.
  destruct (iterate _) as [items|]; [|discriminate]. simpl in Hx.
  apply (organic_loop_sound items [] [] ev' eq_refl);
    [constructor | constructor | exact Hx].
Qed.




(** The sample reply: the repeated link and the missing link are dropped. *)
Example evidence_of_sample :
  map link
    (match fst (_search_for_evidence Sample.steady Sample.claim Sample.start) with
     | Ok ev => ev
     | Raise _ => []
     end)
  = [JStr "https://www.nasa.gov/great-wall"; JStr "https://example.org/myth"].
Proof. vm_compute. reflexivity. Qed.

(** ** The primary judge's response *)

Lemma clamp_in_range (x : pyfloat) : in_range (PyNum.clamp x).
Proof.
  unfold PyNum.clamp, PyNum.py_min, PyNum.py_max, in_range.
  destruct x as [q| | |]; simpl.
  - destruct (Qle_bool 100 q) eqn:Hhi; simpl.
    + exists 100%Q. repeat split; discriminate.
    + destruct (Qle_bool q 0) eqn:Hlo; simpl.
      * exists 0%Q. repeat split; discriminate.
      * exists q. split; [reflexivity|]. split.
        -- apply Qlt_le_weak, Qnot_le_lt. intros H.
           apply Qle_bool_iff in H. congruence.
        -- apply Qlt_le_weak, Qnot_le_lt. intros H.
           apply Qle_bool_iff in H. congruence.
  - exists 100%Q. repeat split; discriminate.
  - exists 0%Q. repeat split; discriminate.
  - exists 100%Q. repeat split; discriminate.
Qed.

Lemma f50_in_range : in_range PyNum.f50.
Proof. exists 50%Q. repeat split; discriminate. Qed.

Lemma parse_line_score (st : judge_outcome) (line : string) :
  score (parse_line st line)
  = if PyStr.startswith "SCORE:" line
    then match PyNum.float_of_string (line_value line) with
         | Some x => PyNum.clamp x
         | None => PyNum.f50
         end
    else score st.
Proof.
  unfold parse_line, line_value.
  destruct (PyStr.startswith "SCORE:" line).
  - destruct (PyNum.float_of_string _); reflexivity.
  - repeat case_match; reflexivity.
Qed.

Lemma parse_line_verdict (st : judge_outcome) (line : string) :
  verdict (parse_line st line)
  = if sets_verdict line && negb (PyStr.startswith "SCORE:" line)
    then PyStr.lower (line_value line)
    else verdict st.
Proof.
  unfold parse_line, sets_verdict, line_value.
  destruct (PyStr.startswith "SCORE:" line).
  - rewrite andb_false_r. destruct (PyNum.float_of_string _); reflexivity.
  - rewrite andb_true_r.
    destruct (PyStr.startswith "VERDICT:" line); cbn [andb].
    + destruct (existsb (String.eqb _) verdicts); reflexivity.
    + destruct (PyStr.startswith "EXPLANATION:" line); reflexivity.
Qed.

Lemma fold_parse_invariant (P : judge_outcome -> Prop) (lines : list string) :
  (forall st line, P st -> P (parse_line st line)) ->
  forall st, P st -> P (fold_left parse_line lines st).
Proof.
  intros Hstep. induction lines as [|l lines IH]; intros st Hst; simpl.
  - exact Hst.
  - apply IH, Hstep, Hst.
Qed.

Lemma parse_line_in_range (st : judge_outcome) (line : string) :
  in_range (score st) -> in_range (score (parse_line st line)).
Proof.
  intros H. rewrite parse_line_score.
  destruct (PyStr.startswith "SCORE:" line); [|exact H].
  destruct (PyNum.float_of_string _);
    [apply clamp_in_range | apply f50_in_range].
Qed.

Lemma verdicts_allowed (v : string) :
  existsb (String.eqb v) verdicts = true -> In v outcome_verdicts.
Proof.
  intros H. apply existsb_exists in H as (x & Hx & Heq).
  apply String.eqb_eq in Heq. subst x.
  simpl in Hx. simpl. tauto.
Qed.

Lemma parse_line_allowed (st : judge_outcome) (line : string) :
  In (verdict st) outcome_verdicts ->
  In (verdict (parse_line st line)) outcome_verdicts.
Proof.
  intros H. rewrite parse_line_verdict.
  destruct (sets_verdict line) eqn:Hs; [|exact H].
  destruct (negb _); [|exact H].
  apply verdicts_allowed. unfold sets_verdict in Hs.
  apply andb_true_iff in Hs. apply Hs.
Qed.

(** The last [SCORE:] line decides the score. *)
Lemma fold_parse_last_score (pre post : list string) (line : string)
  (st : judge_outcome) :
  PyStr.startswith "SCORE:" line = true ->
  Forall (fun l => PyStr.startswith "SCORE:" l = false) post ->
  score (fold_left parse_line (pre ++ line :: post)%list st)
  = match PyNum.float_of_string (line_value line) with
    | Some x => PyNum.clamp x
    | None => PyNum.f50
    end.
Proof.
  intros Hline Hpost. rewrite fold_left_app. simpl.
  set (st1 := fold_left parse_line pre st).
  assert (Hkeep : forall s,
            score (fold_left parse_line post s) = score s).
  { induction Hpost as [|l post Hl _ IH]; intros s; simpl; [reflexivity|].
    rewrite IH, parse_line_score, Hl. reflexivity. }
  rewrite Hkeep, parse_line_score, Hline. reflexivity.
Qed.

Lemma fold_parse_no_verdict (lines : list string) (st : judge_outcome) :
  Forall (fun l => sets_verdict l = false) lines ->
  verdict (fold_left parse_line lines st) = verdict st.
Proof.
  intros H. revert st.
  induction H as [|l lines Hl _ IH]; intros st; simpl; [reflexivity|].
  rewrite IH, parse_line_verdict, Hl. reflexivity.
Qed.

Lemma parse_response_score (text : string) :
  score (parse_response text)
  = score (fold_left parse_line (PyStr.split (ascii_of_N 10) text)
             (Judged PyNum.f50 "neutral" EmptyString)).
Proof. reflexivity. Qed.

Lemma parse_response_verdict (text : string) :
  verdict (parse_response text)
  = verdict (fold_left parse_line (PyStr.split (ascii_of_N 10) text)
               (Judged PyNum.f50 "neutral" EmptyString)).
Proof. reflexivity. Qed.

(** What the guarded primary step hands to the orchestrator. *)
Lemma primary_step_cases (E : env) (claim : string)
  (ev : list evidence_item) (w w' : world) (p : judge_outcome) :
  primary_step E claim ev w = (Ok p, w') ->
  (exists text, p = parse_response text)
  \/ (exists e, fst (_verify_with_llm E claim ev w) = Raise e
                /\ p = Judged PyNum.f50 "neutral"
                         ("Error in AI analysis: " ++ exn_str e)).
Proof.
  unfold primary_step, try_except, bind, ret.
  destruct (_verify_with_llm E claim ev w) as [[a|e] w1] eqn:Hv; intros H;
    injection H as <- <-.
  - left. unfold _verify_with_llm, bind, external, ret, raise in Hv.
    destruct (negb (gemini_model E)); [discriminate|].
    destruct (generate_content E w _) as [text|]; [|discriminate].
    injection Hv as <- _. exists text. destruct (parse_response text); reflexivity.
  - right. exists e. split; reflexivity.
Qed.

(** The judge's reply, when there is one, is parsed and nothing else
    decides the outcome of the adapter and of the primary step. *)
Lemma reply_parsed (E : env) (claim : string) (ev : list evidence_item)
  (w : world) (text : string) :
  gemini_model E = true ->
  generate_content E w (llm_prompt claim ev) = Ok text ->
  _verify_with_llm E claim ev w
  = (Ok (parse_response text),
     logged (GenerateContent (llm_prompt claim ev)) w)
  /\ primary_step E claim ev w
     = (Ok (parse_response text),
        logged (GenerateContent (llm_prompt claim ev)) w).
Proof.
  intros Hmodel Hreply.
  assert (H : _verify_with_llm E claim ev w
              = (Ok (parse_response text),
                 logged (GenerateContent (llm_prompt claim ev)) w)).
  { unfold _verify_with_llm, bind, external, ret. rewrite Hmodel.
    cbn [negb]. cbv zeta beta. rewrite Hreply. reflexivity. }
  split; [exact H|].
  unfold primary_step, try_except, bind, ret. rewrite H. reflexivity.
Qed.

(** C6: the score of the final result is the clamped number of the last
    SCORE line of the judge's reply.  For every reply the parsed score
    lies in the range from 0 to 100; the last SCORE line decides: when its
    text is a number, the score is that number, as [float] reads it,
    clamped (150 gives 100, -10 gives 0), and when it is not a number the
    score is the default 50.0.  The adapter and the primary step return
    what the parse of the reply gives, and the result assembled on a miss
    carries that score; the score of the primary step lies in the range
    whatever the judge did. *)
Theorem score_clamped :
  (forall text, in_range (score (parse_response text)))
  /\ (forall text pre line post,
        PyStr.split (ascii_of_N 10) text = (pre ++ line :: post)%list ->
        PyStr.startswith "SCORE:" line = true ->
        Forall (fun l => PyStr.startswith "SCORE:" l = false) post ->
        (forall x, PyNum.float_of_string (line_value line) = Some x ->
                   score (parse_response text) = PyNum.clamp x)
        /\ (PyNum.float_of_string (line_value line) = None ->
            score (parse_response text) = Fin 50))
  /\ score (parse_response ("SCORE: 150" ++ nl ++ "VERDICT: true" ++ nl
                            ++ "EXPLANATION: certain")) = Fin 100
  /\ score (parse_response ("SCORE: -10" ++ nl ++ "VERDICT: false" ++ nl
                            ++ "EXPLANATION: impossible")) = Fin 0
  /\ score (parse_response ("SCORE: very high" ++ nl ++ "VERDICT: true" ++ nl
                            ++ "EXPLANATION: certain")) = Fin 50
  /\ (forall E claim ev w,
        exists p w',
          primary_step E claim ev w = (Ok p, w') /\ in_range (score p))
  /\ (forall E claim ev w text,
        gemini_model E = true ->
        generate_content E w (llm_prompt claim ev) = Ok text ->
        _verify_with_llm E claim ev w
        = (Ok (parse_response text),
           logged (GenerateContent (llm_prompt claim ev)) w)
        /\ primary_step E claim ev w
           = (Ok (parse_response text),
              logged (GenerateContent (llm_prompt claim ev)) w))
  /\ (forall E claim context w w1 ev w2 text r w',
        too_short claim = false ->
        cache_lookup E (cache_key claim context) w = (Ok None, w1) ->
        _search_for_evidence E claim w1 = (Ok ev, w2) ->
        gemini_model E = true ->
        generate_content E w2 (llm_prompt claim ev) = Ok text ->
        verify_claim_body E claim context w = (Ok r, w') ->
        Json.field "score" r = Some (JFloat (score (parse_response text)))).
Proof.
  assert (Hall : forall text, in_range (score (parse_response text))).
  { intros text. rewrite parse_response_score.
    apply (fold_parse_invariant (fun st => in_range (score st))).
    - apply parse_line_in_range.
    - apply f50_in_range. }
  split; [exact Hall|].
  split; [|split; [|split; [|split; [|split; [|split]]]]].
  - intros text pre line post Hsplit Hline Hpost.
    rewrite parse_response_score, Hsplit,
      (fold_parse_last_score pre post line _ Hline Hpost).
    split.
    + intros x Hx. rewrite Hx. reflexivity.
    + intros Hx. rewrite Hx. reflexivity.
  - vm_compute. reflexivity.
  - vm_compute. reflexivity.
  - vm_compute. reflexivity.
  - intros E claim ev w.
    destruct (primary_total E claim ev w) as (p & w' & Hp).
    exists p, w'. split; [exact Hp|].
    destruct (primary_step_cases _ _ _ _ _ _ Hp) as [(text & ->)|(e & _ & ->)].
    + apply Hall.
    + apply f50_in_range.
  - intros E claim ev w text. apply reply_parsed.
  - intros E claim context w w1 ev w2 text r w' Hlen Hmiss Hev Hmodel Hreply
      Hbody.
    destruct (miss_result E claim context w w1 w' r Hlen Hmiss Hbody)
      as (ev' & w2' & p & w3 & s & w4 & Hev' & Hp & _ & ->).
    rewrite Hev in Hev'. injection Hev' as <- <-.
    destruct (reply_parsed E claim ev w2 text Hmodel Hreply) as [_ Hp'].
    rewrite Hp' in Hp. injection Hp as <- _. reflexivity.
Qed.

(** The number of a SCORE line is the [float] of its text: a text too
    small for a float is 0.0, and one that rounds to 100.0 is 100.0. *)
Example score_as_float_reads_it :
  score (parse_response "SCORE: 1e-400") = Fin 0
  /\ score (parse_response "SCORE: 99.99999999999999999999") = Fin 100
  /\ score (parse_response "SCORE: 1e400") = Fin 100
  /\ score (parse_response "SCORE: 0.1")
     = Fin (3602879701896397 # 36028797018963968).
Proof. repeat split; vm_compute; reflexivity. Qed.

(** The sample judge answers -10 and 150: the results carry 0 and 100. *)
Example clamped_in_result :
  Json.field "score"
    (match fst (verify_claim Sample4.never Sample.claim None Sample.start) with
     | Ok r => r
     | Raise _ => JNull
     end) = Some (JFloat (Fin 0))
  /\ Json.field "score"
       (match fst (verify_claim Sample4.certain Sample.claim None
                     Sample.start) with
        | Ok r => r
        | Raise _ => JNull
        end) = Some (JFloat (Fin 100)).
Proof. split; vm_compute; reflexivity. Qed.

(** C7: the verdict of every response of the primary judge is one of
    true, false, partial and neutral; it is neutral when no VERDICT line
    carries one of the three recognised values, so for the value maybe and
    for a response without a VERDICT line; the raw token never comes out. *)
Theorem verdict_sanitized :
  (forall text, In (verdict (parse_response text)) outcome_verdicts)
  /\ (forall text,
        Forall (fun l => sets_verdict l = false)
          (PyStr.split (ascii_of_N 10) text) ->
        verdict (parse_response text) = "neutral")
  /\ (forall text,
        Forall (fun l => PyStr.startswith "VERDICT:" l = false)
          (PyStr.split (ascii_of_N 10) text) ->
        verdict (parse_response text) = "neutral")
  /\ verdict (parse_response ("SCORE: 70" ++ nl ++ "VERDICT: maybe" ++ nl
                              ++ "EXPLANATION: unclear")) = "neutral"
  /\ verdict (parse_response ("SCORE: 70" ++ nl ++ "VERDICT: Partial" ++ nl
                              ++ "EXPLANATION: half")) = "partial"
  /\ (forall E claim ev w,
        exists p w',
          primary_step E claim ev w = (Ok p, w')
          /\ In (verdict p) outcome_verdicts).
Proof.
  assert (Hall : forall text, In (verdict (parse_response text)) outcome_verdicts).
  { intros text. rewrite parse_response_verdict.
    apply (fold_parse_invariant (fun st => In (verdict st) outcome_verdicts)).
    - apply parse_line_allowed.
    - simpl. tauto. }
  assert (Hnone : forall text,
            Forall (fun l => sets_verdict l = false)
              (PyStr.split (ascii_of_N 10) text) ->
            verdict (parse_response text) = "neutral").
  { intros text H. rewrite parse_response_verdict.
    rewrite (fold_parse_no_verdict _ _ H). reflexivity. }
  split; [exact Hall|]. split; [exact Hnone|]. split; [|split; [|split]].
  - intros text H. apply Hnone.
    eapply List.Forall_impl; [|exact H].
    intros l Hl. unfold sets_verdict. rewrite Hl. reflexivity.
  - vm_compute. reflexivity.
  - vm_compute. reflexivity.
  - intros E claim ev w.
    destruct (primary_total E claim ev w) as (p & w' & Hp).
    exists p, w'. split; [exact Hp|].
    destruct (primary_step_cases _ _ _ _ _ _ Hp) as [(text & ->)|(e & _ & ->)].
    + apply Hall.
    + simpl. tauto.
Qed.

(** ** Failure of a judge *)

Lemma sources_all (ev : list evidence_item) :
  Forall sound_link ev -> sources_of ev = map link ev.
Proof.
  unfold sources_of. induction 1 as [|e ev [Ht _] _ IH]; simpl; [reflexivity|].
  rewrite Ht. simpl. f_equal. exact IH.
Qed.

(** C4: when the primary judge raises, the step substitutes score 50.0,
    verdict neutral and an explanation that carries the text of the
    exception; the result returned still holds the evidence gathered before,
    and its sources are the links of all the evidence items, in order. *)
Theorem primary_failure_keeps_evidence (E : env) (claim : string)
  (context : option string) (w w1 w2 w3 w' : world)
  (ev : list evidence_item) (e : exn) (r : json) :
  too_short claim = false ->
  cache_lookup E (cache_key claim context) w = (Ok None, w1) ->
  _search_for_evidence E claim w1 = (Ok ev, w2) ->
  _verify_with_llm E claim ev w2 = (Raise e, w3) ->
  verify_claim_body E claim context w = (Ok r, w') ->
  Json.field "score" r = Some (JFloat (Fin 50))
  /\ Json.field "verdict" r = Some (JStr "neutral")
  /\ Json.field "explanation" r
     = Some (JStr ("Error in AI analysis: " ++ exn_str e))
  /\ Json.field "evidence" r = Some (JList (map evidence_json ev))
  /\ Json.field "sources" r = Some (JList (map link ev)).
Proof.
  intros Hlen Hmiss Hev Hfail Hbody.
  destruct (miss_result E claim context w w1 w' r Hlen Hmiss Hbody)
    as (ev' & w2' & p & w3' & s & w4 & Hev' & Hp & _ & ->).
  rewrite Hev in Hev'. injection Hev' as <- <-.
  unfold primary_step, try_except, bind, ret in Hp.
  rewrite Hfail in Hp. injection Hp as <- _.
  destruct (search_sound _ _ _ _ _ Hev) as [_ Hsound].
  simpl. rewrite (sources_all _ Hsound). repeat split.
Qed.

Lemma primary_failure_keeps_evidence_witness :
  too_short Sample.claim = false
  /\ cache_lookup Sample.judge_down (cache_key Sample.claim None) Sample.start
     = (Ok None, Sample.looked)
  /\ _search_for_evidence Sample.judge_down Sample.claim Sample.looked
     = (Ok Sample.evidence, Sample.searched)
  /\ _verify_with_llm Sample.judge_down Sample.claim Sample.evidence
       Sample.searched
     = (Raise Sample.quota, Sample.judged)
  /\ verify_claim_body Sample.judge_down Sample.claim None Sample.start
     = (Ok Sample.result_judge_down, Sample.after_judge_down)
  /\ Json.field "explanation" Sample.result_judge_down
     = Some (JStr ("Error in AI analysis: " ++ exn_str Sample.quota))
  /\ Json.field "sources" Sample.result_judge_down
     = Some (JList (map link Sample.evidence)).
Proof.
  assert (H1 : too_short Sample.claim = false) by (vm_compute; reflexivity).
  assert (H2 : cache_lookup Sample.judge_down (cache_key Sample.claim None)
                 Sample.start = (Ok None, Sample.looked))
    by (vm_compute; reflexivity).
  assert (H3 : _search_for_evidence Sample.judge_down Sample.claim Sample.looked
               = (Ok Sample.evidence, Sample.searched))
    by (vm_compute; reflexivity).
  assert (H4 : _verify_with_llm Sample.judge_down Sample.claim Sample.evidence
                 Sample.searched = (Raise Sample.quota, Sample.judged))
    by (vm_compute; reflexivity).
  assert (H5 : verify_claim_body Sample.judge_down Sample.claim None Sample.start
               = (Ok Sample.result_judge_down, Sample.after_judge_down))
    by (vm_compute; reflexivity).
  repeat (split; [assumption|]).
  destruct (primary_failure_keeps_evidence Sample.judge_down Sample.claim None
              Sample.start Sample.looked Sample.searched Sample.judged
              Sample.after_judge_down Sample.evidence Sample.quota
              Sample.result_judge_down H1 H2 H3 H4 H5)
    as (_ & _ & Hexpl & _ & Hsrc).
  split; assumption.
Defined.

(** With no OpenAI key the secondary step makes no call and yields an
    absent score (not 50) together with the text of the guard around the
    conversion of the absent score; the score and the verdict of the
    result are those of the primary step. *)
Lemma secondary_not_configured (E : env) (claim : string)
  (context : option string) (w w1 w' : world) (r : json) :
  key_set (OPENAI_API_KEY E) = false ->
  too_short claim = false ->
  cache_lookup E (cache_key claim context) w = (Ok None, w1) ->
  verify_claim_body E claim context w = (Ok r, w') ->
  Json.field "gpt_score" r = Some JNull
  /\ Json.field "gpt_explanation" r
     = Some (JStr "Error in GPT secondary check: float() argument must be a string or a real number, not 'NoneType'")
  /\ exists ev w2 p w3,
       _search_for_evidence E claim w1 = (Ok ev, w2)
       /\ primary_step E claim ev w2 = (Ok p, w3)
       /\ secondary_step E claim (explanation p) w3
          = (Ok (None, JStr "Error in GPT secondary check: float() argument must be a string or a real number, not 'NoneType'"), w3)
       /\ Json.field "score" r = Some (JFloat (score p))
       /\ Json.field "verdict" r = Some (JStr (verdict p)).
Proof.
  intros Hkey Hlen Hmiss Hbody.
  destruct (miss_result E claim context w w1 w' r Hlen Hmiss Hbody)
    as (ev & w2 & p & w3 & s & w4 & Hev & Hp & Hs & ->).
  assert (Hsec : secondary_step E claim (explanation p) w3
                 = (Ok (None, JStr "Error in GPT secondary check: float() argument must be a string or a real number, not 'NoneType'"), w3)).
  { unfold secondary_step, get_gpt_score, try_except, bind, ret, lift.
    rewrite Hkey. reflexivity. }
  rewrite Hsec in Hs. injection Hs as <- <-.
  split; [reflexivity|]. split; [reflexivity|].
  exists ev, w2, p, w3. repeat split; assumption.
Qed.

Lemma secondary_not_configured_witness :
  key_set (OPENAI_API_KEY Sample.no_secondary) = false
  /\ too_short Sample.claim = false
  /\ cache_lookup Sample.no_secondary (cache_key Sample.claim None) Sample.start
     = (Ok None, Sample.looked)
  /\ verify_claim_body Sample.no_secondary Sample.claim None Sample.start
     = (Ok Sample.result_no_secondary, Sample.after_no_secondary)
  /\ Json.field "gpt_score" Sample.result_no_secondary = Some JNull.
Proof.
  assert (H1 : key_set (OPENAI_API_KEY Sample.no_secondary) = false)
    by reflexivity.
  assert (H2 : too_short Sample.claim = false) by (vm_compute; reflexivity).
  assert (H3 : cache_lookup Sample.no_secondary (cache_key Sample.claim None)
                 Sample.start = (Ok None, Sample.looked))
    by (vm_compute; reflexivity).
  assert (H4 : verify_claim_body Sample.no_secondary Sample.claim None
                 Sample.start
               = (Ok Sample.result_no_secondary, Sample.after_no_secondary))
    by (vm_compute; reflexivity).
  repeat (split; [assumption|]).
  apply (secondary_not_configured Sample.no_secondary Sample.claim None
           Sample.start Sample.looked Sample.after_no_secondary
           Sample.result_no_secondary H1 H2 H3 H4).
Defined.

(** C3: without an OpenAI key [get_gpt_score] makes no call and returns
    no score with the explanation it has for that case, OpenAI API key not
    set.  The result of [verify_claim] has no secondary score and the
    score and the verdict it has with a key, but its secondary explanation
    is not that text: converting the absent score at line 147 raises, and
    the handler of line 149 puts the message of that exception in its
    place. *)
Theorem configuration_message_lost :
  key_set (OPENAI_API_KEY Sample.no_secondary) = false
  /\ (forall expl w,
        get_gpt_score Sample.no_secondary Sample.claim expl w
        = (Ok (Gpt None (JStr "OpenAI API key not set")), w))
  /\ verify_claim Sample.no_secondary Sample.claim None Sample.start
     = (Ok Sample.result_no_secondary, Sample.after_no_secondary)
  /\ Json.field "gpt_score" Sample.result_no_secondary = Some JNull
  /\ Json.field "gpt_explanation" Sample.result_no_secondary
     = Some (JStr "Error in GPT secondary check: float() argument must be a string or a real number, not 'NoneType'")
  /\ Json.field "gpt_explanation" Sample.result_no_secondary
     <> Some (JStr "OpenAI API key not set")
  /\ verify_claim Sample.steady Sample.claim None Sample.start
     = (Ok Sample.result, Sample.after_first)
  /\ Json.field "score" Sample.result_no_secondary
     = Json.field "score" Sample.result
  /\ Json.field "verdict" Sample.result_no_secondary
     = Json.field "verdict" Sample.result.
Proof.
  split; [reflexivity|].
  split; [intros expl w; reflexivity|].
  split; [vm_compute; reflexivity|].
  split; [reflexivity|]. split; [reflexivity|].
  split; [discriminate|].
  split; [vm_compute; reflexivity|].
  split; reflexivity.
Qed.

(** ** The fingerprint *)

Example md5_empty :
  Md5.hexdigest (PyStr.encode EmptyString) = "d41d8cd98f00b204e9800998ecf8427e".
Proof. vm_compute. reflexivity. Qed.

Example md5_abc :
  Md5.hexdigest (PyStr.encode "abc") = "900150983cd24fb0d6963f7d28e17f72".
Proof. vm_compute. reflexivity. Qed.

Example md5_two_blocks :
  Md5.hexdigest (PyStr.encode
    "12345678901234567890123456789012345678901234567890123456789012345678901234567890")
  = "57edf4a22be3c955ac49da2e2107b67a".
Proof. vm_compute. reflexivity. Qed.

Lemma cache_key_of_concatenation (c1 c2 : string) (x1 x2 : option string) :
  c1 ++ or_empty x1 = c2 ++ or_empty x2 -> cache_key c1 x1 = cache_key c2 x2.
Proof. intros H. unfold cache_key. rewrite H. reflexivity. Qed.

(** With the cache store enabled, a claim that passes validation is looked
    up under its fingerprint before anything else. *)
Lemma fingerprint_looked_up (E : env) (claim : string)
  (context : option string) (w : world) :
  REDIS_AVAILABLE E = true -> too_short claim = false ->
  exists tail,
    log (snd (verify_claim E claim context w))
    = (log w ++ RedisGet (cache_key claim context) :: tail)%list.
Proof.
  intros Hon Hlen.
  destruct (cache_lookup E (cache_key claim context) w) as [[[v|]|e] w1] eqn:Hc.
  - exists []. unfold verify_claim, try_except, verify_claim_body.
    rewrite Hlen. unfold bind at 1. rewrite Hc. simpl.
    unfold cache_lookup in Hc. rewrite Hon in Hc. run_in Hc; reflexivity.
  - assert (Hw1 : log w1 = (log w ++ [RedisGet (cache_key claim context)])%list).
    { unfold cache_lookup in Hc. rewrite Hon in Hc. run_in Hc; reflexivity. }
    destruct (body_miss E claim context w w1 Hlen Hc)
      as (ev & w2 & p & w3 & s & w4 & Hev & Hp & Hs & Hrun).
    assert (Hsuffix : exists l, log w4 = (log w1 ++ l)%list).
    { assert (H2 : exists l, log w2 = (log w1 ++ l)%list).
      { run_in Hev; simpl; try (eexists; reflexivity);
          exists []; symmetry; apply app_nil_r. }
      assert (H3 : exists l, log w3 = (log w2 ++ l)%list).
      { run_in Hp; simpl; try (eexists; reflexivity);
          exists []; symmetry; apply app_nil_r. }
      assert (H4 : exists l, log w4 = (log w3 ++ l)%list).
      { run_in Hs; simpl; try (eexists; reflexivity);
          exists []; symmetry; apply app_nil_r. }
      destruct H2 as [l2 H2], H3 as [l3 H3], H4 as [l4 H4].
      exists (l2 ++ l3 ++ l4)%list. rewrite H4, H3, H2, <- !app_assoc. reflexivity. }
    destruct Hsuffix as [l Hl].
    unfold verify_claim, try_except. rewrite Hrun.
    unfold write_through, redis_setex, bind, ret. rewrite Hon.
    destruct (redis_fault E w4 _); simpl; rewrite Hl, Hw1, <- !app_assoc; simpl;
      eexists; reflexivity.
  - exists []. unfold verify_claim, try_except, verify_claim_body.
    rewrite Hlen. unfold bind at 1. rewrite Hc. simpl.
    unfold cache_lookup in Hc. rewrite Hon in Hc. run_in Hc; reflexivity.
Qed.

(** C9, amended: the fingerprint is a function of the concatenation of
    claim and context, so inputs with different claims share a key; for
    instance claim abcd with an empty context and claim abc with context d,
    both of which pass validation.  Both are looked up under the same key,
    and the second is served the result cached for the first. *)
Theorem fingerprint_collision :
  (forall c1 c2 x1 x2,
     c1 ++ or_empty x1 = c2 ++ or_empty x2 -> cache_key c1 x1 = cache_key c2 x2)
  /\ "abcd" <> "abc"
  /\ too_short "abcd" = false
  /\ too_short "abc" = false
  /\ cache_key "abcd" (Some EmptyString) = cache_key "abc" (Some "d")
  /\ cache_key "abcd" None = "factcheck:e2fc714c4727ee9395f324cd2e7f331f"
  /\ (let first := verify_claim Sample.steady "abcd" (Some EmptyString) Sample.start in
      let other := verify_claim Sample.steady "abc" (Some "d") (snd first) in
      looked_up (snd first) = [cache_key "abcd" (Some EmptyString)]
      /\ looked_up (snd other)
         = [cache_key "abcd" (Some EmptyString); cache_key "abcd" (Some EmptyString)]
      /\ fst other = fst first
      /\ exists v, fst other = Ok v /\ Json.field "text" v = Some (JStr "abcd")).
Proof.
  split; [intros; apply cache_key_of_concatenation; assumption|].
  split; [discriminate|].
  split; [reflexivity|]. split; [reflexivity|].
  split; [reflexivity|]. split; [vm_compute; reflexivity|].
  cbv zeta. split; [vm_compute; reflexivity|].
  split; [vm_compute; reflexivity|].
  split; [vm_compute; reflexivity|].
  eexists. split; vm_compute; reflexivity.
Qed.

(** C9 as stated fails on its own example: claim ab (with an empty
    context) and claim a (with context b) are both shorter than three
    characters, so [verify_claim] returns the placeholder before it computes
    a fingerprint: no key is looked up, although the cache store is on. *)
Lemma fingerprint_example_rejected :
  verify_claim Sample.steady "ab" (Some EmptyString) Sample.start
  = (Ok (rejected "ab"), Sample.start)
  /\ verify_claim Sample.steady "a" (Some "b") Sample.start
     = (Ok (rejected "a"), Sample.start)
  /\ looked_up (snd (verify_claim Sample.steady "ab" (Some EmptyString) Sample.start))
     = []
  /\ looked_up (snd (verify_claim Sample.steady "a" (Some "b") Sample.start)) = [].
Proof. repeat split. Qed.

(** * Further properties *)

(** ** The calls of each step *)

Lemma continues_nil (w : world) : continues w w [].
Proof. unfold continues. symmetry. apply app_nil_r. Qed.

Lemma continues_logged (w : world) (c : call) : continues w (logged c w) [c].
Proof. reflexivity. Qed.

Lemma continues_trans (w1 w2 w3 : world) (l1 l2 : list call) :
  continues w1 w2 l1 -> continues w2 w3 l2 -> continues w1 w3 (l1 ++ l2)%list.
Proof. unfold continues. intros H1 H2. rewrite H2, H1, app_assoc. reflexivity. Qed.

Lemma lookup_calls (E : env) (key : string) (w w' : world)
  (o : outcome (option json)) :
  cache_lookup E key w = (o, w') ->
  continues w w' (if REDIS_AVAILABLE E then [RedisGet key] else []).
Proof.
  intros H. unfold cache_lookup in H.
  destruct (REDIS_AVAILABLE E).
  - run_in H; apply continues_logged.
  - run_in H. apply continues_nil.
Qed.

Lemma search_calls (E : env) (claim : string) (w w' : world)
  (o : outcome (list evidence_item)) :
  _search_for_evidence E claim w = (o, w') ->
  exists l, continues w w' l /\ at_most (SearchPost ("fact check " ++ claim)) l.
Proof.
  intros H. run_in H;
    first [ exists []; split; [apply continues_nil | left; reflexivity]
          | eexists; split; [apply continues_logged | right; reflexivity] ].
Qed.

Lemma llm_calls (E : env) (claim : string) (ev : list evidence_item)
  (w w' : world) (o : outcome judge_outcome) :
  _verify_with_llm E claim ev w = (o, w') ->
  continues w w'
    (if gemini_model E then [GenerateContent (llm_prompt claim ev)] else []).
Proof.
  intros H. unfold _verify_with_llm in H.
  destruct (gemini_model E); simpl in H.
  - run_in H; apply continues_logged.
  - run_in H. apply continues_nil.
Qed.

Lemma primary_calls (E : env) (claim : string) (ev : list evidence_item)
  (w w' : world) (o : outcome judge_outcome) :
  primary_step E claim ev w = (o, w') ->
  continues w w'
    (if gemini_model E then [GenerateContent (llm_prompt claim ev)] else []).
Proof.
  unfold primary_step, try_except, bind, ret.
  destruct (_verify_with_llm E claim ev w) as [[p|e] w1] eqn:Hv;
    intros H; injection H as _ <-; apply (llm_calls _ _ _ _ _ _ Hv).
Qed.

Lemma gpt_calls (E : env) (claim expl : string) (w w' : world)
  (o : outcome gpt_outcome) :
  get_gpt_score E claim expl w = (o, w') ->
  continues w w'
    (if key_set (OPENAI_API_KEY E)
     then [ChatCompletion gpt_system (gpt_prompt claim expl)] else []).
Proof.
  intros H. unfold get_gpt_score in H.
  destruct (key_set (OPENAI_API_KEY E)); simpl in H.
  - run_in H; apply continues_logged.
  - run_in H. apply continues_nil.
Qed.

Lemma secondary_calls (E : env) (claim expl : string) (w w' : world)
  (o : outcome (option pyfloat * json)) :
  secondary_step E claim expl w = (o, w') ->
  continues w w'
    (if key_set (OPENAI_API_KEY E)
     then [ChatCompletion gpt_system (gpt_prompt claim expl)] else []).
Proof.
  unfold secondary_step, try_except, bind, ret, lift.
  destruct (get_gpt_score E claim expl w) as [[g|e] w1] eqn:Hg; intros H.
  - destruct (float_of_gpt_score (gpt_score g)); injection H as _ <-;
      apply (gpt_calls _ _ _ _ _ _ Hg).
  - injection H as _ <-. apply (gpt_calls _ _ _ _ _ _ Hg).
Qed.

Lemma write_calls (E : env) (key : string) (r : json) (w w' : world)
  (o : outcome json) :
  write_through E key r w = (o, w') ->
  continues w w'
    (if REDIS_AVAILABLE E then [RedisSetex key ttl (json_dumps E r)] else []).
Proof.
  intros H. unfold write_through in H.
  destruct (REDIS_AVAILABLE E).
  - run_in H; reflexivity.
  - run_in H. apply continues_nil.
Qed.

(** ** The transcript of a run *)

(** The gatherer calls the search provider exactly when it has a key. *)
Lemma search_call (E : env) (claim : string) (w w' : world)
  (o : outcome (list evidence_item)) :
  _search_for_evidence E claim w = (o, w') ->
  continues w w'
    (if key_set (SERPER_API_KEY E)
     then [SearchPost ("fact check " ++ claim)] else []).
Proof.
  intros H. unfold _search_for_evidence in H.
  destruct (key_set (SERPER_API_KEY E)); simpl in H.
  - run_in H; apply continues_logged.
  - run_in H. apply continues_nil.
Qed.

(** X1: the transcript of one run of [verify_claim].  A rejected claim
    makes no call.  Otherwise the run starts with the cache lookup under
    the claim's key, if the store is enabled; on a hit, or when the lookup
    raises, that is its only call.  On a miss the calls are, in this order
    and each at most once: the lookup; the search for the claim, if there
    is a Serper key; the primary prompt built from the evidence that the
    search returned, if there is a model; the secondary prompt built from
    the explanation that the primary step returned, if there is an OpenAI
    key; the cache write, if the store is enabled, under the same key with
    a time to live of 86400 seconds, of the encoding of the result
    assembled from that evidence and the outcomes of the two steps.  That
    result is the one returned unless the write raises. *)
Theorem run_transcript (E : env) (claim : string) (context : option string)
  (w : world) :
  exists r w',
    verify_claim E claim context w = (Ok r, w')
    /\ (too_short claim = true -> w' = w)
    /\ (too_short claim = false ->
        match cache_lookup E (cache_key claim context) w with
        | (Ok None, w1) =>
            exists ev w2 p w3 s w4,
              _search_for_evidence E claim w1 = (Ok ev, w2)
              /\ primary_step E claim ev w2 = (Ok p, w3)
              /\ secondary_step E claim (explanation p) w3 = (Ok s, w4)
              /\ continues w w'
                   ((if REDIS_AVAILABLE E
                     then [RedisGet (cache_key claim context)] else [])
                    ++ (if key_set (SERPER_API_KEY E)
                        then [SearchPost ("fact check " ++ claim)] else [])
                    ++ (if gemini_model E
                        then [GenerateContent (llm_prompt claim ev)] else [])
                    ++ (if key_set (OPENAI_API_KEY E)
                        then [ChatCompletion gpt_system
                                (gpt_prompt claim (explanation p))]
                        else [])
                    ++ (if REDIS_AVAILABLE E
                        then [RedisSetex (cache_key claim context) 86400
                                (json_dumps E (final_result claim p ev s))]
                        else []))%list
              /\ (r = final_result claim p ev s
                  \/ exists e,
                       redis_fault E w4
                         (RedisSetex (cache_key claim context) 86400
                            (json_dumps E (final_result claim p ev s)))
                       = Some e
                       /\ r = error_result claim e)
        | (_, w1) =>
            w' = w1
            /\ continues w w'
                 (if REDIS_AVAILABLE E
                  then [RedisGet (cache_key claim context)] else [])
        end).
Proof.
  rewrite boundary.
  destruct (too_short claim) eqn:Hlen.
  { unfold verify_claim_body. rewrite Hlen.
    exists (rejected claim), w.
    split; [reflexivity|]. split; [reflexivity | discriminate]. }
  destruct (cache_lookup E (cache_key claim context) w) as [o w1] eqn:Hc.
  pose proof (lookup_calls _ _ _ _ _ Hc) as H1.
  destruct o as [[v|]|e].
  - (* hit *)
    unfold verify_claim_body. rewrite Hlen. unfold bind at 1. rewrite Hc.
    exists v, w1.
    split; [reflexivity|]. split; [discriminate|].
    intros _. split; [reflexivity | exact H1].
  - (* miss *)
    destruct (body_miss E claim context w w1 Hlen Hc)
      as (ev & w2 & p & w3 & s & w4 & Hev & Hp & Hs & Hrun).
    rewrite Hrun.
    destruct (write_through E (cache_key claim context)
                (final_result claim p ev s) w4) as [o5 w5] eqn:Hw.
    pose proof (search_call _ _ _ _ _ Hev) as H2.
    pose proof (primary_calls _ _ _ _ _ _ Hp) as H3.
    pose proof (secondary_calls _ _ _ _ _ _ Hs) as H4.
    pose proof (write_calls _ _ _ _ _ _ Hw) as H5.
    pose proof (continues_trans _ _ _ _ _ H1
                  (continues_trans _ _ _ _ _ H2
                     (continues_trans _ _ _ _ _ H3
                        (continues_trans _ _ _ _ _ H4 H5)))) as Hall.
    assert (Hres : match o5 with
                   | Ok r5 => r5 = final_result claim p ev s
                   | Raise e5 =>
                       redis_fault E w4
                         (RedisSetex (cache_key claim context) 86400
                            (json_dumps E (final_result claim p ev s)))
                       = Some e5
                   end).
    { unfold write_through, bind, ret, redis_setex in Hw.
      destruct (REDIS_AVAILABLE E).
      - change ttl with 86400 in Hw.
        destruct (redis_fault E w4 _) as [e5|];
          injection Hw as <- _; reflexivity.
      - injection Hw as <- _. reflexivity. }
    destruct o5 as [r5|e5].
    + exists r5, w5. split; [reflexivity|]. split; [discriminate|].
      intros _. exists ev, w2, p, w3, s, w4.
      repeat (split; [assumption|]). left. exact Hres.
    + exists (error_result claim e5), w5.
      split; [reflexivity|]. split; [discriminate|].
      intros _. exists ev, w2, p, w3, s, w4.
      repeat (split; [assumption|]). right. exists e5. split; [exact Hres|reflexivity].
  - (* the lookup raised *)
    unfold verify_claim_body. rewrite Hlen. unfold bind at 1. rewrite Hc.
    exists (error_result claim e), w1.
    split; [reflexivity|]. split; [discriminate|].
    intros _. split; [reflexivity | exact H1].
Qed.

(** The sample run on a miss: five calls, the prompts built from the
    evidence and from the explanation of the judge. *)
Example sample_transcript :
  log (snd (verify_claim Sample.steady Sample.claim None Sample.start))
  = [ RedisGet (cache_key Sample.claim None);
      SearchPost ("fact check " ++ Sample.claim);
      GenerateContent (llm_prompt Sample.claim Sample.evidence);
      ChatCompletion gpt_system
        (gpt_prompt Sample.claim "NASA states that the wall is not visible.");
      RedisSetex (cache_key Sample.claim None) 86400
        (SampleJson.dumps Sample.result) ].
Proof. vm_compute. reflexivity. Qed.

(** ** What reaches the cache store *)

Lemma final_result_keys (claim : string) (p : judge_outcome)
  (ev : list evidence_item) (s : option pyfloat * json) :
  Json.keys (final_result claim p ev s) = nine_fields.
Proof. reflexivity. Qed.

(** X2: a run never moves the clock and changes the cache store in one
    way only: it puts the result it returns, a nine-field result assembled
    on a miss, under the claim's key with an expiry 86400 seconds ahead.
    The placeholder of a rejected claim and the error result are never
    written, and with the store disabled nothing is. *)
Theorem store_discipline (E : env) (claim : string) (context : option string)
  (w : world) :
  exists r w',
    verify_claim E claim context w = (Ok r, w')
    /\ now w' = now w
    /\ (redis w' = redis w
        \/ (REDIS_AVAILABLE E = true
            /\ too_short claim = false
            /\ Json.keys r = nine_fields
            /\ redis w'
               = <[cache_key claim context := (json_dumps E r, now w + 86400)]>
                   (redis w)))
    /\ (Json.keys r = seven_fields -> redis w' = redis w)
    /\ (REDIS_AVAILABLE E = false -> redis w' = redis w).
Proof.
  assert (Hmain : exists r w',
    verify_claim E claim context w = (Ok r, w')
    /\ now w' = now w
    /\ (redis w' = redis w
        \/ (REDIS_AVAILABLE E = true
            /\ too_short claim = false
            /\ Json.keys r = nine_fields
            /\ redis w'
               = <[cache_key claim context := (json_dumps E r, now w + 86400)]>
                   (redis w)))).
  { rewrite boundary.
    destruct (too_short claim) eqn:Hlen.
    { unfold verify_claim_body. rewrite Hlen.
      exists (rejected claim), w. repeat split. left. reflexivity. }
    destruct (cache_lookup E (cache_key claim context) w) as [o w1] eqn:Hc.
    destruct (lookup_frame _ _ _ _ _ Hc) as [Hn1 Hr1].
    destruct o as [[v|]|e].
    - unfold verify_claim_body. rewrite Hlen. unfold bind at 1. rewrite Hc.
      exists v, w1. repeat split; [exact Hn1 | left; exact Hr1].
    - destruct (body_miss E claim context w w1 Hlen Hc)
        as (ev & w2 & p & w3 & s & w4 & Hev & Hp & Hs & Hrun).
      rewrite Hrun.
      assert (Hfr : frame w w4).
      { eapply frame_trans; [split; [exact Hn1|exact Hr1]|].
        eapply frame_trans; [eapply search_frame, Hev|].
        eapply frame_trans; [eapply primary_frame, Hp|].
        eapply secondary_frame, Hs. }
      destruct Hfr as [Hn4 Hr4].
      unfold write_through, redis_setex, bind, ret.
      destruct (REDIS_AVAILABLE E) eqn:Hon.
      + destruct (redis_fault E w4 _).
        * eexists _, _. split; [reflexivity|]. simpl.
          split; [exact Hn4 | left; exact Hr4].
        * eexists _, _. split; [reflexivity|]. simpl.
          split; [exact Hn4|]. right. repeat split.
          rewrite Hn4, Hr4. reflexivity.
      + eexists _, _. split; [reflexivity|]. simpl.
        split; [exact Hn4 | left; exact Hr4].
    - unfold verify_claim_body. rewrite Hlen. unfold bind at 1. rewrite Hc.
      eexists _, w1. split; [reflexivity|]. split; [exact Hn1 | left; exact Hr1]. }
  destruct Hmain as (r & w' & Hrun & Hnow & Hstore).
  exists r, w'. split; [exact Hrun|]. split; [exact Hnow|].
  split; [exact Hstore|]. split.
  - intros H7. destruct Hstore as [H|(_ & _ & H9 & _)]; [exact H|].
    rewrite H9 in H7. discriminate H7.
  - intros Hoff. destruct Hstore as [H|(Hon & _)]; [exact H|congruence].
Qed.

(** X3: with the cache store enabled, an entry that is alive, not empty
    and decodes is returned as decoded, whatever it is: the run checks
    neither that it is a result nor that it belongs to the claim, and its
    only call is the lookup. *)
Theorem live_entry_served (E : env) (claim : string)
  (context : option string) (w : world) (bytes : string) (expiry : Z)
  (v : json) :
  REDIS_AVAILABLE E = true ->
  too_short claim = false ->
  redis_fault E w (RedisGet (cache_key claim context)) = None ->
  redis w !! cache_key claim context = Some (bytes, expiry) ->
  now w < expiry ->
  bytes <> EmptyString ->
  json_loads E bytes = Ok v ->
  verify_claim E claim context w
  = (Ok v, logged (RedisGet (cache_key claim context)) w).
Proof.
  intros Hon Hlen Hok Hget Hlive Hne Hv.
  rewrite boundary. unfold verify_claim_body. rewrite Hlen.
  unfold bind at 1.
  rewrite (lookup_hit E _ bytes expiry v w Hon Hok Hget Hlive Hne Hv).
  reflexivity.
Qed.

Lemma live_entry_served_witness :
  REDIS_AVAILABLE Sample.steady = true
  /\ too_short Sample.claim = false
  /\ redis_fault Sample.steady Sample2.foreign
       (RedisGet (cache_key Sample.claim None)) = None
  /\ redis Sample2.foreign !! cache_key Sample.claim None
     = Some ("[1, 2]", 5000)
  /\ now Sample2.foreign < 5000
  /\ "[1, 2]" <> EmptyString
  /\ json_loads Sample.steady "[1, 2]" = Ok (JList [JInt 1; JInt 2])
  /\ verify_claim Sample.steady Sample.claim None Sample2.foreign
     = (Ok (JList [JInt 1; JInt 2]),
        logged (RedisGet (cache_key Sample.claim None)) Sample2.foreign).
Proof.
  assert (H1 : REDIS_AVAILABLE Sample.steady = true) by reflexivity.
  assert (H2 : too_short Sample.claim = false) by (vm_compute; reflexivity).
  assert (H3 : redis_fault Sample.steady Sample2.foreign
                 (RedisGet (cache_key Sample.claim None)) = None)
    by reflexivity.
  assert (H4 : redis Sample2.foreign !! cache_key Sample.claim None
               = Some ("[1, 2]", 5000)) by (vm_compute; reflexivity).
  assert (H5 : now Sample2.foreign < 5000) by (vm_compute; reflexivity).
  assert (H6 : "[1, 2]" <> EmptyString) by discriminate.
  assert (H7 : json_loads Sample.steady "[1, 2]" = Ok (JList [JInt 1; JInt 2]))
    by (vm_compute; reflexivity).
  repeat (split; [assumption|]).
  apply (live_entry_served Sample.steady Sample.claim None Sample2.foreign
           "[1, 2]" 5000 (JList [JInt 1; JInt 2]) H1 H2 H3 H4 H5 H6 H7).
Defined.

(** X4: an entry that is alive but does not decode is not recomputed: the
    run returns the error result that carries the decoder's message, calls
    neither the search provider nor a judge, and leaves the store as it
    is, so the same happens on every call until the entry expires. *)
Theorem undecodable_entry (E : env) (claim : string)
  (context : option string) (w : world) (bytes : string) (expiry : Z)
  (e : exn) :
  REDIS_AVAILABLE E = true ->
  too_short claim = false ->
  redis_fault E w (RedisGet (cache_key claim context)) = None ->
  redis w !! cache_key claim context = Some (bytes, expiry) ->
  now w < expiry ->
  bytes <> EmptyString ->
  json_loads E bytes = Raise e ->
  verify_claim E claim context w
  = (Ok (error_result claim e), logged (RedisGet (cache_key claim context)) w)
  /\ redis (snd (verify_claim E claim context w)) = redis w
  /\ network_calls (snd (verify_claim E claim context w)) = network_calls w.
Proof.
  intros Hon Hlen Hok Hget Hlive Hne He.
  assert (Hrun : verify_claim E claim context w
                 = (Ok (error_result claim e),
                    logged (RedisGet (cache_key claim context)) w)).
  { rewrite boundary. unfold verify_claim_body. rewrite Hlen.
    unfold bind at 1. unfold cache_lookup, redis_get, bind, lift, ret.
    rewrite Hon, Hok, Hget.
    apply Z.ltb_lt in Hlive. rewrite Hlive.
    apply String.eqb_neq in Hne. rewrite Hne. simpl. rewrite He. reflexivity. }
  split; [exact Hrun|]. rewrite Hrun. split; [reflexivity|].
  unfold network_calls, logged. simpl.
  rewrite List.filter_app. simpl. apply app_nil_r.
Qed.

Lemma undecodable_entry_witness :
  REDIS_AVAILABLE Sample.steady = true
  /\ too_short Sample.claim = false
  /\ redis_fault Sample.steady Sample2.garbled
       (RedisGet (cache_key Sample.claim None)) = None
  /\ redis Sample2.garbled !! cache_key Sample.claim None
     = Some ("{oops", 5000)
  /\ now Sample2.garbled < 5000
  /\ "{oops" <> EmptyString
  /\ json_loads Sample.steady "{oops" = Raise Sample2.not_json
  /\ verify_claim Sample.steady Sample.claim None Sample2.garbled
     = (Ok (error_result Sample.claim Sample2.not_json),
        logged (RedisGet (cache_key Sample.claim None)) Sample2.garbled).
Proof.
  assert (H1 : REDIS_AVAILABLE Sample.steady = true) by reflexivity.
  assert (H2 : too_short Sample.claim = false) by (vm_compute; reflexivity).
  assert (H3 : redis_fault Sample.steady Sample2.garbled
                 (RedisGet (cache_key Sample.claim None)) = None)
    by reflexivity.
  assert (H4 : redis Sample2.garbled !! cache_key Sample.claim None
               = Some ("{oops", 5000)) by (vm_compute; reflexivity).
  assert (H5 : now Sample2.garbled < 5000) by (vm_compute; reflexivity).
  assert (H6 : "{oops" <> EmptyString) by discriminate.
  assert (H7 : json_loads Sample.steady "{oops" = Raise Sample2.not_json)
    by (vm_compute; reflexivity).
  repeat (split; [assumption|]).
  apply (undecodable_entry Sample.steady Sample.claim None Sample2.garbled
           "{oops" 5000 Sample2.not_json H1 H2 H3 H4 H5 H6 H7).
Defined.

Lemma miss_entry (E : env) (claim : string) (context : option string)
  (w w1 w' : world) (r : json) :
  REDIS_AVAILABLE E = true ->
  too_short claim = false ->
  cache_lookup E (cache_key claim context) w = (Ok None, w1) ->
  verify_claim_body E claim context w = (Ok r, w') ->
  redis w' !! cache_key claim context = Some (json_dumps E r, now w + 86400).
Proof.
  intros Hon Hlen Hc Hbody.
  destruct (body_miss E claim context w w1 Hlen Hc)
    as (ev & w2 & p & w3 & s & w4 & Hev & Hp & Hs & Hrun).
  assert (Hfr : frame w w4).
  { eapply frame_trans; [eapply lookup_frame, Hc|].
    eapply frame_trans; [eapply search_frame, Hev|].
    eapply frame_trans; [eapply primary_frame, Hp|].
    eapply secondary_frame, Hs. }
  destruct Hfr as [Hnow _].
  rewrite Hrun in Hbody.
  unfold write_through, redis_setex, bind, ret in Hbody. rewrite Hon in Hbody.
  destruct (redis_fault E w4 _); [discriminate|].
  injection Hbody as <- <-. simpl. rewrite Hnow. apply lookup_insert_eq.
Qed.

(** X5: an outage of the primary judge is remembered.  When the judge
    raises on a miss and the write succeeds, the neutral fallback is what
    the cache holds for the next 24 hours: a later identical call gets the
    fallback back, with its error text, and the judge is not asked again
    even if it would answer by then. *)
Theorem outage_remembered (E : env) (claim : string)
  (context : option string) (w0 wa wb wc w1 w2 : world)
  (ev : list evidence_item) (e : exn) (r : json) :
  REDIS_AVAILABLE E = true ->
  too_short claim = false ->
  cache_lookup E (cache_key claim context) w0 = (Ok None, wa) ->
  _search_for_evidence E claim wa = (Ok ev, wb) ->
  _verify_with_llm E claim ev wb = (Raise e, wc) ->
  verify_claim_body E claim context w0 = (Ok r, w1) ->
  json_loads E (json_dumps E r) = Ok r ->
  json_dumps E r <> EmptyString ->
  redis w2 = redis w1 ->
  now w2 < now w0 + 86400 ->
  redis_fault E w2 (RedisGet (cache_key claim context)) = None ->
  verify_claim E claim context w2
  = (Ok r, logged (RedisGet (cache_key claim context)) w2)
  /\ Json.field "score" r = Some (JFloat (Fin 50))
  /\ Json.field "verdict" r = Some (JStr "neutral")
  /\ Json.field "explanation" r
     = Some (JStr ("Error in AI analysis: " ++ exn_str e)).
Proof.
  intros Hon Hlen Hc Hev Hfail Hbody Hcodec Hne Hstore Hlive Hok.
  split.
  - rewrite boundary. unfold verify_claim_body. rewrite Hlen.
    unfold bind at 1.
    rewrite (lookup_hit E _ (json_dumps E r) (now w0 + 86400) r w2);
      try assumption; [reflexivity|].
    rewrite Hstore. eapply miss_entry; eassumption.
  - destruct (miss_result E claim context w0 wa w1 r Hlen Hc Hbody)
      as (ev' & w2' & p & w3' & s & w4 & Hev' & Hp & _ & ->).
    rewrite Hev in Hev'. injection Hev' as <- <-.
    unfold primary_step, try_except, bind, ret in Hp.
    rewrite Hfail in Hp. injection Hp as <- _. repeat split.
Qed.

Lemma outage_remembered_witness :
  REDIS_AVAILABLE Sample2.outage = true
  /\ too_short Sample.claim = false
  /\ cache_lookup Sample2.outage (cache_key Sample.claim None) Sample.start
     = (Ok None, Sample.looked)
  /\ _search_for_evidence Sample2.outage Sample.claim Sample.looked
     = (Ok Sample.evidence, Sample2.outage_searched)
  /\ _verify_with_llm Sample2.outage Sample.claim Sample.evidence
       Sample2.outage_searched
     = (Raise Sample.quota, Sample2.outage_judged)
  /\ verify_claim_body Sample2.outage Sample.claim None Sample.start
     = (Ok Sample.result_judge_down, Sample2.after_outage)
  /\ json_loads Sample2.outage (json_dumps Sample2.outage Sample.result_judge_down)
     = Ok Sample.result_judge_down
  /\ json_dumps Sample2.outage Sample.result_judge_down <> EmptyString
  /\ redis (Sample.later 3600 Sample2.after_outage) = redis Sample2.after_outage
  /\ now (Sample.later 3600 Sample2.after_outage) < now Sample.start + 86400
  /\ redis_fault Sample2.outage (Sample.later 3600 Sample2.after_outage)
       (RedisGet (cache_key Sample.claim None)) = None
  /\ generate_content Sample2.outage (Sample.later 3600 Sample2.after_outage)
       (llm_prompt Sample.claim Sample.evidence) = Ok Sample.judge_reply
  /\ verify_claim Sample2.outage Sample.claim None
       (Sample.later 3600 Sample2.after_outage)
     = (Ok Sample.result_judge_down,
        logged (RedisGet (cache_key Sample.claim None))
          (Sample.later 3600 Sample2.after_outage)).
Proof.
  assert (H1 : REDIS_AVAILABLE Sample2.outage = true) by reflexivity.
  assert (H2 : too_short Sample.claim = false) by (vm_compute; reflexivity).
  assert (H3 : cache_lookup Sample2.outage (cache_key Sample.claim None)
                 Sample.start = (Ok None, Sample.looked))
    by (vm_compute; reflexivity).
  assert (H4 : _search_for_evidence Sample2.outage Sample.claim Sample.looked
               = (Ok Sample.evidence, Sample2.outage_searched))
    by (vm_compute; reflexivity).
  assert (H5 : _verify_with_llm Sample2.outage Sample.claim Sample.evidence
                 Sample2.outage_searched
               = (Raise Sample.quota, Sample2.outage_judged))
    by (vm_compute; reflexivity).
  assert (H6 : verify_claim_body Sample2.outage Sample.claim None Sample.start
               = (Ok Sample.result_judge_down, Sample2.after_outage))
    by (vm_compute; reflexivity).
  assert (H7 : json_loads Sample2.outage
                 (json_dumps Sample2.outage Sample.result_judge_down)
               = Ok Sample.result_judge_down) by (vm_compute; reflexivity).
  assert (H8 : json_dumps Sample2.outage Sample.result_judge_down <> EmptyString)
    by (vm_compute; discriminate).
  assert (H9 : redis (Sample.later 3600 Sample2.after_outage)
               = redis Sample2.after_outage) by reflexivity.
  assert (H10 : now (Sample.later 3600 Sample2.after_outage)
                < now Sample.start + 86400) by (vm_compute; reflexivity).
  assert (H11 : redis_fault Sample2.outage
                  (Sample.later 3600 Sample2.after_outage)
                  (RedisGet (cache_key Sample.claim None)) = None)
    by reflexivity.
  assert (H12 : generate_content Sample2.outage
                  (Sample.later 3600 Sample2.after_outage)
                  (llm_prompt Sample.claim Sample.evidence)
                = Ok Sample.judge_reply) by (vm_compute; reflexivity).
  repeat (split; [assumption|]).
  apply (outage_remembered Sample2.outage Sample.claim None Sample.start
           Sample.looked Sample2.outage_searched Sample2.outage_judged
           Sample2.after_outage (Sample.later 3600 Sample2.after_outage)
           Sample.evidence Sample.quota Sample.result_judge_down
           H1 H2 H3 H4 H5 H6 H7 H8 H9 H10 H11).
Defined.

(** ** The form of a computed result *)

Lemma parse_response_in_range (text : string) :
  in_range (score (parse_response text)).
Proof.
  rewrite parse_response_score.
  apply (fold_parse_invariant (fun st => in_range (score st))).
  - apply parse_line_in_range.
  - apply f50_in_range.
Qed.

Lemma parse_response_allowed (text : string) :
  In (verdict (parse_response text)) outcome_verdicts.
Proof.
  rewrite parse_response_verdict.
  apply (fold_parse_invariant (fun st => In (verdict st) outcome_verdicts)).
  - apply parse_line_allowed.
  - simpl. tauto.
Qed.

Lemma parse_response_explained (text : string) :
  explanation (parse_response text) <> EmptyString.
Proof.
  unfold parse_response. cbn [explanation].
  match goal with |- (if String.eqb ?x _ then _ else _) <> _ =>
    destruct (String.eqb x EmptyString) eqn:H end.
  - discriminate.
  - apply String.eqb_neq. exact H.
Qed.

Lemma primary_step_sound (E : env) (claim : string)
  (ev : list evidence_item) (w w' : world) (p : judge_outcome) :
  primary_step E claim ev w = (Ok p, w') ->
  in_range (score p)
  /\ In (verdict p) outcome_verdicts
  /\ explanation p <> EmptyString.
Proof.
  intros Hp.
  destruct (primary_step_cases _ _ _ _ _ _ Hp) as [(text & ->)|(e & _ & ->)].
  - split; [apply parse_response_in_range|].
    split; [apply parse_response_allowed | apply parse_response_explained].
  - split; [apply f50_in_range|]. split; [simpl; tauto | discriminate].
Qed.

Lemma placeholder_well_formed (claim v t : string) :
  In v all_verdicts -> t <> EmptyString ->
  well_formed claim (placeholder claim v t).
Proof.
  intros Hv Ht. unfold well_formed. simpl.
  split; [reflexivity|].
  split; [exists (Fin 50); split; [reflexivity | apply f50_in_range]|].
  split; [exists v; split; [reflexivity | exact Hv]|].
  split; [exists t; split; [reflexivity | exact Ht]|].
  split; [eexists; reflexivity|]. split; [eexists; reflexivity | reflexivity].
Qed.

(** X6: unless it is served from the cache, the result of [verify_claim]
    is a dictionary whose text is the claim, whose score lies between 0
    and 100, whose verdict is one of true, false, partial, neutral and
    error, whose explanation is not empty, and which has its lists of
    sources and evidence: on the validation exit, on the miss path
    whatever the judges answer, and at the boundary. *)
Theorem computed_result_well_formed (E : env) (claim : string)
  (context : option string) (w : world) :
  exists r w',
    verify_claim E claim context w = (Ok r, w')
    /\ ((too_short claim = false
         /\ fst (cache_lookup E (cache_key claim context) w) = Ok (Some r))
        \/ well_formed claim r).
Proof.
  rewrite boundary.
  destruct (verify_claim_body E claim context w) as [[r|e] w'] eqn:Hbody.
  2:{ eexists _, _. split; [reflexivity|]. right.
      apply placeholder_well_formed; [simpl; tauto | discriminate]. }
  exists r, w'. split; [reflexivity|].
  destruct (too_short claim) eqn:Hlen.
  { right. unfold verify_claim_body in Hbody. rewrite Hlen in Hbody.
    injection Hbody as <- _.
    apply placeholder_well_formed; [simpl; tauto | discriminate]. }
  destruct (cache_lookup E (cache_key claim context) w) as [o w1] eqn:Hc.
  destruct o as [[v|]|e].
  - left. split; [reflexivity|].
    unfold verify_claim_body in Hbody. rewrite Hlen in Hbody.
    unfold bind at 1 in Hbody. rewrite Hc in Hbody.
    injection Hbody as <- _. reflexivity.
  - right.
    destruct (miss_result E claim context w w1 w' r Hlen Hc Hbody)
      as (ev & w2 & p & w3 & s & w4 & _ & Hp & _ & ->).
    destruct (primary_step_sound _ _ _ _ _ _ Hp) as (Hs & Hv & He).
    unfold well_formed. simpl.
    split; [reflexivity|].
    split; [exists (score p); split; [reflexivity | exact Hs]|].
    split.
    { exists (verdict p). split; [reflexivity|].
      simpl in Hv. simpl. tauto. }
    split; [exists (explanation p); split; [reflexivity | exact He]|].
    split; [eexists; reflexivity|]. split; [eexists; reflexivity | reflexivity].
  - unfold verify_claim_body in Hbody. rewrite Hlen in Hbody.
    unfold bind at 1 in Hbody. rewrite Hc in Hbody. discriminate Hbody.
Qed.

(** ** The secondary scorers *)

Lemma clamp_int_bounds (n : Z) : 0 <= PyNum.clamp_int n <= 100.
Proof. unfold PyNum.clamp_int. lia. Qed.

Lemma get_gpt_score_sound_aux (E : env) (claim expl : string) (w w' : world)
  (o : outcome gpt_outcome) :
  get_gpt_score E claim expl w = (o, w') ->
  exists g,
    o = Ok g
    /\ (forall n, gpt_score g = Some n -> 0 <= n <= 100).
Proof.
  intros Hrun. unfold get_gpt_score in Hrun.
  unfold try_except, try_except_in, bind, external, lift, ret in Hrun.
  cbv zeta in Hrun.
  repeat case_match; simplify_eq;
    try (eexists; split; [reflexivity|]; intros n Hn; discriminate Hn).
  eexists. split; [reflexivity|].
  intros n Hn. simpl in Hn. injection Hn as <-. apply clamp_int_bounds.
Qed.

(** X7: [get_gpt_score] never raises.  Its score is absent or an integer
    between 0 and 100, and when it is absent the explanation is a text.
    Without a key it makes no call and reports that the key is not set;
    otherwise it makes exactly one chat call, and a call that raises is
    reported with its message. *)
Theorem get_gpt_score_sound (E : env) (claim expl : string) (w : world) :
  exists g w',
    get_gpt_score E claim expl w = (Ok g, w')
    /\ (forall n, gpt_score g = Some n -> 0 <= n <= 100)
    /\ (gpt_score g = None -> exists t, gpt_explanation g = JStr t)
    /\ continues w w'
         (if key_set (OPENAI_API_KEY E)
          then [ChatCompletion gpt_system (gpt_prompt claim expl)] else [])
    /\ (key_set (OPENAI_API_KEY E) = false ->
        g = Gpt None (JStr "OpenAI API key not set"))
    /\ (forall e,
          key_set (OPENAI_API_KEY E) = true ->
          chat_completion E w gpt_system (gpt_prompt claim expl) = Raise e ->
          g = Gpt None (JStr ("Error calling GPT API: " ++ exn_str e))).
Proof.
  destruct (get_gpt_score E claim expl w) as [o w'] eqn:Hrun.
  pose proof (gpt_calls _ _ _ _ _ _ Hrun) as Hcalls.
  unfold get_gpt_score in Hrun.
  destruct (key_set (OPENAI_API_KEY E)) eqn:Hkey; simpl in Hrun.
  - unfold try_except, try_except_in, bind, external, lift, ret in Hrun.
    cbv zeta in Hrun.
    destruct (chat_completion E w gpt_system (gpt_prompt claim expl))
      as [content|e0] eqn:Hchat.
    + assert (Hgoal : exists g,
                o = Ok g
                /\ (forall n, gpt_score g = Some n -> 0 <= n <= 100)
                /\ (gpt_score g = None -> exists t, gpt_explanation g = JStr t)).
      { repeat case_match; simplify_eq;
          try (eexists; split; [reflexivity|]; split;
               [intros n Hn; discriminate Hn | intros _; eexists; reflexivity]).
        eexists. split; [reflexivity|]. split.
        - intros n Hn. simpl in Hn. injection Hn as <-. apply clamp_int_bounds.
        - intros Hn. discriminate Hn. }
      destruct Hgoal as (g & -> & Hb & Ht).
      exists g, w'. split; [reflexivity|].
      split; [exact Hb|]. split; [exact Ht|]. split; [exact Hcalls|].
      split; [discriminate|]. intros e _ He. discriminate He.
    + injection Hrun as <- <-.
      eexists _, _. split; [reflexivity|].
      split; [intros n Hn; discriminate Hn|].
      split; [intros _; eexists; reflexivity|]. split; [exact Hcalls|].
      split; [discriminate|]. intros e _ He. injection He as <-. reflexivity.
  - injection Hrun as <- <-.
    eexists _, _. split; [reflexivity|].
    split; [intros n Hn; discriminate Hn|].
    split; [intros _; eexists; reflexivity|]. split; [exact Hcalls|].
    split; [reflexivity|]. intros e He. discriminate He.
Qed.

Lemma chatgpt_calls (E : env) (claim expl : string) (w w' : world)
  (o : outcome chatgpt_outcome) :
  compare_with_chatgpt E claim expl w = (o, w') ->
  continues w w'
    (if key_set (OPENAI_API_KEY E)
     then [ChatCompletion chatgpt_system (chatgpt_prompt claim expl)] else []).
Proof.
  intros H. unfold compare_with_chatgpt in H.
  destruct (key_set (OPENAI_API_KEY E)); simpl in H.
  - unfold try_except, bind, external, lift, ret in H. cbv zeta in H.
    repeat case_match; simplify_eq; apply continues_logged.
  - injection H as _ <-. apply continues_nil.
Qed.

(** X8: [compare_with_chatgpt] never raises and always reports an integer
    score between 0 and 100: the clamped score of the reply, or 50 when
    the key is not set (no call is made then) or when anything fails, the
    failure being named in the explanation. *)
Theorem compare_with_chatgpt_sound (E : env) (claim expl : string)
  (w : world) :
  exists c w',
    compare_with_chatgpt E claim expl w = (Ok c, w')
    /\ 0 <= chatgpt_score c <= 100
    /\ continues w w'
         (if key_set (OPENAI_API_KEY E)
          then [ChatCompletion chatgpt_system (chatgpt_prompt claim expl)]
          else [])
    /\ (key_set (OPENAI_API_KEY E) = false ->
        c = Chatgpt 50 (JStr "OpenAI API key not available for scoring"))
    /\ (forall e,
          key_set (OPENAI_API_KEY E) = true ->
          chat_completion E w chatgpt_system (chatgpt_prompt claim expl)
          = Raise e ->
          c = Chatgpt 50 (JStr ("Error comparing with ChatGPT: " ++ exn_str e)))
    /\ (forall content e,
          key_set (OPENAI_API_KEY E) = true ->
          chat_completion E w chatgpt_system (chatgpt_prompt claim expl)
          = Ok content ->
          json_loads E content = Raise e ->
          c = Chatgpt 50 (JStr ("Error comparing with ChatGPT: " ++ exn_str e))).
Proof.
  destruct (compare_with_chatgpt E claim expl w) as [o w'] eqn:Hrun.
  pose proof (chatgpt_calls _ _ _ _ _ _ Hrun) as Hcalls.
  unfold compare_with_chatgpt in Hrun.
  destruct (key_set (OPENAI_API_KEY E)) eqn:Hkey; simpl in Hrun.
  - unfold try_except, bind, external, lift, ret in Hrun. cbv zeta in Hrun.
    destruct (chat_completion E w chatgpt_system (chatgpt_prompt claim expl))
      as [content|e0] eqn:Hchat.
    + destruct (json_loads E content) as [result|e1] eqn:Hload.
      * assert (Hgoal : exists c, o = Ok c /\ 0 <= chatgpt_score c <= 100).
        { repeat case_match; simplify_eq;
            eexists; (split; [reflexivity|]); simpl;
            first [apply clamp_int_bounds | lia]. }
        destruct Hgoal as (c & -> & Hb).
        exists c, w'. split; [reflexivity|]. split; [exact Hb|].
        split; [exact Hcalls|]. split; [discriminate|].
        split; [intros e _ He; discriminate He|].
        intros content' e _ Hc He. injection Hc as <-. congruence.
      * injection Hrun as <- <-.
        eexists _, _. split; [reflexivity|]. split; [simpl; lia|].
        split; [exact Hcalls|]. split; [discriminate|].
        split; [intros e _ He; discriminate He|].
        intros content' e _ Hc He. injection Hc as <-.
        rewrite Hload in He. injection He as <-. reflexivity.
    + injection Hrun as <- <-.
      eexists _, _. split; [reflexivity|]. split; [simpl; lia|].
      split; [exact Hcalls|]. split; [discriminate|].
      split; [intros e _ He; injection He as <-; reflexivity|].
      intros content' e _ Hc. discriminate Hc.
  - injection Hrun as <- <-.
    eexists _, _. split; [reflexivity|]. split; [simpl; lia|].
    split; [exact Hcalls|]. split; [reflexivity|].
    split; [intros e He; discriminate He|].
    intros content' e He. discriminate He.
Qed.

(** X9: whatever goes wrong in the secondary judge, the result does not
    say what.  The secondary step yields either a score that is a whole
    number between 0 and 100, or no score together with one fixed text,
    the message of the failed conversion of the absent score: the texts
    [get_gpt_score] wrote for a missing key, a failed call or an
    unreadable reply never reach the result. *)
Theorem secondary_failure_masked (E : env) (claim expl : string) (w : world) :
  exists s w',
    secondary_step E claim expl w = (Ok s, w')
    /\ ((exists n, fst s = Some (Fin (inject_Z n)) /\ 0 <= n <= 100)
        \/ (fst s = None /\ snd s = secondary_lost))
    /\ forall claim' p ev,
         Json.field "gpt_score" (final_result claim' p ev s) = Some JNull ->
         Json.field "gpt_explanation" (final_result claim' p ev s)
         = Some (JStr "Error in GPT secondary check: float() argument must be a string or a real number, not 'NoneType'").
Proof.
  assert (Hmain : exists s w',
    secondary_step E claim expl w = (Ok s, w')
    /\ ((exists n, fst s = Some (Fin (inject_Z n)) /\ 0 <= n <= 100)
        \/ (fst s = None /\ snd s = secondary_lost))).
  { unfold secondary_step, try_except, bind, ret, lift.
    destruct (get_gpt_score E claim expl w) as [o w'] eqn:Hrun.
    destruct (get_gpt_score_sound_aux E claim expl w w' o Hrun)
      as (g & -> & Hb).
    destruct (gpt_score g) as [n|] eqn:Hn; simpl.
    - eexists _, _. split; [reflexivity|]. left.
      exists n. split; [reflexivity | apply Hb; reflexivity].
    - eexists _, _. split; [reflexivity|]. right. split; reflexivity. }
  destruct Hmain as (s & w' & Hrun & Hcases).
  exists s, w'. split; [exact Hrun|]. split; [exact Hcases|].
  intros claim' p ev. simpl.
  destruct Hcases as [(n & Hn & _)|[Hn Hs]].
  - rewrite Hn. discriminate.
  - intros _. rewrite Hs. reflexivity.
Qed.

(** ** The evidence gatherer, again *)

(** X10: the gatherer never raises and makes at most one call, the search
    for the claim.  It returns no evidence and makes no call without a
    Serper key, and returns no evidence when the call raises, when the
    status is not 200, and when the body is not JSON. *)
Theorem gatherer_degrades (E : env) (claim : string) (w : world) :
  exists ev w' l,
    _search_for_evidence E claim w = (Ok ev, w')
    /\ continues w w' l
    /\ at_most (SearchPost ("fact check " ++ claim)) l
    /\ (key_set (SERPER_API_KEY E) = false -> ev = [] /\ l = [])
    /\ (forall e,
          key_set (SERPER_API_KEY E) = true ->
          search_post E w ("fact check " ++ claim) = Raise e -> ev = [])
    /\ (forall resp,
          key_set (SERPER_API_KEY E) = true ->
          search_post E w ("fact check " ++ claim) = Ok resp ->
          status_code resp <> 200 -> ev = [])
    /\ (forall resp e,
          key_set (SERPER_API_KEY E) = true ->
          search_post E w ("fact check " ++ claim) = Ok resp ->
          json_body resp = Raise e -> ev = []).
Proof.
  destruct (_search_for_evidence E claim w) as [o w'] eqn:Hrun.
  destruct (search_calls _ _ _ _ _ Hrun) as (l & Hl & Hat).
  unfold _search_for_evidence in Hrun.
  destruct (key_set (SERPER_API_KEY E)) eqn:Hkey; simpl in Hrun.
  - unfold try_except, bind, external, lift, ret in Hrun.
    destruct (search_post E w ("fact check " ++ claim)) as [resp|e0] eqn:Hpost.
    + destruct (status_code resp =? 200) eqn:Hst.
      * destruct (json_body resp) as [results|e1] eqn:Hjson.
        -- destruct (extract_evidence results) as [ev|e2];
             injection Hrun as <- <-;
             (eexists _, _, l; split; [reflexivity|]; split; [exact Hl|];
              split; [exact Hat|]; split; [discriminate|];
              split; [intros e _ He; discriminate He|];
              split; [intros resp' _ Hr Hs; injection Hr as <-;
                      apply Z.eqb_eq in Hst; contradiction|];
              intros resp' e _ Hr He; injection Hr as <-; congruence).
        -- injection Hrun as <- <-.
           eexists _, _, l. split; [reflexivity|]. split; [exact Hl|].
           split; [exact Hat|]. split; [discriminate|]. repeat split.
      * injection Hrun as <- <-.
        eexists _, _, l. split; [reflexivity|]. split; [exact Hl|].
        split; [exact Hat|]. split; [discriminate|]. repeat split.
    + injection Hrun as <- <-.
      eexists _, _, l. split; [reflexivity|]. split; [exact Hl|].
      split; [exact Hat|]. split; [discriminate|]. repeat split.
  - injection Hrun as <- <-.
    exists [], w, []. split; [reflexivity|]. split; [apply continues_nil|].
    split; [left; reflexivity|]. split; [split; reflexivity|].
    split; [intros e He; discriminate He|].
    split; [intros resp He; discriminate He | intros resp e He; discriminate He].
Qed.

Lemma rstrip_idempotent (s : string) : PyStr.rstrip (PyStr.rstrip s) = PyStr.rstrip s.
Proof.
  induction s as [|c r IH]; simpl; [reflexivity|].
  destruct (PyStr.rstrip r) as [|c' r'] eqn:Hr.
  - destruct (PyStr.is_space c) eqn:Hc; simpl; [reflexivity|].
    rewrite Hc. reflexivity.
  - simpl. simpl in IH. rewrite IH. reflexivity.
Qed.

Lemma lstrip_head (s : string) :
  PyStr.lstrip s = EmptyString
  \/ exists c r, PyStr.lstrip s = String c r /\ PyStr.is_space c = false.
Proof.
  induction s as [|c r IH]; simpl; [left; reflexivity|].
  destruct (PyStr.is_space c) eqn:Hc; [exact IH|].
  right. exists c, r. split; [reflexivity | exact Hc].
Qed.

Lemma rstrip_head (c : ascii) (r : string) :
  PyStr.is_space c = false ->
  exists r', PyStr.rstrip (String c r) = String c r'.
Proof.
  intros Hc. simpl. destruct (PyStr.rstrip r).
  - rewrite Hc. eexists. reflexivity.
  - eexists. reflexivity.
Qed.

Lemma strip_idempotent (s : string) : PyStr.strip (PyStr.strip s) = PyStr.strip s.
Proof.
  unfold PyStr.strip.
  destruct (lstrip_head s) as [->|(c & r & -> & Hc)]; [reflexivity|].
  destruct (rstrip_head c r Hc) as [r' Hr]. rewrite Hr.
  simpl PyStr.lstrip. rewrite Hc. rewrite <- Hr. apply rstrip_idempotent.
Qed.

Lemma get_stripped_trimmed (k : string) (d : list (string * json))
  (t : string) :
  get_stripped k d = Ok t -> PyStr.strip t = t.
Proof.
  unfold get_stripped. destruct (Json.lookup k d) as [[]|]; try discriminate;
    intros H; injection H as <-; apply strip_idempotent.
Qed.

Lemma organic_loop_tidy (results : list json) :
  forall (seen_urls : list json) (acc ev : list evidence_item),
    Forall tidy acc ->
    organic_loop results seen_urls acc = Ok ev ->
    Forall tidy ev.
Proof.
  induction results as [|result rest IH]; intros seen_urls acc ev Hacc Hrun.
  - simpl in Hrun. injection Hrun as <-. exact Hacc.
  - destruct result as [| | | | |l|d]; try discriminate Hrun.
    simpl in Hrun.
    destruct (Json.truthy _); [|eapply IH; eassumption].
    destruct (Json.hashable _); [|discriminate].
    destruct (seen _ seen_urls); [eapply IH; eassumption|].
    destruct (get_stripped "title" d) as [t|] eqn:Ht; [|discriminate].
    destruct (get_stripped "snippet" d) as [s|] eqn:Hs; [|discriminate].
    simpl in Hrun. eapply IH; [|exact Hrun].
    apply Forall_app. split; [exact Hacc|].
    constructor; [|constructor].
    split; [exact (get_stripped_trimmed _ _ _ Ht)|].
    split; [exact (get_stripped_trimmed _ _ _ Hs) | reflexivity].
Qed.

(** X11: every evidence item the gatherer returns has a trimmed title and
    a trimmed snippet (trimming them again changes nothing) and carries
    the source tag web_search. *)
Theorem evidence_tidy (E : env) (claim : string) (w : world) :
  exists ev w',
    _search_for_evidence E claim w = (Ok ev, w') /\ Forall tidy ev.
Proof.
  destruct (search_total E claim w) as (ev & w' & H).
  exists ev, w'. split; [exact H|].
  unfold _search_for_evidence, try_except, bind, external, lift, ret in H.
  destruct (negb _); [injection H as <- _; constructor|].
  destruct (search_post E w _) as [resp|]; [|injection H as <- _; constructor].
  destruct (status_code resp =? 200); [|injection H as <- _; constructor].
  destruct (json_body resp) as [results|]; [|injection H as <- _; constructor].
  destruct (extract_evidence results) as [ev'|] eqn:Hx;
    [|injection H as <- _; constructor].
  injection H as <- _.
  unfold extract_evidence in Hx. destruct results; try discriminate.
  destruct (iterate _) as [items|]; [|discriminate]. simpl in Hx.
  eapply organic_loop_tidy; [constructor | exact Hx].
Qed.

Lemma organic_loop_malformed (results : list json) (r : json) :
  In r results -> is_dict r = false ->
  forall seen_urls acc, exists e, organic_loop results seen_urls acc = Raise e.
Proof.
  induction results as [|result rest IH]; intros Hin Hr seen_urls acc;
    [contradiction|].
  destruct Hin as [->|Hin].
  - destruct r; try discriminate Hr; simpl; eexists; reflexivity.
  - destruct result as [| | | | |l|d]; try (simpl; eexists; reflexivity).
    simpl.
    destruct (Json.truthy _); [|apply (IH Hin Hr)].
    destruct (Json.hashable _); [|eexists; reflexivity].
    destruct (seen _ seen_urls); [apply (IH Hin Hr)|].
    destruct (get_stripped "title" d); [|eexists; reflexivity].
    destruct (get_stripped "snippet" d); [|eexists; reflexivity].
    simpl. apply (IH Hin Hr).
Qed.

(** X12: the gatherer keeps all or nothing.  If one entry of the organic
    list is not an object, no evidence at all is returned, not even the
    items gathered from the well-formed results before it. *)
Theorem malformed_result_discards_all (E : env) (claim : string) (w : world)
  (resp : http_response) (d : list (string * json)) (results : list json)
  (r : json) :
  key_set (SERPER_API_KEY E) = true ->
  search_post E w ("fact check " ++ claim) = Ok resp ->
  status_code resp = 200 ->
  json_body resp = Ok (JDict d) ->
  Json.lookup "organic" d = Some (JList results) ->
  In r results ->
  is_dict r = false ->
  fst (_search_for_evidence E claim w) = Ok [].
Proof.
  intros Hkey Hpost Hstatus Hjson Horg Hin Hr.
  unfold _search_for_evidence, try_except, bind, external, lift, ret.
  cbv zeta. rewrite Hkey. cbn [negb]. cbv beta.
  rewrite Hpost, Hstatus. change (200 =? 200) with true. cbv beta iota.
  rewrite Hjson. unfold extract_evidence. rewrite Horg. cbn [iterate obind].
  destruct (organic_loop_malformed results r Hin Hr [] []) as [e He].
  rewrite He. reflexivity.
Qed.

Lemma malformed_result_discards_all_witness :
  key_set (SERPER_API_KEY Sample3.broken) = true
  /\ search_post Sample3.broken Sample.start ("fact check " ++ Sample.claim)
     = Ok Sample3.broken_response
  /\ status_code Sample3.broken_response = 200
  /\ json_body Sample3.broken_response
     = Ok (JDict [("organic", JList Sample3.broken_results)])
  /\ Json.lookup "organic" [("organic", JList Sample3.broken_results)]
     = Some (JList Sample3.broken_results)
  /\ In (JStr "advertisement") Sample3.broken_results
  /\ is_dict (JStr "advertisement") = false
  /\ fst (_search_for_evidence Sample3.broken Sample.claim Sample.start) = Ok [].
Proof.
  assert (H6 : In (JStr "advertisement") Sample3.broken_results)
    by (right; left; reflexivity).
  repeat (split; [first [reflexivity | exact H6]|]).
  apply (malformed_result_discards_all Sample3.broken Sample.claim Sample.start
           Sample3.broken_response
           [("organic", JList Sample3.broken_results)]
           Sample3.broken_results (JStr "advertisement"));
    first [reflexivity | exact H6].
Defined.

(** ** The primary judge, again *)

Lemma numbered_shown (l1 : list evidence_item) :
  forall (l2 : list evidence_item) (i : nat),
    map shown l1 = map shown l2 ->
    map (fun ie : nat * evidence_item =>
           "Source " ++ PyStr.of_nat (fst ie + 1) ++ ": "
           ++ title (snd ie) ++ nl ++ snippet (snd ie))
      (enumerate i l1)
    = map (fun ie : nat * evidence_item =>
             "Source " ++ PyStr.of_nat (fst ie + 1) ++ ": "
             ++ title (snd ie) ++ nl ++ snippet (snd ie))
        (enumerate i l2).
Proof.
  induction l1 as [|a l1 IH]; intros [|b l2] i H; try discriminate H;
    [reflexivity|].
  simpl in H. injection H as Ht Hs Hrest.
  cbn [enumerate map fst snd]. rewrite Ht, Hs. f_equal. apply IH, Hrest.
Qed.

Lemma llm_prompt_shown (claim : string) (ev1 ev2 : list evidence_item) :
  map shown (firstn 5 ev1) = map shown (firstn 5 ev2) ->
  llm_prompt claim ev1 = llm_prompt claim ev2.
Proof.
  intros H. unfold llm_prompt, evidence_text.
  rewrite (numbered_shown _ _ 0 H). reflexivity.
Qed.

(** X13: the primary judge is shown the titles and snippets of the first
    five evidence items and nothing else: two evidence lists that agree on
    those give the same prompt, hence the same call and the same outcome,
    whatever their links and whatever follows the fifth item. *)
Theorem judge_sees_first_five (E : env) (claim : string)
  (ev1 ev2 : list evidence_item) (w : world) :
  map shown (firstn 5 ev1) = map shown (firstn 5 ev2) ->
  llm_prompt claim ev1 = llm_prompt claim ev2
  /\ _verify_with_llm E claim ev1 w = _verify_with_llm E claim ev2 w
  /\ primary_step E claim ev1 w = primary_step E claim ev2 w.
Proof.
  intros H. pose proof (llm_prompt_shown claim ev1 ev2 H) as Hp.
  assert (Hv : _verify_with_llm E claim ev1 w = _verify_with_llm E claim ev2 w).
  { unfold _verify_with_llm. cbv zeta. rewrite Hp. reflexivity. }
  split; [exact Hp|]. split; [exact Hv|].
  unfold primary_step, try_except, bind. rewrite Hv. reflexivity.
Qed.

Lemma judge_sees_first_five_witness :
  map shown (firstn 5 Sample3.seven) = map shown (firstn 5 Sample3.five_and_one)
  /\ Sample3.seven <> Sample3.five_and_one
  /\ llm_prompt Sample.claim Sample3.seven
     = llm_prompt Sample.claim Sample3.five_and_one.
Proof.
  assert (H : map shown (firstn 5 Sample3.seven)
              = map shown (firstn 5 Sample3.five_and_one))
    by (vm_compute; reflexivity).
  split; [exact H|]. split; [vm_compute; discriminate|].
  apply (judge_sees_first_five Sample.steady Sample.claim Sample3.seven
           Sample3.five_and_one Sample.start H).
Defined.

Lemma parse_line_explanation (st : judge_outcome) (line : string) :
  PyStr.startswith "EXPLANATION:" line = false ->
  explanation (parse_line st line) = explanation st.
Proof.
  intros H. unfold parse_line. rewrite H.
  destruct (PyStr.startswith "SCORE:" line).
  - destruct (PyNum.float_of_string _); reflexivity.
  - destruct (PyStr.startswith "VERDICT:" line); [|reflexivity].
    destruct (existsb _ _); reflexivity.
Qed.

Lemma fold_parse_keeps_explanation (lines : list string) (st : judge_outcome) :
  Forall (fun l => PyStr.startswith "EXPLANATION:" l = false) lines ->
  explanation (fold_left parse_line lines st) = explanation st.
Proof.
  intros H. revert st.
  induction H as [|l lines Hl _ IH]; intros st; simpl; [reflexivity|].
  rewrite IH. apply parse_line_explanation, Hl.
Qed.

Lemma parse_explanation_line (st : judge_outcome) (rest : string) :
  parse_line st ("EXPLANATION:" ++ rest)
  = Judged (score st) (verdict st) (PyStr.strip rest).
Proof.
  unfold parse_line, PyStr.startswith. simpl.
  change (EmptyString ++ rest) with rest. destruct rest; reflexivity.
Qed.

(** X14: when the last line of the reply that starts with EXPLANATION:
    has a remainder that is not blank, the explanation is that whole
    remainder, trimmed, with any further colons kept. *)
Theorem explanation_keeps_colons (text rest : string)
  (pre post : list string) :
  PyStr.split (ascii_of_N 10) text
  = (pre ++ ("EXPLANATION:" ++ rest)%string :: post)%list ->
  Forall (fun l => PyStr.startswith "EXPLANATION:" l = false) post ->
  PyStr.strip rest <> EmptyString ->
  explanation (parse_response text) = PyStr.strip rest.
Proof.
  intros Hsplit Hpost Hne. unfold parse_response. rewrite Hsplit.
  cbn [explanation].
  assert (Hfold : explanation
                    (fold_left parse_line
                       (pre ++ ("EXPLANATION:" ++ rest)%string :: post)%list
                       (Judged PyNum.f50 "neutral" EmptyString))
                  = PyStr.strip rest).
  { rewrite fold_left_app. simpl fold_left.
    rewrite (fold_parse_keeps_explanation post _ Hpost).
    rewrite parse_explanation_line. reflexivity. }
  rewrite Hfold.
  apply String.eqb_neq in Hne. rewrite Hne. simpl. rewrite Hne. reflexivity.
Qed.

(** In the sample reply the explanation keeps its colons, whereas the
    score and the verdict end at the second colon of their lines. *)
Lemma explanation_keeps_colons_witness :
  PyStr.split (ascii_of_N 10) Sample3.reply_with_colons
  = (["SCORE: 85:00"; "VERDICT: true: mostly"]
     ++ ("EXPLANATION:" ++ "  Note: the wall is long: 21,196 km. ")%string :: [])%list
  /\ Forall (fun l => PyStr.startswith "EXPLANATION:" l = false) []
  /\ PyStr.strip "  Note: the wall is long: 21,196 km. " <> EmptyString
  /\ explanation (parse_response Sample3.reply_with_colons)
     = "Note: the wall is long: 21,196 km."
  /\ score (parse_response Sample3.reply_with_colons) = Fin 85
  /\ verdict (parse_response Sample3.reply_with_colons) = "true".
Proof.
  assert (H1 : PyStr.split (ascii_of_N 10) Sample3.reply_with_colons
               = (["SCORE: 85:00"; "VERDICT: true: mostly"]
                  ++ ("EXPLANATION:" ++ "  Note: the wall is long: 21,196 km. ")%string
                       :: [])%list) by (vm_compute; reflexivity).
  assert (H2 : Forall (fun l => PyStr.startswith "EXPLANATION:" l = false)
                 (@nil string)) by constructor.
  assert (H3 : PyStr.strip "  Note: the wall is long: 21,196 km. " <> EmptyString)
    by (vm_compute; discriminate).
  split; [exact H1|]. split; [exact H2|]. split; [exact H3|].
  split; [|split; vm_compute; reflexivity].
  rewrite (explanation_keeps_colons Sample3.reply_with_colons
             "  Note: the wall is long: 21,196 km. "
             ["SCORE: 85:00"; "VERDICT: true: mostly"] [] H1 H2 H3).
  vm_compute. reflexivity.
Defined.

(** ** The synchronous wrapper *)

(** X15: [fact_checker] verifies nothing: for every claim it returns the
    seven-field dictionary with score 50.0 and verdict neutral.  Its limit
    is 10 trimmed characters where [verify_claim] has 3: on every claim
    that [verify_claim] rejects the two return the same dictionary, and a
    claim of 3 to 9 trimmed characters is too short for the wrapper only. *)
Theorem fact_checker_neutral :
  (forall claim,
     Json.keys (fact_checker claim) = seven_fields
     /\ Json.field "text" (fact_checker claim) = Some (JStr claim)
     /\ Json.field "score" (fact_checker claim) = Some (JFloat (Fin 50))
     /\ Json.field "verdict" (fact_checker claim) = Some (JStr "neutral")
     /\ Json.field "evidence" (fact_checker claim) = Some (JList []))
  /\ (forall E claim context w,
        too_short claim = true ->
        verify_claim E claim context w = (Ok (fact_checker claim), w))
  /\ (forall claim,
        (3 <= String.length (PyStr.strip claim) < 10)%nat ->
        too_short claim = false /\ fact_checker claim = rejected claim).
Proof.
  split; [|split].
  - intros claim. unfold fact_checker.
    destruct (_ || _); repeat split.
  - intros E claim context w Hs.
    rewrite (verify_claim_too_short E claim context w Hs).
    unfold fact_checker. unfold too_short in Hs.
    apply orb_true_iff in Hs as [Hs|Hs].
    + rewrite Hs. reflexivity.
    + apply Nat.ltb_lt in Hs.
      assert (H10 : (String.length (PyStr.strip claim) <? 10)%nat = true)
        by (apply Nat.ltb_lt; lia).
      rewrite H10, orb_true_r. reflexivity.
  - intros claim [Hlo Hhi]. split.
    + unfold too_short. apply orb_false_iff. split.
      * destruct claim; [simpl in Hlo; lia | reflexivity].
      * apply Nat.ltb_ge. exact Hlo.
    + unfold fact_checker.
      assert (H10 : (String.length (PyStr.strip claim) <? 10)%nat = true)
        by (apply Nat.ltb_lt; exact Hhi).
      rewrite H10, orb_true_r. reflexivity.
Qed.

(** * The endpoint [/api/verify_claim] *)

Lemma lookup_set_same (k : string) (v : json) (d : list (string * json)) :
  Json.lookup k (App.set k v d) = Some v.
Proof.
  induction d as [|[k' v'] d IH]; simpl.
  - rewrite String.eqb_refl. reflexivity.
  - destruct (String.eqb k k') eqn:H; simpl.
    + rewrite String.eqb_refl. reflexivity.
    + rewrite H. exact IH.
Qed.

Lemma lookup_set_other (k k' : string) (v : json) (d : list (string * json)) :
  String.eqb k' k = false ->
  Json.lookup k' (App.set k v d) = Json.lookup k' d.
Proof.
  intros Hne. induction d as [|[k0 v0] d IH]; simpl.
  - rewrite Hne. reflexivity.
  - destruct (String.eqb k k0) eqn:H; simpl.
    + apply String.eqb_eq in H. subst k0. rewrite Hne. reflexivity.
    + rewrite IH. reflexivity.
Qed.

Lemma get_set_same (k : string) (v : json) (d : list (string * json)) :
  App.get k (App.set k v d) = v.
Proof. unfold App.get. rewrite lookup_set_same. reflexivity. Qed.

Lemma get_set_other (k k' : string) (v : json) (d : list (string * json)) :
  String.eqb k' k = false -> App.get k' (App.set k v d) = App.get k' d.
Proof. intros H. unfold App.get. rewrite (lookup_set_other _ _ _ _ H). reflexivity. Qed.

(** The five fields of a normalised result, from those of the result. *)
Lemma normalise_fields (claim : string) (d : list (string * json)) :
  let d' := App.normalise claim d in
  App.get "text" d' = JStr claim
  /\ App.get "explanation" d'
     = (if Json.truthy (App.get "explanation" d) then App.get "explanation" d
        else JStr "Analysis not available")
  /\ App.get "score" d'
     = (if Json.truthy (App.get "score" d) then App.get "score" d else JInt 50)
  /\ App.get "verdict" d'
     = (if Json.truthy (App.get "verdict" d) then App.get "verdict" d
        else JStr "neutral")
  /\ App.get "sources" d'
     = (if App.lacks_sources (App.get "sources" d)
        then JList (App.default_sources claim (App.get "verdict" d'))
        else App.get "sources" d).
Proof.
  cbv zeta. unfold App.normalise.
  set (d1 := if Json.truthy (App.get "explanation" d) then d
             else App.set "explanation" (JStr "Analysis not available") d).
  set (d2 := if Json.truthy (App.get "score" d1) then d1
             else App.set "score" (JInt 50) d1).
  set (d3 := if Json.truthy (App.get "verdict" d2) then d2
             else App.set "verdict" (JStr "neutral") d2).
  set (d4 := App.set "text" (JStr claim) d3).
  assert (E1 : App.get "explanation" d1
               = if Json.truthy (App.get "explanation" d)
                 then App.get "explanation" d
                 else JStr "Analysis not available").
  { subst d1. destruct (Json.truthy (App.get "explanation" d));
      [reflexivity | apply get_set_same]. }
  assert (O1 : forall k, String.eqb k "explanation" = false ->
                         App.get k d1 = App.get k d).
  { intros k Hk. subst d1. destruct (Json.truthy (App.get "explanation" d));
      [reflexivity | apply get_set_other, Hk]. }
  assert (E2 : App.get "score" d2
               = if Json.truthy (App.get "score" d) then App.get "score" d
                 else JInt 50).
  { subst d2. rewrite (O1 "score" eq_refl).
    destruct (Json.truthy (App.get "score" d)) eqn:H;
      [apply (O1 "score" eq_refl) | apply get_set_same]. }
  assert (O2 : forall k, String.eqb k "score" = false ->
                         App.get k d2 = App.get k d1).
  { intros k Hk. subst d2. destruct (Json.truthy (App.get "score" d1));
      [reflexivity | apply get_set_other, Hk]. }
  assert (E3 : App.get "verdict" d3
               = if Json.truthy (App.get "verdict" d) then App.get "verdict" d
                 else JStr "neutral").
  { subst d3. rewrite (O2 "verdict" eq_refl), (O1 "verdict" eq_refl).
    destruct (Json.truthy (App.get "verdict" d)) eqn:H;
      [rewrite (O2 "verdict" eq_refl); apply (O1 "verdict" eq_refl)
      | apply get_set_same]. }
  assert (O3 : forall k, String.eqb k "verdict" = false ->
                         App.get k d3 = App.get k d2).
  { intros k Hk. subst d3. destruct (Json.truthy (App.get "verdict" d2));
      [reflexivity | apply get_set_other, Hk]. }
  assert (O4 : forall k, String.eqb k "text" = false ->
                         App.get k d4 = App.get k d3).
  { intros k Hk. subst d4. apply get_set_other, Hk. }
  assert (S4 : App.get "sources" d4 = App.get "sources" d).
  { rewrite (O4 "sources" eq_refl), (O3 "sources" eq_refl),
      (O2 "sources" eq_refl). apply (O1 "sources" eq_refl). }
  assert (V4 : App.get "verdict" d4 = App.get "verdict" d3)
    by apply (O4 "verdict" eq_refl).
  rewrite S4.
  destruct (App.lacks_sources (App.get "sources" d)) eqn:Hl.
  - rewrite get_set_same.
    rewrite !(get_set_other "sources") by reflexivity.
    split; [apply get_set_same|].
    rewrite (O4 "explanation" eq_refl), (O3 "explanation" eq_refl),
      (O2 "explanation" eq_refl), E1.
    rewrite (O4 "score" eq_refl), (O3 "score" eq_refl), E2.
    rewrite V4, E3. repeat split.
  - split; [apply get_set_same|].
    rewrite (O4 "explanation" eq_refl), (O3 "explanation" eq_refl),
      (O2 "explanation" eq_refl), E1.
    rewrite (O4 "score" eq_refl), (O3 "score" eq_refl), E2.
    rewrite V4, E3, S4. repeat split.
Qed.

Lemma default_sources_cons (claim : string) (verdict : json) :
  exists source sources,
    App.default_sources claim verdict = source :: sources.
Proof.
  unfold App.default_sources.
  destruct (Json.py_eq verdict (JStr "true")); [eexists _, _; reflexivity|].
  destruct (Json.py_eq verdict (JStr "false")); eexists _, _; reflexivity.
Qed.

Lemma normalise_presentable (claim : string) (d : list (string * json)) :
  App.presentable claim (App.normalise claim d).
Proof.
  destruct (normalise_fields claim d) as (Ht & He & Hs & Hv & Hsrc).
  unfold App.presentable. split; [exact Ht|].
  split; [rewrite He; destruct (Json.truthy (App.get "explanation" d)) eqn:H;
          [exact H | reflexivity]|].
  split; [rewrite Hs; destruct (Json.truthy (App.get "score" d)) eqn:H;
          [exact H | reflexivity]|].
  split; [rewrite Hv; destruct (Json.truthy (App.get "verdict" d)) eqn:H;
          [exact H | reflexivity]|].
  rewrite Hsrc. destruct (App.lacks_sources (App.get "sources" d)) eqn:Hl.
  - destruct (default_sources_cons claim
                (App.get "verdict" (App.normalise claim d))) as (s & l & ->).
    eexists _, _. reflexivity.
  - unfold App.lacks_sources in Hl. apply orb_false_iff in Hl as [_ Hl].
    destruct (App.get "sources" d) as [| | | | |[|s l]|]; try discriminate Hl.
    eexists _, _. reflexivity.
Qed.

(** Unless it was served from the store, a result is well formed. *)
Lemma computed_shape (E : env) (claim : string) (context : option string)
  (w w' : world) (r : json) :
  hit (fst (cache_lookup E (cache_key claim context) w)) = false ->
  verify_claim E claim context w = (Ok r, w') ->
  well_formed claim r.
Proof.
  intros Hhit. rewrite boundary.
  destruct (verify_claim_body E claim context w) as [[r0|e] w0] eqn:Hbody;
    intros H; injection H as <- <-.
  2:{ apply placeholder_well_formed; [simpl; tauto | discriminate]. }
  destruct (too_short claim) eqn:Hlen.
  { unfold verify_claim_body in Hbody. rewrite Hlen in Hbody.
    injection Hbody as <- _.
    apply placeholder_well_formed; [simpl; tauto | discriminate]. }
  destruct (cache_lookup E (cache_key claim context) w) as [o w1] eqn:Hc.
  destruct o as [[v|]|e]; [discriminate Hhit| |].
  - destruct (miss_result E claim context w w1 w0 r0 Hlen Hc Hbody)
      as (ev & w2 & p & w3 & s & w4 & _ & Hp & _ & ->).
    destruct (primary_step_sound _ _ _ _ _ _ Hp) as (Hs & Hv & He).
    unfold well_formed. simpl.
    split; [reflexivity|].
    split; [exists (score p); split; [reflexivity | exact Hs]|].
    split.
    { exists (verdict p). split; [reflexivity|].
      simpl in Hv. simpl. tauto. }
    split; [exists (explanation p); split; [reflexivity | exact He]|].
    split; [eexists; reflexivity|]. split; [eexists; reflexivity | reflexivity].
  - unfold verify_claim_body in Hbody. rewrite Hlen in Hbody.
    unfold bind at 1 in Hbody. rewrite Hc in Hbody. discriminate Hbody.
Qed.

Lemma respond_status (status : Z) (content : json) (r : App.json_response) :
  App.respond status content = Ok r ->
  r = App.JSONResponse status content /\ App.compliant content = true.
Proof.
  unfold App.respond. destruct (App.compliant content); [|discriminate].
  intros H. injection H as <-. split; reflexivity.
Qed.

(** The run of the endpoint on a claim that is not blank. *)
Lemma stub_run (D : App.database) (E : env)
  (claim_data : list (string * json)) (claim : string) (w : world) :
  App.claim_of claim_data = Ok claim ->
  claim <> EmptyString ->
  App.verify_claim_stub_body D E claim_data w
  = match verify_claim E claim None w with
    | (Raise e, w') => (Raise e, None, w')
    | (Ok (JDict result), w') =>
        match App.save D E claim (App.normalise claim result) w' with
        | (saved, Some e) => (Raise e, saved, w')
        | (saved, None) =>
            (App.respond 200 (App.success (App.normalise claim result)),
             saved, w')
        end
    | (Ok result, w') => (Raise (no_attribute result "get"), None, w')
    end.
Proof.
  intros Hc Hne. unfold App.verify_claim_stub_body. rewrite Hc.
  destruct (String.eqb claim EmptyString) eqn:He.
  - apply String.eqb_eq in He. contradiction.
  - reflexivity.
Qed.

Lemma claim_of_blank (claim_data : list (string * json)) :
  App.claim_of claim_data = Ok EmptyString
  <-> (Json.lookup "claim" claim_data = None
       \/ exists s, Json.lookup "claim" claim_data = Some (JStr s)
                    /\ PyStr.strip s = EmptyString).
Proof.
  unfold App.claim_of.
  destruct (Json.lookup "claim" claim_data) as [v|].
  - destruct v; split;
      try (intros H; discriminate H);
      try (intros [H|(s0 & H & _)]; discriminate H).
    + intros H. injection H as H. right. eexists. split; [reflexivity | exact H].
    + intros [H|(s0 & H & Hs)]; [discriminate H|].
      injection H as <-. rewrite Hs. reflexivity.
  - split; [intros _; left; reflexivity | intros _; reflexivity].
Qed.

(** X16: the endpoint answers 400 exactly when the request has no claim
    or a claim that is blank once stripped; it then answers that no claim
    was provided, stores nothing and leaves the world as it was: the
    pipeline is not run. *)
Theorem blank_claim_refused (D : App.database) (E : env)
  (claim_data : list (string * json)) (w : world) :
  let x := App.verify_claim_stub D E claim_data w in
  (App.response_status (App.reply x) = 400
   <-> (Json.lookup "claim" claim_data = None
        \/ exists s, Json.lookup "claim" claim_data = Some (JStr s)
                     /\ PyStr.strip s = EmptyString))
  /\ (App.response_status (App.reply x) = 400 ->
      x = (App.JSONResponse 400 App.no_claim, None, w)).
Proof.
  cbv zeta. rewrite <- claim_of_blank.
  assert (Hblank : App.claim_of claim_data = Ok EmptyString ->
                   App.verify_claim_stub D E claim_data w
                   = (App.JSONResponse 400 App.no_claim, None, w)).
  { intros Hc. unfold App.verify_claim_stub, App.verify_claim_stub_body.
    rewrite Hc. reflexivity. }
  assert (Honly : App.response_status
                    (App.reply (App.verify_claim_stub D E claim_data w)) = 400 ->
                  App.claim_of claim_data = Ok EmptyString).
  { unfold App.verify_claim_stub, App.verify_claim_stub_body.
    destruct (App.claim_of claim_data) as [claim|e] eqn:Hc;
      [|intros H; discriminate H].
    destruct (String.eqb claim EmptyString) eqn:He.
    { apply String.eqb_eq in He. subst claim. reflexivity. }
    destruct (verify_claim E claim None w) as [[r|e] w'];
      [|intros H; discriminate H].
    destruct r; try (intros H; discriminate H).
    destruct (App.save D E claim _ w') as [saved [e|]];
      [intros H; discriminate H|].
    unfold App.respond. destruct (App.compliant _); intros H; discriminate H. }
  split; [split|].
  - exact Honly.
  - intros Hc. rewrite (Hblank Hc). reflexivity.
  - intros H. apply Hblank, Honly, H.
Qed.

(** X17: the endpoint answers 200, 400 or 500 and nothing else.  A 500
    carries the text of the exception.  A 200 carries a result that holds
    the stripped claim of the request as its text, an explanation, a score
    and a verdict that are not empty, and a list of at least one source;
    no number in it is a NaN or an infinity. *)
Theorem response_presentable (D : App.database) (E : env)
  (claim_data : list (string * json)) (w : world) :
  let r := App.reply (App.verify_claim_stub D E claim_data w) in
  (App.response_status r = 400 /\ App.content r = App.no_claim)
  \/ (App.response_status r = 500 /\ exists e, r = App.failure e)
  \/ (App.response_status r = 200
      /\ exists claim result,
           App.claim_of claim_data = Ok claim
           /\ claim <> EmptyString
           /\ App.content r = App.success result
           /\ App.presentable claim result
           /\ App.compliant (App.success result) = true).
Proof.
  cbv zeta. unfold App.verify_claim_stub, App.verify_claim_stub_body.
  destruct (App.claim_of claim_data) as [claim|e] eqn:Hc.
  2:{ right. left. split; [reflexivity | eexists; reflexivity]. }
  destruct (String.eqb claim EmptyString) eqn:He.
  { left. split; reflexivity. }
  destruct (verify_claim E claim None w) as [[r|e] w'].
  2:{ right. left. split; [reflexivity | eexists; reflexivity]. }
  destruct r as [| | | | | |d];
    try (right; left; split; [reflexivity | eexists; reflexivity]).
  destruct (App.save D E claim _ w') as [saved [e|]].
  { right. left. split; [reflexivity | eexists; reflexivity]. }
  unfold App.respond.
  destruct (App.compliant (App.success (App.normalise claim d))) eqn:Hok.
  - right. right. split; [reflexivity|].
    exists claim, (App.normalise claim d).
    split; [reflexivity|].
    split; [intros ->; discriminate He|].
    split; [reflexivity|].
    split; [apply normalise_presentable | exact Hok].
  - right. left. split; [reflexivity | eexists; reflexivity].
Qed.

(** What the endpoint leaves behind once the pipeline has returned a
    dictionary. *)
Lemma stub_parts (D : App.database) (E : env)
  (claim_data : list (string * json)) (claim : string) (w w' : world)
  (d : list (string * json)) :
  App.claim_of claim_data = Ok claim ->
  claim <> EmptyString ->
  verify_claim E claim None w = (Ok (JDict d), w') ->
  let x := App.verify_claim_stub D E claim_data w in
  let result := App.normalise claim d in
  App.stored x = fst (App.save D E claim result w')
  /\ App.world_after x = w'
  /\ App.reply x
     = match snd (App.save D E claim result w') with
       | Some e => App.failure e
       | None =>
           if App.compliant (App.success result)
           then App.JSONResponse 200 (App.success result)
           else App.failure
                  (Exn ValueError
                     "Out of range float values are not JSON compliant")
       end.
Proof.
  intros Hc Hne Hrun. cbv zeta. unfold App.verify_claim_stub.
  rewrite (stub_run D E claim_data claim w Hc Hne), Hrun.
  destruct (App.save D E claim (App.normalise claim d) w') as [saved [e|]].
  - repeat split.
  - unfold App.respond.
    destruct (App.compliant (App.success (App.normalise claim d)));
      repeat split.
Qed.

(** A row is committed only through a session that opened, and holds
    what lines 445-479 computed. *)
Lemma save_row (D : App.database) (E : env) (claim : string)
  (result : list (string * json)) (w : world) (row : App.fact_check_row) :
  fst (App.save D E claim result w) = Some row ->
  App.session_local D w = None
  /\ exists score sources,
       App.score_value result = Ok score
       /\ App.sources_str E result = Ok sources
       /\ row = App.FactCheck claim
                  (App.get_or "verdict" (JStr "neutral") result)
                  (App.get_or "explanation" (JStr "Analysis not available")
                     result)
                  score sources (now w).
Proof.
  unfold App.save.
  destruct (App.session_local D w); [intros H; discriminate H|].
  simpl.
  destruct (App.score_value result) as [score|]; [|intros H; discriminate H].
  destruct (App.sources_str E result) as [sources|];
    [|intros H; discriminate H].
  destruct (App.add_commit D w _); [intros H; discriminate H|].
  intros H. injection H as <-. split; [reflexivity|].
  exists score, sources. repeat split.
Qed.


Lemma field_dict (k : string) (r v : json) :
  Json.field k r = Some v ->
  exists d, r = JDict d /\ Json.lookup k d = Some v /\ App.get k d = v.
Proof.
  destruct r; try (intros H; discriminate H).
  simpl. intros H. eexists. split; [reflexivity|].
  split; [exact H | unfold App.get; rewrite H; reflexivity].
Qed.

Lemma success_inj (a b : list (string * json)) :
  App.success a = App.success b -> a = b.
Proof. intros H. injection H as H. exact H. Qed.

(** When the content of the reply is a success, it is the normalised
    result. *)
Lemma stub_success (D : App.database) (E : env)
  (claim_data : list (string * json)) (claim : string) (w w' : world)
  (d result : list (string * json)) :
  App.claim_of claim_data = Ok claim ->
  claim <> EmptyString ->
  verify_claim E claim None w = (Ok (JDict d), w') ->
  App.content (App.reply (App.verify_claim_stub D E claim_data w))
  = App.success result ->
  result = App.normalise claim d.
Proof.
  intros Hc Hne Hrun.
  destruct (stub_parts D E claim_data claim w w' d Hc Hne Hrun)
    as (_ & _ & ->).
  destruct (snd (App.save D E claim (App.normalise claim d) w')).
  - intros H. discriminate H.
  - destruct (App.compliant _); intros H; [|discriminate H].
    symmetry. apply success_inj, H.
Qed.

Lemma all_verdicts_truthy (v : string) :
  In v all_verdicts -> Json.truthy (JStr v) = true.
Proof.
  simpl. intros H.
  repeat (destruct H as [<-|H]; [reflexivity|]). contradiction.
Qed.

Lemma nonempty_truthy (t : string) :
  t <> EmptyString -> Json.truthy (JStr t) = true.
Proof. destruct t; [contradiction | reflexivity]. Qed.

(** X18: for a result that was computed, not served from the store, the
    endpoint's defaults touch the score and the sources only.  The result
    in a successful reply has the text, the verdict and the explanation of
    the pipeline's result; its score is the pipeline's, except that a
    score of zero is reported as the integer 50 under the same verdict;
    its sources are the pipeline's, except that an empty list is replaced
    by the sample sources of the verdict. *)
Theorem computed_result_reported (D : App.database) (E : env)
  (claim_data : list (string * json)) (claim : string) (w : world)
  (Hclaim : App.claim_of claim_data = Ok claim)
  (Hne : claim <> EmptyString)
  (Hhit : hit (fst (cache_lookup E (cache_key claim None) w)) = false) :
  exists d w' x sources,
    verify_claim E claim None w = (Ok (JDict d), w')
    /\ Json.lookup "score" d = Some (JFloat x)
    /\ Json.lookup "sources" d = Some (JList sources)
    /\ forall result,
         App.content (App.reply (App.verify_claim_stub D E claim_data w))
         = App.success result ->
         App.get "text" result = JStr claim
         /\ App.get "verdict" result = App.get "verdict" d
         /\ App.get "explanation" result = App.get "explanation" d
         /\ App.get "score" result
            = (if PyNum.feq x PyNum.f0 then JInt 50 else JFloat x)
         /\ App.get "sources" result
            = JList match sources with
                    | [] => App.default_sources claim (App.get "verdict" d)
                    | _ => sources
                    end.
Proof.
  destruct (verify_claim E claim None w) as [o w'] eqn:Hrun.
  assert (Hok : exists r, o = Ok r).
  { rewrite boundary in Hrun.
    destruct (verify_claim_body E claim None w) as [[r|e] w0];
      injection Hrun as <- _; eexists; reflexivity. }
  destruct Hok as (r & ->).
  destruct (computed_shape E claim None w w' r Hhit Hrun)
    as (Ht & (x & Hs & _) & (v & Hv & Hvin) & (t & He & Hte)
        & (l & Hl) & _).
  destruct (field_dict _ _ _ Hs) as (d & -> & Hsd & Hsg).
  simpl in Ht, Hv, He, Hl.
  exists d, w', x, l.
  split; [reflexivity|]. split; [exact Hsd|]. split; [exact Hl|].
  intros result Hres.
  rewrite (stub_success D E claim_data claim w w' d result Hclaim Hne Hrun Hres).
  destruct (normalise_fields claim d) as (Nt & Ne & Ns & Nv & Nsrc).
  assert (Gv : App.get "verdict" d = JStr v)
    by (unfold App.get; rewrite Hv; reflexivity).
  assert (Ge : App.get "explanation" d = JStr t)
    by (unfold App.get; rewrite He; reflexivity).
  assert (Gl : App.get "sources" d = JList l)
    by (unfold App.get; rewrite Hl; reflexivity).
  assert (Nv' : App.get "verdict" (App.normalise claim d)
                = App.get "verdict" d).
  { rewrite Nv, Gv, (all_verdicts_truthy v Hvin). reflexivity. }
  split; [exact Nt|]. split; [exact Nv'|].
  split; [rewrite Ne, Ge, (nonempty_truthy t Hte); reflexivity|].
  split.
  - rewrite Ns, Hsg. simpl. destruct (PyNum.feq x PyNum.f0); reflexivity.
  - rewrite Nsrc, Nv', Gl. destruct l; reflexivity.
Qed.

Lemma computed_result_reported_witness :
  App.claim_of Sample4.request = Ok Sample.claim
  /\ Sample.claim <> EmptyString
  /\ hit (fst (cache_lookup Sample4.never (cache_key Sample.claim None)
                 Sample.start)) = false
  /\ exists d w' x sources,
       verify_claim Sample4.never Sample.claim None Sample.start
       = (Ok (JDict d), w')
       /\ Json.lookup "score" d = Some (JFloat x)
       /\ Json.lookup "sources" d = Some (JList sources)
       /\ forall result,
            App.content
              (App.reply
                 (App.verify_claim_stub Sample4.db_up Sample4.never
                    Sample4.request Sample.start))
            = App.success result ->
            App.get "text" result = JStr Sample.claim
            /\ App.get "verdict" result = App.get "verdict" d
            /\ App.get "explanation" result = App.get "explanation" d
            /\ App.get "score" result
               = (if PyNum.feq x PyNum.f0 then JInt 50 else JFloat x)
            /\ App.get "sources" result
               = JList match sources with
                       | [] => App.default_sources Sample.claim
                                 (App.get "verdict" d)
                       | _ => sources
                       end.
Proof.
  assert (H1 : App.claim_of Sample4.request = Ok Sample.claim)
    by (vm_compute; reflexivity).
  assert (H2 : Sample.claim <> EmptyString) by discriminate.
  assert (H3 : hit (fst (cache_lookup Sample4.never
                           (cache_key Sample.claim None) Sample.start))
               = false) by (vm_compute; reflexivity).
  exact (conj H1 (conj H2 (conj H3
           (computed_result_reported Sample4.db_up Sample4.never
              Sample4.request Sample.claim Sample.start H1 H2 H3)))).
Defined.

(** The judge says -10: the pipeline clamps it to 0, the endpoint reports
    50 and stores one half, under the verdict false. *)
Example never_reported_as_fifty :
  let x := App.verify_claim_stub Sample4.db_up Sample4.never Sample4.request
             Sample.start in
  (exists result,
     App.reply x = App.JSONResponse 200 (App.success result)
     /\ App.get "score" result = JInt 50
     /\ App.get "verdict" result = JStr "false")
  /\ exists row,
       App.stored x = Some row
       /\ App.row_score row = JFloat (Fin (1 # 2))
       /\ App.row_verdict row = JStr "false".
Proof.
  split.
  - eexists. split; [vm_compute; reflexivity|]. split; reflexivity.
  - eexists. split; [vm_compute; reflexivity|]. split; reflexivity.
Qed.

Lemma links_not_dicts (E : env) (ev : list evidence_item) :
  Forall sound_link ev -> omap App.format_source (map link ev) = [].
Proof.
  induction 1 as [|e ev [_ Hh] _ IH]; [reflexivity|].
  simpl. destruct (link e); try discriminate Hh; simpl; exact IH.
Qed.

(** X19: the links that were gathered reach the client and not the
    database.  When the pipeline computed its result from at least one
    item of evidence, a successful reply lists the links of the evidence
    as its sources, and the row that is stored holds, as its sources, the
    one placeholder entry FactCheck Database. *)
Theorem gathered_links_not_stored (D : App.database) (E : env)
  (claim_data : list (string * json)) (claim : string)
  (w w1 w2 w' : world) (r : json) (ev : list evidence_item)
  (Hclaim : App.claim_of claim_data = Ok claim)
  (Hne : claim <> EmptyString)
  (Hlen : too_short claim = false)
  (Hmiss : cache_lookup E (cache_key claim None) w = (Ok None, w1))
  (Hev : _search_for_evidence E claim w1 = (Ok ev, w2))
  (Hsome : ev <> [])
  (Hbody : verify_claim_body E claim None w = (Ok r, w')) :
  let x := App.verify_claim_stub D E claim_data w in
  (forall result,
     App.content (App.reply x) = App.success result ->
     App.get "sources" result = JList (map link ev))
  /\ (forall row,
        App.stored x = Some row ->
        App.row_sources row = json_dumps E (JList [App.fallback_source])).
Proof.
  cbv zeta.
  destruct (miss_result E claim None w w1 w' r Hlen Hmiss Hbody)
    as (ev' & w2' & p & w3 & s & w4 & Hev' & _ & _ & ->).
  rewrite Hev in Hev'. injection Hev' as <- <-.
  assert (Hrun : verify_claim E claim None w
                 = (Ok (final_result claim p ev s), w'))
    by (rewrite boundary, Hbody; reflexivity).
  destruct (search_sound E claim w1 w2 ev Hev) as [_ Hsound].
  unfold final_result in Hrun.
  set (d := [("text", JStr claim); ("score", JFloat (score p));
             ("verdict", JStr (verdict p));
             ("explanation", JStr (explanation p));
             ("evidence", JList (map evidence_json ev));
             ("sources", JList (sources_of ev));
             ("reviews", JList []);
             ("gpt_score", match fst s with
                           | Some x => JFloat x
                           | None => JNull
                           end);
             ("gpt_explanation", snd s)]) in Hrun.
  assert (Hsrc : App.get "sources" (App.normalise claim d)
                 = JList (map link ev)).
  { destruct (normalise_fields claim d) as (_ & _ & _ & _ & ->).
    change (App.get "sources" d) with (JList (sources_of ev)).
    rewrite (sources_all _ Hsound).
    destruct ev; [contradiction | reflexivity]. }
  split.
  - intros result Hres.
    rewrite (stub_success D E claim_data claim w w' d result Hclaim Hne
               Hrun Hres).
    exact Hsrc.
  - intros row Hrow.
    destruct (stub_parts D E claim_data claim w w' d Hclaim Hne Hrun)
      as (Hst & _ & _).
    rewrite Hst in Hrow.
    destruct (save_row _ _ _ _ _ _ Hrow) as (_ & sc & so & _ & Hso & ->).
    simpl. unfold App.sources_str in Hso. rewrite Hsrc in Hso.
    unfold iterate, obind in Hso.
    rewrite (links_not_dicts E _ Hsound) in Hso.
    destruct (Json.truthy (JList (map link ev)));
      injection Hso as <-; reflexivity.
Qed.

Lemma gathered_links_not_stored_witness :
  App.claim_of Sample4.request = Ok Sample.claim
  /\ Sample.claim <> EmptyString
  /\ too_short Sample.claim = false
  /\ cache_lookup Sample4.uncached (cache_key Sample.claim None) Sample.start
     = (Ok None, Sample.start)
  /\ _search_for_evidence Sample4.uncached Sample.claim Sample.start
     = (Ok Sample.evidence,
        snd (_search_for_evidence Sample4.uncached Sample.claim
               Sample.start))
  /\ Sample.evidence <> []
  /\ verify_claim_body Sample4.uncached Sample.claim None Sample.start
     = (Ok Sample.result,
        snd (verify_claim_body Sample4.uncached Sample.claim None
               Sample.start))
  /\ let x := App.verify_claim_stub Sample4.db_up Sample4.uncached
                Sample4.request Sample.start in
     (forall result,
        App.content (App.reply x) = App.success result ->
        App.get "sources" result = JList (map link Sample.evidence))
     /\ (forall row,
           App.stored x = Some row ->
           App.row_sources row
           = json_dumps Sample4.uncached (JList [App.fallback_source])).
Proof.
  assert (H1 : App.claim_of Sample4.request = Ok Sample.claim)
    by (vm_compute; reflexivity).
  assert (H2 : Sample.claim <> EmptyString) by discriminate.
  assert (H3 : too_short Sample.claim = false) by (vm_compute; reflexivity).
  assert (H4 : cache_lookup Sample4.uncached (cache_key Sample.claim None)
                 Sample.start = (Ok None, Sample.start))
    by (vm_compute; reflexivity).
  assert (H5 : _search_for_evidence Sample4.uncached Sample.claim Sample.start
               = (Ok Sample.evidence,
        snd (_search_for_evidence Sample4.uncached Sample.claim
               Sample.start)))
    by (vm_compute; reflexivity).
  assert (H6 : Sample.evidence <> []) by discriminate.
  assert (H7 : verify_claim_body Sample4.uncached Sample.claim None
                 Sample.start
               = (Ok Sample.result,
                  snd (verify_claim_body Sample4.uncached Sample.claim None
                         Sample.start)))
    by (vm_compute; reflexivity).
  exact (conj H1 (conj H2 (conj H3 (conj H4 (conj H5 (conj H6 (conj H7
           (gathered_links_not_stored Sample4.db_up Sample4.uncached
              Sample4.request Sample.claim Sample.start Sample.start
              _ _ Sample.result Sample.evidence
              H1 H2 H3 H4 H5 H6 H7)))))))).
Defined.

(** The sample run: two links in the reply, the placeholder in the row. *)
Example links_in_reply_only :
  let x := App.verify_claim_stub Sample4.db_up Sample4.uncached
             Sample4.request Sample.start in
  (exists result,
     App.reply x = App.JSONResponse 200 (App.success result)
     /\ App.get "sources" result
        = JList [JStr "https://www.nasa.gov/great-wall";
                 JStr "https://example.org/myth"])
  /\ exists row,
       App.stored x = Some row
       /\ App.row_sources row
          = SampleJson.dumps (JList [App.fallback_source]).
Proof.
  split.
  - eexists. split; [vm_compute; reflexivity | reflexivity].
  - eexists. split; [vm_compute; reflexivity | reflexivity].
Qed.

(** X20: what a failing database does to the reply, once the pipeline has
    returned its result.  When no session can be opened, the handler of
    the save block logs the error, but closing the session that was never
    bound raises, and the endpoint answers 500 with that message; nothing
    is stored.  When closing the session raises, the endpoint answers 500
    with that message.  When the session opens and closes but the commit
    raises, the error is swallowed: nothing is stored and the reply is the
    200 it would have been. *)
Theorem database_failures (D : App.database) (E : env)
  (claim_data : list (string * json)) (claim : string) (w w' : world)
  (d : list (string * json))
  (Hclaim : App.claim_of claim_data = Ok claim)
  (Hne : claim <> EmptyString)
  (Hrun : verify_claim E claim None w = (Ok (JDict d), w')) :
  let x := App.verify_claim_stub D E claim_data w in
  (App.session_local D w' <> None ->
   x = (App.failure App.unbound_session, None, w'))
  /\ (App.session_local D w' = None ->
      forall e, App.session_close D w' = Some e ->
                App.reply x = App.failure e)
  /\ (App.session_local D w' = None ->
      App.session_close D w' = None ->
      (forall row, App.add_commit D w' row <> None) ->
      App.stored x = None
      /\ (App.compliant (App.success (App.normalise claim d)) = true ->
          App.reply x
          = App.JSONResponse 200 (App.success (App.normalise claim d)))).
Proof.
  cbv zeta.
  destruct (stub_parts D E claim_data claim w w' d Hclaim Hne Hrun)
    as (Hst & Hw & Hre).
  destruct (App.verify_claim_stub D E claim_data w) as [[resp saved] w0].
  unfold App.stored, App.world_after, App.reply in *. simpl in Hst, Hw, Hre.
  subst saved w0 resp.
  unfold App.save.
  split; [|split].
  - intros Hopen. destruct (App.session_local D w'); [reflexivity|].
    contradiction.
  - intros -> e ->. reflexivity.
  - intros -> -> Hcommit. simpl.
    split.
    + destruct (App.score_value _); [|reflexivity].
      destruct (App.sources_str E _); [|reflexivity].
      destruct (App.add_commit D w' _) eqn:Hadd; [reflexivity|].
      destruct (Hcommit _ Hadd).
    + intros ->. reflexivity.
Qed.

Lemma database_failures_witness :
  App.claim_of Sample4.request = Ok Sample.claim
  /\ Sample.claim <> EmptyString
  /\ verify_claim Sample4.uncached Sample.claim None Sample.start
     = (Ok Sample.result,
        snd (verify_claim Sample4.uncached Sample.claim None Sample.start))
  /\ App.verify_claim_stub Sample4.db_down Sample4.uncached Sample4.request
       Sample.start
     = (App.failure App.unbound_session, None,
        snd (verify_claim Sample4.uncached Sample.claim None Sample.start)).
Proof.
  assert (H1 : App.claim_of Sample4.request = Ok Sample.claim)
    by (vm_compute; reflexivity).
  assert (H2 : Sample.claim <> EmptyString) by discriminate.
  assert (H3 : verify_claim Sample4.uncached Sample.claim None Sample.start
               = (Ok Sample.result,
                  snd (verify_claim Sample4.uncached Sample.claim None
                         Sample.start)))
    by (vm_compute; reflexivity).
  refine (conj H1 (conj H2 (conj H3 _))).
  apply (database_failures Sample4.db_down Sample4.uncached Sample4.request
           Sample.claim Sample.start _ _ H1 H2 H3).
  discriminate.
Defined.

(** With a database that refuses commits the client sees no difference. *)
Example commit_failure_unseen :
  App.reply (App.verify_claim_stub Sample4.db_read_only Sample4.uncached
               Sample4.request Sample.start)
  = App.reply (App.verify_claim_stub Sample4.db_up Sample4.uncached
                 Sample4.request Sample.start)
  /\ App.stored (App.verify_claim_stub Sample4.db_read_only Sample4.uncached
                   Sample4.request Sample.start) = None.
Proof. split; vm_compute; reflexivity. Qed.

Lemma Qred_pos (q : Q) : (0 < q)%Q -> (0 < Qred q)%Q.
Proof. intros H. rewrite Qred_correct. exact H. Qed.



